(** * ecommerce_api: the product catalogue views, serializers and models

    A shallow embedding of [ecommerce_api/models.py],
    [ecommerce_api/serializers.py] and [ecommerce_api/views.py].

    - The database is an explicit [Store] of tables (lists of rows in
      primary-key order) with the two AUTOINCREMENT sequences.
    - Code that reads or writes the database, or raises, lives in the monad
      [M]: a state monad over [Store] with Python exceptions.
    - [transaction.atomic()] restores the store when its body raises.
    - A [DecimalField(max_digits=10, decimal_places=2)] value is carried as
      its number of hundredths; request payloads are carried at the JSON
      types the serializers name, and a decimal taken from a payload keeps
      the tag of the JSON value it came from (string or number), because the
      view tests the truthiness of the raw value.
    - [created_at] stamps and the order tables are left out: no view in
      scope reads or writes them. *)

From Stdlib Require Import ZArith String Ascii List Lia.
From stdpp Require Import base list gmap strings.

Local Open Scope Z_scope.

(** ** Python built-ins used by the views *)

Module Py.

(** [str.isspace] on the ASCII range. *)
Definition isspace (c : ascii) : bool :=
  let n := nat_of_ascii c in
  ((9 <=? n)%nat && (n <=? 13)%nat) || ((28 <=? n)%nat && (n <=? 32)%nat).

Fixpoint lstrip_chars (l : list ascii) : list ascii :=
  match l with
  | c :: l' => if isspace c then lstrip_chars l' else l
  | [] => []
  end.

(** [s.strip()] *)
Definition strip (s : string) : string :=
  string_of_list_ascii
    (rev (lstrip_chars (rev (lstrip_chars (list_ascii_of_string s))))).

Definition lower_char (c : ascii) : ascii :=
  let n := nat_of_ascii c in
  if (65 <=? n)%nat && (n <=? 90)%nat then ascii_of_nat (n + 32) else c.

(** [s.lower()] on the ASCII range. *)
Fixpoint lower (s : string) : string :=
  match s with
  | EmptyString => EmptyString
  | String c s' => String (lower_char c) (lower s')
  end.

(** [needle in hay] for strings. *)
Fixpoint contains (needle hay : string) : bool :=
  String.prefix needle hay ||
  match hay with
  | EmptyString => false
  | String _ hay' => contains needle hay'
  end.

(** Truthiness of a string: [bool(s)]. *)
Definition truthy_str (s : string) : bool :=
  match s with EmptyString => false | _ => true end.

(** Truthiness of [query_params.get(name)]: [None] and [''] are falsy. *)
Definition truthy_param (o : option string) : bool :=
  match o with Some s => truthy_str s | None => false end.

Definition digit_value (c : ascii) : option Z :=
  let n := nat_of_ascii c in
  if (48 <=? n)%nat && (n <=? 57)%nat then Some (Z.of_nat n - 48) else None.

(** The digits of an integer literal: decimal digits, any two of which may
    be separated by one underscore.  [prev_digit] tells whether the
    character before was a digit, [acc] is the value read so far. *)
Fixpoint int_digits (l : list ascii) (prev_digit : bool) (acc : Z) : option Z :=
  match l with
  | [] => if prev_digit then Some acc else None
  | c :: l' =>
      match digit_value c with
      | Some d => int_digits l' true (10 * acc + d)
      | None =>
          if (nat_of_ascii c =? 95)%nat && prev_digit
          then int_digits l' false acc
          else None
      end
  end.

(** [int(s)] for a string: [None] stands for [ValueError]. *)
Definition int (s : string) : option Z :=
  match list_ascii_of_string (strip s) with
  | c :: l =>
      if (nat_of_ascii c =? 45)%nat then Z.opp <$> int_digits l false 0
      else if (nat_of_ascii c =? 43)%nat then int_digits l false 0
      else int_digits (c :: l) false 0
  | [] => None
  end.

(** [min(xs)]: [None] stands for the [ValueError] on an empty sequence. *)
Definition min (xs : list Z) : option Z :=
  match xs with
  | [] => None
  | x :: xs' => Some (fold_left Z.min xs' x)
  end.

End Py.

(** ** models.py *)

(** A [DecimalField(max_digits=10, decimal_places=2)] value, in hundredths. *)
Definition Decimal := Z.

Module Merchant.
Record t := mk {
  id : Z;
  name : string;
  email : string;
  store_url : string;   (* unique=True *)
  status : string }.
End Merchant.

Module Product.
Record t := mk {
  id : Z;
  merchant_id : Z;      (* ForeignKey(Merchant) *)
  external_id : string;
  title : string;
  description : string;
  product_type : string;
  active : bool;
  base_price : Decimal }.

(** [unique_together = ['merchant', 'external_id']] *)
Definition key (p : t) : Z * string := (merchant_id p, external_id p).
End Product.

Module Variant.
Record t := mk {
  id : Z;
  product_id : Z;       (* ForeignKey(Product) *)
  external_id : string;
  name : string;
  sku : string;
  price : Decimal;
  retail_price : Decimal;
  quantity : Z;
  active : bool }.

(** [unique_together = ['product', 'external_id']] *)
Definition key (v : t) : Z * string := (product_id v, external_id v).

(** The instance with its primary key set, as the insert leaves it. *)
Definition with_id (i : Z) (v : t) : t :=
  mk i (product_id v) (external_id v) (name v) (sku v) (price v)
     (retail_price v) (quantity v) (active v).
End Variant.

(** The tables, in primary-key order, and the AUTOINCREMENT sequences: the
    largest primary key ever handed out in each table.  Integer columns hold
    any integer; the 64-bit range of the database is not modelled. *)
Record Store := mkStore {
  merchants : list Merchant.t;
  products : list Product.t;
  variants : list Variant.t;
  product_seq : Z;
  variant_seq : Z }.

(** ** Exceptions and the database monad *)

Inductive exn :=
| Merchant_DoesNotExist
| Product_DoesNotExist
| MultipleObjectsReturned
| IntegrityError
| ValueError
| KeyError
| Http404       (* django.http.Http404 *)
| NotFound.     (* rest_framework.exceptions.NotFound *)

Inductive result (A : Type) :=
| Ok (a : A)
| Raise (e : exn).
Arguments Ok {A} a.
Arguments Raise {A} e.

Definition M (A : Type) : Type := Store -> result A * Store.

Definition ret {A} (a : A) : M A := fun db => (Ok a, db).

Definition bind {A B} (m : M A) (f : A -> M B) : M B :=
  fun db =>
    match m db with
    | (Ok a, db') => f a db'
    | (Raise e, db') => (Raise e, db')
    end.

Definition raise {A} (e : exn) : M A := fun db => (Raise e, db).

Definition get_store : M Store := fun db => (Ok db, db).

Definition put_store (db' : Store) : M unit := fun _ => (Ok tt, db').

(** A value that Python computes or fails on without touching the store. *)
Definition lift {A} (e : exn) (o : option A) : M A :=
  match o with Some a => ret a | None => raise e end.

(** [with transaction.atomic(): body]: the body's writes are kept when it
    returns and undone when it raises; the exception goes on to the caller. *)
Definition atomic {A} (body : M A) : M A :=
  fun db =>
    match body db with
    | (Ok a, db') => (Ok a, db')
    | (Raise e, _) => (Raise e, db)
    end.

Notation "x <- m ;; k" := (bind m (fun x => k))
  (at level 100, m at next level, right associativity, only parsing).

(** ** The ORM calls the views make *)

(** [queryset.get(...)] on the rows that match. *)
Definition get_row {A} (does_not_exist : exn) (rows : list A) : M A :=
  match rows with
  | [] => raise does_not_exist
  | [row] => ret row
  | _ => raise MultipleObjectsReturned
  end.

(** The integer a lookup on an integer column is given: [int(value)], with
    [ValueError] for a string that is no number. *)
Definition get_prep_value (value : string) : M Z := lift ValueError (Py.int value).

(** [Merchant.objects.get(store_url=value)] *)
Definition Merchant_get_by_store_url (value : string) : M Merchant.t :=
  db <- get_store ;;
  get_row Merchant_DoesNotExist
    (filter (fun m => Merchant.store_url m = value) (merchants db)).

(** [Merchant.objects.get(id=merchant_id)] *)
Definition Merchant_get_by_id (merchant_id : string) : M Merchant.t :=
  i <- get_prep_value merchant_id ;;
  db <- get_store ;;
  get_row Merchant_DoesNotExist
    (filter (fun m => Merchant.id m = i) (merchants db)).

(** [Product.objects.create(...)]: the row takes the next primary key;
    [base_price] takes its default [0.00]. *)
Definition Product_create (merchant : Merchant.t) (external_id title description
    product_type : string) (active : bool) : M Product.t :=
  db <- get_store ;;
  let p := Product.mk (product_seq db + 1) (Merchant.id merchant) external_id
             title description product_type active 0 in
  if decide (Product.key p ∈ Product.key <$> products db) then raise IntegrityError
  else
    _ <- put_store (mkStore (merchants db) (products db ++ [p]) (variants db)
                      (product_seq db + 1) (variant_seq db)) ;;
    ret p.

(** [Product.objects.get_or_create(merchant=, external_id=, defaults=)]:
    the row under the pair when there is one, else a new row, created inside
    a savepoint.  (Django looks the row up once more when the insert fails;
    with one request at a time the insert cannot fail after the lookup has
    found nothing, and that second lookup is left out.) *)
Definition Product_get_or_create (merchant : Merchant.t) (external_id title
    description product_type : string) (active : bool) : M (Product.t * bool) :=
  db <- get_store ;;
  match filter (fun p => Product.key p = (Merchant.id merchant, external_id))
          (products db) with
  | [] =>
      p <- atomic (Product_create merchant external_id title description
                     product_type active) ;;
      ret (p, true)
  | [p] => ret (p, false)
  | _ => raise MultipleObjectsReturned
  end.

(** [product.save()] on an instance that has a row: the row with the
    instance's primary key takes the instance's fields.  Both call sites keep
    [merchant] and [external_id], so the unique pair cannot clash. *)
Definition Product_save (p : Product.t) : M unit :=
  db <- get_store ;;
  put_store (mkStore (merchants db)
               ((fun row => if decide (Product.id row = Product.id p) then p else row)
                  <$> products db)
               (variants db) (product_seq db) (variant_seq db)).

(** [product.variants.all()] *)
Definition Product_variants (p : Product.t) : M (list Variant.t) :=
  db <- get_store ;;
  ret (filter (fun v => Variant.product_id v = Product.id p) (variants db)).

(** One row of the batch: refused on a stored (product, external_id) pair,
    else appended under the next primary key. *)
Definition Variant_insert (v : Variant.t) : M unit :=
  db <- get_store ;;
  if decide (Variant.key v ∈ Variant.key <$> variants db) then raise IntegrityError
  else
    put_store (mkStore (merchants db) (products db)
                 (variants db ++ [Variant.with_id (variant_seq db + 1) v])
                 (product_seq db) (variant_seq db + 1)).

Fixpoint Variant_insert_all (objs : list Variant.t) : M unit :=
  match objs with
  | [] => ret tt
  | v :: objs' => _ <- Variant_insert v ;; Variant_insert_all objs'
  end.

(** [Variant.objects.bulk_create(objs)]: all rows or none. *)
Definition Variant_bulk_create (objs : list Variant.t) : M unit :=
  atomic (Variant_insert_all objs).

(** [Product.objects.filter(id__in=ids).update(active=active)]: one UPDATE,
    returning the number of rows matched. *)
Definition Product_update_active (ids : list Z) (active : bool) : M Z :=
  db <- get_store ;;
  _ <- put_store (mkStore (merchants db)
               ((fun p => if decide (Product.id p ∈ ids)
                          then Product.mk (Product.id p) (Product.merchant_id p)
                                 (Product.external_id p) (Product.title p)
                                 (Product.description p) (Product.product_type p)
                                 active (Product.base_price p)
                          else p) <$> products db)
               (variants db) (product_seq db) (variant_seq db)) ;;
  ret (Z.of_nat (length (filter (fun p => Product.id p ∈ ids) (products db)))).

(** [try: body except ...: handler]: when the body raises, the handler
    runs on the store as the body left it; a handler re-raises what no
    [except] clause of the source takes. *)
Definition try_except {A} (body : M A) (handler : exn -> M A) : M A :=
  fun db =>
    match body db with
    | (Ok a, db') => (Ok a, db')
    | (Raise e, db') => handler e db'
    end.

(** ** Request payloads *)

(** The JSON value a decimal field is read from: a string holding a decimal
    literal, or a number.  Both are carried by the decimal they denote. *)
Inductive JsonDecimal :=
| JString (d : Decimal)
| JNumber (d : Decimal).

(** [Decimal(str(j))] *)
Definition Decimal_of_str (j : JsonDecimal) : Decimal :=
  match j with JString d => d | JNumber d => d end.

(** A key of a JSON object whose value may be [null]. *)
Inductive Field (A : Type) :=
| Absent
| Null
| Value (a : A).
Arguments Absent {A}.
Arguments Null {A}.
Arguments Value {A} a.

(** [bool(data.get(key))] for a decimal key: a missing key and [null] give
    [None]; a number is truthy unless it is zero; a string holding a decimal
    literal is not empty, hence truthy whatever number it spells. *)
Definition truthy_decimal (f : Field JsonDecimal) : bool :=
  match f with
  | Absent | Null => false
  | Value (JString _) => true
  | Value (JNumber d) => negb (d =? 0)
  end.

Module VariantPayload.
Record t := mk {
  id : option string;
  title : option string;
  sku : option string;
  price : option JsonDecimal;
  compare_at_price : Field JsonDecimal;
  inventory_quantity : option Z }.
End VariantPayload.

Module ProductPayload.
Record t := mk {
  id : option string;
  title : option string;
  description : option string;
  product_type : option string;
  variants : option (list VariantPayload.t) }.   (* [None]: missing, or no list *)
End ProductPayload.

Module ImportData.
Record t := mk {
  store_url : option string;
  product : option ProductPayload.t }.
End ImportData.

Module BulkData.
Record t := mk {
  product_ids : option (list Z);
  active : option bool }.
End BulkData.

Module QueryParams.
Record t := mk {
  merchant_id : option string;
  active : option string;
  search : option string;
  page : option string;
  page_size : option string }.
End QueryParams.

(** ** serializers.py *)

(** The outcome of validating one field. *)
Inductive validation (A : Type) :=
| Valid (a : A)
| Invalid (detail : string).
Arguments Valid {A} a.
Arguments Invalid {A} detail.

Definition has_null_char (s : string) : bool :=
  Py.contains (String (ascii_of_nat 0) EmptyString) s.

(** [CharField(allow_blank=...).run_validation(data)] on a string: blank
    input is refused unless allowed, null characters are refused, and the
    validated value is the input without surrounding whitespace. *)
Definition CharField (allow_blank : bool) (data : string) : validation string :=
  if negb allow_blank && negb (Py.truthy_str (Py.strip data))
  then Invalid "This field may not be blank."
  else if has_null_char data then Invalid "Null characters are not allowed."
  else Valid (Py.strip data).

Definition required {A B} (field : A -> validation B) (data : option A) : validation B :=
  match data with
  | Some a => field a
  | None => Invalid "This field is required."
  end.

Definition is_valid_field {A} (v : validation A) : bool :=
  match v with Valid _ => true | Invalid _ => false end.

(** [DecimalField(max_digits=10, decimal_places=2)]: at most eight digits
    before the point.  (More than two decimal places are refused too; such
    a value has no [JsonDecimal].) *)
Definition DecimalField (data : JsonDecimal) : validation Decimal :=
  if Z.abs (Decimal_of_str data) <? 10 ^ 10
  then Valid (Decimal_of_str data)
  else Invalid "Ensure that there are no more than 8 digits before the decimal point.".

(** [IntegerField(min_value=0)] *)
Definition IntegerField_min0 (data : Z) : validation Z :=
  if data <? 0 then Invalid "Ensure this value is greater than or equal to 0."
  else Valid data.

(** [ImportVariantSerializer(data=v).is_valid()] *)
Definition ImportVariantSerializer_is_valid (v : VariantPayload.t) : bool :=
  is_valid_field (required (CharField false) (VariantPayload.id v))
  && is_valid_field (required (CharField false) (VariantPayload.title v))
  && match VariantPayload.sku v with
     | Some s => is_valid_field (CharField true s)
     | None => true
     end
  && is_valid_field (required DecimalField (VariantPayload.price v))
  && match VariantPayload.compare_at_price v with
     | Value j => is_valid_field (DecimalField j)
     | Absent | Null => true
     end
  && is_valid_field (required IntegerField_min0 (VariantPayload.inventory_quantity v)).

(** [ImportVariantSerializer(data=vs, many=True).is_valid()]: the list
    serializer keeps its default [allow_empty=True]. *)
Definition ImportVariantSerializer_many_is_valid (vs : list VariantPayload.t) : bool :=
  forallb ImportVariantSerializer_is_valid vs.

(** [ImportProductSerializer.validate_store_url] *)
Definition validate_store_url (value : string) : M (validation string) :=
  try_except
    (_ <- Merchant_get_by_store_url value ;; ret (Valid value))
    (fun e =>
       match e with
       | Merchant_DoesNotExist =>
           ret (Invalid ("No merchant found with store_url: " +:+ value))
       | _ => raise e
       end).

(** [ImportProductSerializer.validate_product] *)
Definition validate_product (value : ProductPayload.t) : validation ProductPayload.t :=
  match ProductPayload.id value with
  | None => Invalid "Product must have an 'id' field"
  | Some _ =>
      match ProductPayload.title value with
      | None => Invalid "Product must have a 'title' field"
      | Some _ =>
          match ProductPayload.variants value with
          | None => Invalid "Product must have a 'variants' field with a list of variants"
          | Some vs =>
              if ImportVariantSerializer_many_is_valid vs then Valid value
              else Invalid "variants"
          end
      end
  end.

Definition field_errors {A} (name : string) (v : validation A) : list (string * string) :=
  match v with Valid _ => [] | Invalid detail => [(name, detail)] end.

(** [ImportProductSerializer(data=data).is_valid()], with
    [serializer.errors] on the left and [serializer.validated_data] on the
    right.  Each field is validated, then handed to its [validate_<field>]. *)
Definition ImportProductSerializer_is_valid (data : ImportData.t)
  : M (list (string * string) + string * ProductPayload.t) :=
  store_url <-
    match required (CharField false) (ImportData.store_url data) with
    | Valid value => validate_store_url value
    | Invalid detail => ret (Invalid detail)
    end ;;
  let product :=
    match ImportData.product data with
    | Some value => validate_product value
    | None => Invalid "This field is required."
    end in
  match store_url, product with
  | Valid s, Valid p => ret (inr (s, p))
  | _, _ => ret (inl (field_errors "store_url" store_url ++ field_errors "product" product))
  end.

(** [BulkActivateSerializer(data=data).is_valid()] *)
Definition BulkActivateSerializer_is_valid (data : BulkData.t)
  : list (string * string) + list Z * bool :=
  let product_ids :=
    match BulkData.product_ids data with
    | Some [] => Invalid "This list may not be empty."
    | Some ids => Valid ids
    | None => Invalid "This field is required."
    end in
  let active := required Valid (BulkData.active data) in
  match product_ids, active with
  | Valid ids, Valid a => inr (ids, a)
  | _, _ => inl (field_errors "product_ids" product_ids ++ field_errors "active" active)
  end.

(** [VariantSerializer]: every column but the foreign key. *)
Module VariantFull.
Record t := mk {
  id : Z;
  external_id : string;
  name : string;
  sku : string;
  price : Decimal;
  retail_price : Decimal;
  quantity : Z;
  active : bool }.
End VariantFull.

Definition VariantSerializer (v : Variant.t) : VariantFull.t :=
  VariantFull.mk (Variant.id v) (Variant.external_id v) (Variant.name v)
    (Variant.sku v) (Variant.price v) (Variant.retail_price v)
    (Variant.quantity v) (Variant.active v).

(** [ProductListSerializer]; [image_url] is always [None]. *)
Module ProductSummary.
Record t := mk {
  id : Z;
  title : string;
  base_price : Decimal;
  active : bool;
  image_url : option string }.
End ProductSummary.

Definition ProductListSerializer (p : Product.t) : ProductSummary.t :=
  ProductSummary.mk (Product.id p) (Product.title p) (Product.base_price p)
    (Product.active p) None.

(** [ProductDetailSerializer] *)
Module ProductDetail.
Record t := mk {
  id : Z;
  external_id : string;
  title : string;
  description : string;
  product_type : string;
  active : bool;
  base_price : Decimal;
  merchant_name : string;
  image_url : option string;
  variants : list VariantFull.t }.
End ProductDetail.

(** [ProductDetailSerializer(product).data], [merchant] being
    [product.merchant]; the variants are read from the store. *)
Definition ProductDetailSerializer (p : Product.t) (merchant : Merchant.t)
  : M ProductDetail.t :=
  vs <- Product_variants p ;;
  ret (ProductDetail.mk (Product.id p) (Product.external_id p) (Product.title p)
         (Product.description p) (Product.product_type p) (Product.active p)
         (Product.base_price p) (Merchant.name merchant) None
         (VariantSerializer <$> vs)).

(** ** Responses *)

Inductive Body :=
| error (message : string)                 (* [{'error': message}] *)
| error_of (pre : string) (e : exn)        (* [{'error': f'{pre}{str(e)}'}] *)
| errors (fields : list (string * string)) (* [serializer.errors] *)
| detail (d : ProductDetail.t)
| page_of (count : Z) (next previous : option Z) (results : list ProductSummary.t)
| bulk_result (updated_count : Z) (active : bool)
| exception_detail (e : exn)               (* [{'detail': ...}] for an API exception *)
| server_error.                            (* an exception no handler took *)

Record Response := mkResponse {
  status_code : Z;
  data : Body }.

Definition HTTP_200_OK := 200.
Definition HTTP_201_CREATED := 201.
Definition HTTP_400_BAD_REQUEST := 400.
Definition HTTP_404_NOT_FOUND := 404.
Definition HTTP_500_INTERNAL_SERVER_ERROR := 500.

(** What the framework makes of a view: DRF's exception handler renders
    [Http404] and its own [NotFound] as 404 with a [detail] message; any
    other exception leaves the view and becomes a 500.  Nothing is rolled
    back here: the settings do not set [ATOMIC_REQUESTS]. *)
Definition dispatch (view : M Response) (db : Store) : Response * Store :=
  match view db with
  | (Ok response, db') => (response, db')
  | (Raise Http404, db') => (mkResponse HTTP_404_NOT_FOUND (exception_detail Http404), db')
  | (Raise NotFound, db') => (mkResponse HTTP_404_NOT_FOUND (exception_detail NotFound), db')
  | (Raise _, db') => (mkResponse HTTP_500_INTERNAL_SERVER_ERROR server_error, db')
  end.

(** ** views.py: ProductPagination *)

Module ProductPagination.

Definition page_size := 20.
Definition max_page_size := 100.

(** [rest_framework.pagination._positive_int] *)
Definition _positive_int (integer_string : string) (strict : bool) (cutoff : Z)
  : option Z :=
  match Py.int integer_string with
  | Some n =>
      if (n <? 0) || ((n =? 0) && strict) then None
      else if cutoff =? 0 then Some n else Some (Z.min n cutoff)
  | None => None
  end.

(** [get_page_size]: the [page_size] parameter when it is a positive
    number, cut at [max_page_size]; else the class's [page_size]. *)
Definition get_page_size (q : QueryParams.t) : Z :=
  match QueryParams.page_size q with
  | Some s =>
      match _positive_int s true max_page_size with
      | Some n => n
      | None => page_size
      end
  | None => page_size
  end.

(** [Paginator.num_pages], with [orphans=0] and
    [allow_empty_first_page=True]. *)
Definition num_pages (count per_page : Z) : Z :=
  (Z.max 1 count + per_page - 1) / per_page.

(** What [get_page_number] returns: the number [1], or the parameter. *)
Inductive PageNumber :=
| PageInt (n : Z)
| PageStr (s : string).

(** [get_page_number]: [query_params.get('page') or 1], and the last page
    for the string ['last'].  (Releases of the framework differ on an empty
    [page] parameter; no statement below rests on that case.) *)
Definition get_page_number (q : QueryParams.t) (count per_page : Z) : PageNumber :=
  match QueryParams.page q with
  | Some s =>
      if Py.truthy_str s
      then if String.eqb s "last" then PageInt (num_pages count per_page) else PageStr s
      else PageInt 1
  | None => PageInt 1
  end.

(** [Paginator.validate_number]: [None] stands for [InvalidPage]
    ([PageNotAnInteger] or [EmptyPage]). *)
Definition validate_number (number : PageNumber) (count per_page : Z) : option Z :=
  match (match number with PageInt n => Some n | PageStr s => Py.int s end) with
  | Some n =>
      if n <? 1 then None
      else if num_pages count per_page <? n then None
      else Some n
  | None => None
  end.

(** [Paginator.page(number).object_list]: [object_list[bottom:top]]. *)
Definition page_items {A} (object_list : list A) (number per_page : Z) : list A :=
  let count := Z.of_nat (length object_list) in
  let bottom := (number - 1) * per_page in
  let top := bottom + per_page in
  let top := if count <=? top then count else top in
  take (Z.to_nat (top - bottom)) (drop (Z.to_nat bottom) object_list).

(** [paginate_queryset] followed by [get_paginated_response]: the page, or
    [NotFound] for an invalid page number. *)
Definition paginate {A} (queryset : list A) (q : QueryParams.t)
  : M (Z * option Z * option Z * list A) :=
  let per_page := get_page_size q in
  let count := Z.of_nat (length queryset) in
  match validate_number (get_page_number q count per_page) count per_page with
  | Some number =>
      ret (count,
           (if number <? num_pages count per_page then Some (number + 1) else None),
           (if 1 <? number then Some (number - 1) else None),
           page_items queryset number per_page)
  | None => raise NotFound
  end.

End ProductPagination.

(** ** views.py: ProductViewSet *)

Inductive Action :=
| action_list
| action_retrieve
| action_other.

(** [Product.objects.select_related('merchant')]: each product joined with
    its merchant's row. *)
Definition Product_select_related (db : Store) : list (Product.t * Merchant.t) :=
  flat_map
    (fun p => pair p <$> filter (fun m => Merchant.id m = Product.merchant_id p) (merchants db))
    (products db).

(** [ProductViewSet.get_queryset].  The [prefetch_related] of the retrieve
    action changes how the variants are fetched, not the rows. *)
Definition get_queryset (action : Action) (q : QueryParams.t)
  : M (list (Product.t * Merchant.t)) :=
  db <- get_store ;;
  let queryset := Product_select_related db in
  let merchant_id := QueryParams.merchant_id q in
  if (match action with action_list => true | _ => false end)
     && negb (Py.truthy_param merchant_id)
  then ret []
  else
    queryset <-
      match merchant_id with
      | Some s =>
          if Py.truthy_str s
          then i <- get_prep_value s ;;
               ret (filter (fun r => Product.merchant_id (fst r) = i) queryset)
          else ret queryset
      | None => ret queryset
      end ;;
    let queryset :=
      match QueryParams.active q with
      | Some active =>
          if String.eqb (Py.lower active) "true"
          then filter (fun r => Product.active (fst r) = true) queryset
          else if String.eqb (Py.lower active) "false"
          then filter (fun r => Product.active (fst r) = false) queryset
          else queryset
      | None => queryset
      end in
    let queryset :=
      match QueryParams.search q with
      | Some search =>
          if Py.truthy_str search
          then filter (fun r => Py.contains (Py.lower search)
                                  (Py.lower (Product.title (fst r))) = true) queryset
          else queryset
      | None => queryset
      end in
    ret queryset.

(** [ListModelMixin.list]: the queryset, paginated and serialized.  No
    filter backend is configured, so [filter_queryset] changes nothing. *)
Definition ListModelMixin_list (q : QueryParams.t) : M Response :=
  queryset <- get_queryset action_list q ;;
  pg <- ProductPagination.paginate queryset q ;;
  let '(count, next, previous, rows) := pg in
  ret (mkResponse HTTP_200_OK
         (page_of count next previous
            ((fun r => ProductListSerializer (fst r)) <$> rows))).

(** [ProductViewSet.list] (written [list_]: [list] is the type of lists). *)
Definition list_ (q : QueryParams.t) : M Response :=
  let merchant_id := QueryParams.merchant_id q in
  if negb (Py.truthy_param merchant_id)
  then ret (mkResponse HTTP_400_BAD_REQUEST
              (error "merchant_id query parameter is required"))
  else
    let merchant_id := default EmptyString merchant_id in
    missing <-
      try_except
        (_ <- Merchant_get_by_id merchant_id ;; ret None)
        (fun e =>
           match e with
           | Merchant_DoesNotExist =>
               ret (Some (mkResponse HTTP_404_NOT_FOUND
                            (error ("Merchant with id " +:+ merchant_id
                                    +:+ " does not exist"))))
           | _ => raise e
           end) ;;
    match missing with
    | Some response => ret response
    | None => ListModelMixin_list q
    end.

(** [rest_framework.generics.get_object_or_404(queryset, pk=pk)]: a lookup
    value that is no number, and a missing row, both raise [Http404]. *)
Definition get_object_or_404 (queryset : list (Product.t * Merchant.t)) (pk : string)
  : M (Product.t * Merchant.t) :=
  match Py.int pk with
  | Some i =>
      try_except
        (get_row Product_DoesNotExist
           (filter (fun r => Product.id (fst r) = i) queryset))
        (fun e =>
           match e with
           | Product_DoesNotExist => raise Http404
           | _ => raise e
           end)
  | None => raise Http404
  end.

(** [GenericAPIView.get_object] *)
Definition get_object (action : Action) (pk : string) (q : QueryParams.t)
  : M (Product.t * Merchant.t) :=
  queryset <- get_queryset action q ;;
  get_object_or_404 queryset pk.

(** [RetrieveModelMixin.retrieve], the detail view the viewset inherits. *)
Definition retrieve (pk : string) (q : QueryParams.t) : M Response :=
  instance <- get_object action_retrieve pk q ;;
  d <- ProductDetailSerializer (fst instance) (snd instance) ;;
  ret (mkResponse HTTP_200_OK (detail d)).

Definition with_metadata (p : Product.t) (title description product_type : string)
  : Product.t :=
  Product.mk (Product.id p) (Product.merchant_id p) (Product.external_id p)
    title description product_type (Product.active p) (Product.base_price p).

Definition with_base_price (p : Product.t) (base_price : Decimal) : Product.t :=
  Product.mk (Product.id p) (Product.merchant_id p) (Product.external_id p)
    (Product.title p) (Product.description p) (Product.product_type p)
    (Product.active p) base_price.

(** The [Variant(...)] the import builds from one payload variant; its
    primary key is unset (carried as 0) until the batch insert. *)
Definition new_variant (product : Product.t) (variant_data : VariantPayload.t)
  : M Variant.t :=
  id <- lift KeyError (VariantPayload.id variant_data) ;;
  raw_price <- lift KeyError (VariantPayload.price variant_data) ;;
  let price := Decimal_of_str raw_price in
  let retail_price :=
    if truthy_decimal (VariantPayload.compare_at_price variant_data)
    then match VariantPayload.compare_at_price variant_data with
         | Value j => Decimal_of_str j
         | Absent | Null => price
         end
    else price in
  title <- lift KeyError (VariantPayload.title variant_data) ;;
  quantity <- lift KeyError (VariantPayload.inventory_quantity variant_data) ;;
  ret (Variant.mk 0 (Product.id product) id title
         (default EmptyString (VariantPayload.sku variant_data))
         price retail_price quantity true).

(** The loop of [import_product] that fills [variants_to_create]. *)
Fixpoint variants_to_create (product : Product.t) (existing_variant_ids : gset string)
    (payload : list VariantPayload.t) : M (list Variant.t) :=
  match payload with
  | [] => ret []
  | variant_data :: payload' =>
      id <- lift KeyError (VariantPayload.id variant_data) ;;
      if decide (id ∈ existing_variant_ids)
      then variants_to_create product existing_variant_ids payload'
      else
        v <- new_variant product variant_data ;;
        vs <- variants_to_create product existing_variant_ids payload' ;;
        ret (v :: vs)
  end.

(** [Decimal(str(v['price'])) for v in product_data['variants']] *)
Fixpoint payload_prices (payload : list VariantPayload.t) : M (list Decimal) :=
  match payload with
  | [] => ret []
  | v :: payload' =>
      raw_price <- lift KeyError (VariantPayload.price v) ;;
      prices <- payload_prices payload' ;;
      ret (Decimal_of_str raw_price :: prices)
  end.

(** The body of [with transaction.atomic():] in [import_product]. *)
Definition import_transaction (merchant : Merchant.t) (product_data : ProductPayload.t)
  : M Response :=
  external_id <- lift KeyError (ProductPayload.id product_data) ;;
  title <- lift KeyError (ProductPayload.title product_data) ;;
  let description := default EmptyString (ProductPayload.description product_data) in
  let product_type := default EmptyString (ProductPayload.product_type product_data) in
  got <- Product_get_or_create merchant external_id title description product_type true ;;
  let created := snd got in
  product <-
    (if created then ret (fst got)
     else
       let product := with_metadata (fst got) title description product_type in
       _ <- Product_save product ;;
       ret product) ;;
  stored <- Product_variants product ;;
  let existing_variant_ids : gset string :=
    list_to_set (Variant.external_id <$> stored) in
  payload <- lift KeyError (ProductPayload.variants product_data) ;;
  to_create <- variants_to_create product existing_variant_ids payload ;;
  _ <- (match to_create with
        | [] => ret tt
        | _ => Variant_bulk_create to_create
        end) ;;
  prices <- payload_prices payload ;;
  min_price <- lift ValueError (Py.min prices) ;;
  let product := with_base_price product min_price in
  _ <- Product_save product ;;
  d <- ProductDetailSerializer product merchant ;;
  ret (mkResponse (if created then HTTP_201_CREATED else HTTP_200_OK) (detail d)).

(** [ProductViewSet.import_product] *)
Definition import_product (data : ImportData.t) : M Response :=
  checked <- ImportProductSerializer_is_valid data ;;
  match checked with
  | inl errs => ret (mkResponse HTTP_400_BAD_REQUEST (errors errs))
  | inr (store_url, product_data) =>
      try_except
        (merchant <- Merchant_get_by_store_url store_url ;;
         atomic (import_transaction merchant product_data))
        (fun e =>
           match e with
           | Merchant_DoesNotExist =>
               ret (mkResponse HTTP_404_NOT_FOUND
                      (error ("Merchant with store_url " +:+ store_url +:+ " not found")))
           | IntegrityError =>
               ret (mkResponse HTTP_400_BAD_REQUEST
                      (error_of "Database integrity error: " e))
           | _ =>
               ret (mkResponse HTTP_500_INTERNAL_SERVER_ERROR
                      (error_of "An error occurred: " e))
           end)
  end.

(** [ProductViewSet.bulk_activate] *)
Definition bulk_activate (data : BulkData.t) : M Response :=
  match BulkActivateSerializer_is_valid data with
  | inl errs => ret (mkResponse HTTP_400_BAD_REQUEST (errors errs))
  | inr (product_ids, active) =>
      try_except
        (updated_count <- Product_update_active product_ids active ;;
         ret (mkResponse HTTP_200_OK (bulk_result updated_count active)))
        (fun e =>
           ret (mkResponse HTTP_500_INTERNAL_SERVER_ERROR
                  (error_of "An error occurred: " e)))
  end.

(** * Vocabulary of the statements *)

(** A computation that only reads the store. *)
Definition read_only {A} (m : M A) : Prop :=
  forall db r db', m db = (r, db') -> db' = db.

(** The price a payload variant carries, as the decimal the view reads. *)
Definition payload_price (v : VariantPayload.t) : option Decimal :=
  Decimal_of_str <$> VariantPayload.price v.

(** The retail price the import gives a new variant whose payload carries
    [compare_at_price] and the price [price]. *)
Definition retail_price_of (compare_at_price : Field JsonDecimal) (price : Decimal)
  : Decimal :=
  match compare_at_price with
  | Value (JString d) => d
  | Value (JNumber d) => if d =? 0 then price else d
  | Absent | Null => price
  end.

(** ** A small shop, for the worked cases

    Two merchants; the import of the widget with two variants; the same
    widget sent again with other values for its first variant. *)

Definition shop : Store :=
  mkStore
    [Merchant.mk 1 "Tech Store" "tech@example.com" "s1" "ACTIVE";
     Merchant.mk 2 "Fashion Boutique" "fashion@example.com" "s2" "ACTIVE"]
    [] [] 0 0.

Definition widget_v1 : VariantPayload.t :=
  VariantPayload.mk (Some "V1") (Some "Small") None (Some (JString 1000)) Absent (Some 5).

Definition widget_v2 : VariantPayload.t :=
  VariantPayload.mk (Some "V2") (Some "Large") None (Some (JString 800))
    (Value (JString 1200)) (Some 3).

Definition import_of (store_url : string) (title : string)
    (payload : list VariantPayload.t) : ImportData.t :=
  ImportData.mk (Some store_url)
    (Some (ProductPayload.mk (Some "P1") (Some title) None None (Some payload))).

Definition widget_import : ImportData.t := import_of "s1" "Widget" [widget_v1; widget_v2].

Definition shop_with_widget : Store := snd (dispatch (import_product widget_import) shop).

Definition widget_v1_again : VariantPayload.t :=
  VariantPayload.mk (Some "V1") (Some "Small, new") (Some "SKU-1") (Some (JString 5000))
    (Value (JString 6000)) (Some 50).

Definition widget_again : ImportData.t := import_of "s1" "Widget II" [widget_v1_again].

(** The retail price read as "compare_at_price when present, not null and
    not zero, else the price", whatever JSON value spells the zero. *)
Definition retail_price_nonzero (compare_at_price : Field JsonDecimal) (price : Decimal)
  : Decimal :=
  match compare_at_price with
  | Value j => if Decimal_of_str j =? 0 then price else Decimal_of_str j
  | Absent | Null => price
  end.

(** A variant whose payload spells a zero [compare_at_price] as the string
    ["0.00"]. *)
Definition sample_v3 : VariantPayload.t :=
  VariantPayload.mk (Some "V3") (Some "Sample") None (Some (JString 1000))
    (Value (JString 0)) (Some 1).

Definition sample_import : ImportData.t := import_of "s1" "Widget" [sample_v3].

(** The rows the first import stores for the widget's variants, and the
    store after the widget was sent again. *)
Definition stored_v1 : Variant.t := Variant.mk 1 1 "V1" "Small" "" 1000 1000 5 true.

Definition stored_v2 : Variant.t := Variant.mk 2 1 "V2" "Large" "" 800 1200 3 true.

Definition shop_after_again : Store :=
  snd (dispatch (import_product widget_again) shop_with_widget).

(** The constraints the models declare: primary keys, [unique],
    [unique_together], foreign keys, and sequences that are not behind the
    keys in use. *)
Record store_ok (db : Store) : Prop := {
  merchant_pk : NoDup (Merchant.id <$> merchants db);
  merchant_store_url_unique : NoDup (Merchant.store_url <$> merchants db);
  product_pk : NoDup (Product.id <$> products db);
  product_unique_together : NoDup (Product.key <$> products db);
  product_merchant_fk :
    forall p, p ∈ products db -> Product.merchant_id p ∈ Merchant.id <$> merchants db;
  product_seq_bound : forall p, p ∈ products db -> Product.id p <= product_seq db;
  variant_pk : NoDup (Variant.id <$> variants db);
  variant_unique_together : NoDup (Variant.key <$> variants db);
  variant_product_fk :
    forall v, v ∈ variants db -> Variant.product_id v ∈ Product.id <$> products db;
  variant_seq_bound : forall v, v ∈ variants db -> Variant.id v <= variant_seq db }.

(** The import the repository's test scripts send for a store that does
    not exist. *)
Definition unknown_store_import : ImportData.t :=
  ImportData.mk (Some "nonexistent-store.myshopify.com")
    (Some (ProductPayload.mk (Some "99999") (Some "Test Product") None None
             (Some [VariantPayload.mk (Some "88888") (Some "Test Variant") None
                      (Some (JString 1000)) Absent (Some 1)]))).

(** An import whose list of variants is empty. *)
Definition empty_variants_import : ImportData.t := import_of "s1" "Widget" [].

(** [p] with its [active] flag set, every other column kept. *)
Definition with_active (p : Product.t) (active : bool) : Product.t :=
  Product.mk (Product.id p) (Product.merchant_id p) (Product.external_id p)
    (Product.title p) (Product.description p) (Product.product_type p)
    active (Product.base_price p).

(** The shop after a second product was imported: products 1 and 2. *)
Definition gadget_import : ImportData.t :=
  ImportData.mk (Some "s1")
    (Some (ProductPayload.mk (Some "P2") (Some "Gadget") (Some "A gadget")
             (Some "Electronics")
             (Some [VariantPayload.mk (Some "G1") (Some "Only") (Some "GAD-1")
                      (Some (JNumber 29999)) Null (Some 50)]))).

Definition shop_with_two : Store :=
  snd (dispatch (import_product gadget_import) shop_with_widget).


(** The widget sent with its stored variant V1 and twice a new V9. *)
Definition widget_v9 : VariantPayload.t :=
  VariantPayload.mk (Some "V9") (Some "Extra") None (Some (JString 700)) Absent (Some 2).

Definition widget_v9_bis : VariantPayload.t :=
  VariantPayload.mk (Some "V9") (Some "Extra, again") None (Some (JString 750)) Null (Some 4).

Definition repeated_import : ImportData.t :=
  import_of "s1" "Widget III" [widget_v1; widget_v9; widget_v9_bis].

(** The rows a list request pages through: what [get_queryset] returns for
    the [list] action (none when it raises). *)
Definition listed (q : QueryParams.t) (db : Store) : list (Product.t * Merchant.t) :=
  match get_queryset action_list q db with
  | (Ok queryset, _) => queryset
  | (Raise _, _) => []
  end.

(** The body of a page: count, links to the next and the previous page (as
    page numbers), and the summaries of the rows on page [number]: the rows
    from [(number - 1) * size] up to [number * size], counted from 0. *)
Definition page_body (rows : list (Product.t * Merchant.t)) (number size : Z) : Body :=
  let count := Z.of_nat (length rows) in
  page_of count
    (if number <? ProductPagination.num_pages count size then Some (number + 1) else None)
    (if 1 <? number then Some (number - 1) else None)
    ((fun r => ProductListSerializer (fst r))
       <$> take (Z.to_nat size) (drop (Z.to_nat ((number - 1) * size)) rows)).

(** Some list requests: the second page for merchant 1, the first page
    with a page size of 500 for merchant 1, no merchant, merchant 7 (there
    is none), merchant 2 (who has no products), merchant 2's second page,
    and a merchant id that is no number. *)
Definition list_query (merchant_id page page_size : option string) : QueryParams.t :=
  QueryParams.mk merchant_id None None page page_size.

Definition second_page_query : QueryParams.t := list_query (Some "1") (Some "2") None.

Definition large_page_query : QueryParams.t := list_query (Some "1") (Some "1") (Some "500").

Definition no_merchant_query : QueryParams.t := list_query None None None.

Definition missing_merchant_query : QueryParams.t := list_query (Some "7") None None.

Definition idle_merchant_query : QueryParams.t := list_query (Some "2") None None.

Definition idle_merchant_second_page_query : QueryParams.t :=
  list_query (Some "2") (Some "2") None.

Definition letters_merchant_query : QueryParams.t := list_query (Some "abc") None None.

(** Detail requests for product 1: plain, and with one filter parameter
    that the product does not pass. *)
Definition plain_query : QueryParams.t := QueryParams.mk None None None None None.

Definition other_merchant_query : QueryParams.t :=
  QueryParams.mk (Some "2") None None None None.



(** The detail of a product as the detail serializer renders it from the
    product's row, its merchant's row and the variant table. *)
Definition detail_of (p : Product.t) (m : Merchant.t) (db : Store) : ProductDetail.t :=
  ProductDetail.mk (Product.id p) (Product.external_id p) (Product.title p)
    (Product.description p) (Product.product_type p) (Product.active p)
    (Product.base_price p) (Merchant.name m) None
    (VariantSerializer <$> filter (fun v => Variant.product_id v = Product.id p) (variants db)).

(** ** views.py: the soft delete *)

(** What [remove_product] answers: the dict with the message and the id
    of the product, or one of the error dicts. *)
Inductive RemoveData :=
| deactivated (title : string) (product_id : Z)
    (* [{'message': f'Product ... has been deactivated', 'product_id': id}] *)
| remove_failed (body : Body).

Record RemoveResponse := mkRemoveResponse {
  remove_status_code : Z;
  remove_data : RemoveData }.

(** [ProductViewSet.remove_product].  [get_object] looks the id up in
    [get_queryset()], for an action that is neither [list] nor [retrieve];
    what it raises for a missing row is [Http404], which is no
    [Product.DoesNotExist] and falls to [except Exception]. *)
Definition remove_product (pk : string) (q : QueryParams.t) : M RemoveResponse :=
  try_except
    (instance <- get_object action_other pk q ;;
     let product := with_active (fst instance) false in
     _ <- Product_save product ;;
     ret (mkRemoveResponse HTTP_200_OK
            (deactivated (Product.title product) (Product.id product))))
    (fun e =>
       match e with
       | Product_DoesNotExist =>
           ret (mkRemoveResponse HTTP_404_NOT_FOUND (remove_failed (error "Product not found")))
       | _ =>
           ret (mkRemoveResponse HTTP_500_INTERNAL_SERVER_ERROR
                  (remove_failed (error_of "An error occurred: " e)))
       end).

(** The framework around [remove_product], as [dispatch] is around the
    other views. *)
Definition dispatch_remove (view : M RemoveResponse) (db : Store) : RemoveResponse * Store :=
  match view db with
  | (Ok response, db') => (response, db')
  | (Raise Http404, db') =>
      (mkRemoveResponse HTTP_404_NOT_FOUND (remove_failed (exception_detail Http404)), db')
  | (Raise NotFound, db') =>
      (mkRemoveResponse HTTP_404_NOT_FOUND (remove_failed (exception_detail NotFound)), db')
  | (Raise _, db') =>
      (mkRemoveResponse HTTP_500_INTERNAL_SERVER_ERROR (remove_failed server_error), db')
  end.

(** [ProductViewSet.get_serializer_class]: the summary serializer for the
    list action, the detail serializer for every other. *)
Inductive SerializerClass :=
| ProductListSerializer_class
| ProductDetailSerializer_class.

Definition get_serializer_class (action : Action) : SerializerClass :=
  match action with
  | action_list => ProductListSerializer_class
  | _ => ProductDetailSerializer_class
  end.

(** The store after product 1 was removed, and after it was removed again. *)
Definition shop_removed : Store :=
  snd (dispatch_remove (remove_product "1" plain_query) shop_with_two).

(** The store with product [i] switched off and nothing else changed. *)
Definition deactivated_store (i : Z) (db : Store) : Store :=
  mkStore (merchants db)
    ((fun row => if decide (Product.id row = i) then with_active row false else row)
       <$> products db)
    (variants db) (product_seq db) (variant_seq db).

(** The widget with a negative stock for its second variant, and an
    import for an unknown store whose product has no id. *)
Definition negative_stock_import : ImportData.t :=
  import_of "s1" "Widget"
    [widget_v1;
     VariantPayload.mk (Some "V2") (Some "Large") None (Some (JString 800)) Absent
       (Some (-3))].

Definition unknown_store_no_id_import : ImportData.t :=
  ImportData.mk (Some "nonexistent-store.myshopify.com")
    (Some (ProductPayload.mk None (Some "Test Product") None None (Some []))).

(** ** The listing of a merchant *)

(** Whether a product passes the [active] parameter of a request (a value
    other than [true] and [false], in any case of the letters, filters
    nothing), and whether it passes its [search] parameter (an empty one
    filters nothing). *)
Definition active_filter (q : QueryParams.t) (p : Product.t) : bool :=
  match QueryParams.active q with
  | Some a =>
      if String.eqb (Py.lower a) "true" then Product.active p
      else if String.eqb (Py.lower a) "false" then negb (Product.active p)
      else true
  | None => true
  end.

Definition search_filter (q : QueryParams.t) (p : Product.t) : bool :=
  match QueryParams.search q with
  | Some t =>
      if Py.truthy_str t
      then Py.contains (Py.lower t) (Py.lower (Product.title p))
      else true
  | None => true
  end.

(** The products of merchant [i] that pass both. *)
Definition selected (q : QueryParams.t) (i : Z) (db : Store) : list Product.t :=
  filter (fun p => search_filter q p = true)
    (filter (fun p => active_filter q p = true)
       (filter (fun p => Product.merchant_id p = i) (products db))).

(** The results a response carries when it is a page. *)
Definition results_of (response : Response) : list ProductSummary.t :=
  match data response with
  | page_of _ _ _ results => results
  | _ => []
  end.

(** The request [q] for the page [t]. *)
Definition with_page (q : QueryParams.t) (t : string) : QueryParams.t :=
  QueryParams.mk (QueryParams.merchant_id q) (QueryParams.active q) (QueryParams.search q)
    (Some t) (QueryParams.page_size q).

(** Merchant 1's active products whose title holds [gad]. *)
Definition active_gadgets_query : QueryParams.t :=
  QueryParams.mk (Some "1") (Some "TRUE") (Some "gad") None None.

(** Merchant 1's products one to a page, and the last of these pages. *)
Definition one_per_page_query : QueryParams.t := list_query (Some "1") None (Some "1").

Definition last_page_query : QueryParams.t := list_query (Some "1") (Some "last") (Some "1").

(** A list request whose [page_size], [active] and [search] parameters
    cannot be used, and the same request without them. *)
Definition unusable_parameters_query : QueryParams.t :=
  QueryParams.mk (Some "1") (Some "yes") (Some "") None (Some "0").

Definition merchant_one_query : QueryParams.t := list_query (Some "1") None None.

(** A request for merchant 1's active products, and one for the inactive. *)
Definition active_query : QueryParams.t :=
  QueryParams.mk (Some "1") (Some "true") None None None.

Definition inactive_merchant_one_query : QueryParams.t :=
  QueryParams.mk (Some "1") (Some "false") None None None.

(** A detail request whose [merchant_id] is no number. *)
Definition letters_merchant_detail_query : QueryParams.t :=
  QueryParams.mk (Some "abc") None None None None.

(** * Properties *)

(** ** The built-ins on small inputs *)

Example int_plain : Py.int "42" = Some 42.
Proof. reflexivity. Qed.

Example int_signed_spaces : Py.int " -7 " = Some (-7).
Proof. reflexivity. Qed.

Example int_underscore : Py.int "1_000" = Some 1000.
Proof. reflexivity. Qed.

Example int_letters : Py.int "abc" = None.
Proof. reflexivity. Qed.

Example int_empty : Py.int "" = None.
Proof. reflexivity. Qed.

Example lower_mixed : Py.lower "TrUe" = "true"%string.
Proof. reflexivity. Qed.

Example strip_both : Py.strip "  s1 " = "s1"%string.
Proof. reflexivity. Qed.

Example contains_inside : Py.contains "dph" "headphones" = true.
Proof. reflexivity. Qed.

Example min_three : Py.min [1000; 800; 900] = Some 800.
Proof. reflexivity. Qed.

Lemma fold_min_le (xs : list Z) (a : Z) :
  fold_left Z.min xs a <= a /\ forall x, x ∈ xs -> fold_left Z.min xs a <= x.
Proof.
  revert a. induction xs as [|y xs IH]; intros a; simpl.
  - split; [lia | intros x Hx; inversion Hx].
  - destruct (IH (Z.min a y)) as [H1 H2]. split; [lia |].
    intros x Hx. apply elem_of_cons in Hx as [-> | Hx]; [lia | auto].
Qed.

Lemma fold_min_elem (xs : list Z) (a : Z) :
  fold_left Z.min xs a = a \/ fold_left Z.min xs a ∈ xs.
Proof.
  revert a. induction xs as [|y xs IH]; intros a; simpl; [by left |].
  destruct (IH (Z.min a y)) as [H | H].
  - rewrite H. destruct (Z.min_spec a y) as [[_ ->] | [_ ->]]; [by left | right; left].
  - right. by right.
Qed.

(** [Py.min] returns an element of the list that no element is below. *)
Lemma Py_min_spec (xs : list Z) (m : Z) :
  Py.min xs = Some m -> m ∈ xs /\ forall x, x ∈ xs -> m <= x.
Proof.
  destruct xs as [|a xs]; simpl; [discriminate |].
  intros [= <-]. destruct (fold_min_le xs a) as [H1 H2]. split.
  - destruct (fold_min_elem xs a) as [-> | H]; [left | by right].
  - intros x Hx. apply elem_of_cons in Hx as [-> | Hx]; auto.
Qed.

(** ** Running the monad *)

Lemma bind_inv {A B} (m : M A) (f : A -> M B) db r db' :
  bind m f db = (r, db') ->
  (exists a db1, m db = (Ok a, db1) /\ f a db1 = (r, db'))
  \/ (exists e, m db = (Raise e, db') /\ r = Raise e).
Proof.
  unfold bind. destruct (m db) as [[a | e] db1]; intros H.
  - left. eauto.
  - right. inversion H; subst. eauto.
Qed.

Lemma bind_Ok {A B} (m : M A) (f : A -> M B) db b db' :
  bind m f db = (Ok b, db') ->
  exists a db1, m db = (Ok a, db1) /\ f a db1 = (Ok b, db').
Proof.
  intros H. apply bind_inv in H as [H | (e & _ & H)]; [done | discriminate].
Qed.

Lemma bind_run {A B} (m : M A) (f : A -> M B) db a db1 :
  m db = (Ok a, db1) -> bind m f db = f a db1.
Proof. unfold bind. by intros ->. Qed.


Lemma bind_run_raise {A B} (m : M A) (f : A -> M B) db e db1 :
  m db = (Raise e, db1) -> bind m f db = (Raise e, db1).
Proof. unfold bind. by intros ->. Qed.

Lemma lift_Ok {A} e (o : option A) db a db' :
  lift e o db = (Ok a, db') -> o = Some a /\ db' = db.
Proof. destruct o; unfold lift, ret, raise; intros H; inversion H; auto. Qed.

Lemma atomic_Ok {A} (body : M A) db a db' :
  atomic body db = (Ok a, db') -> body db = (Ok a, db').
Proof.
  unfold atomic. destruct (body db) as [[x | e] db1]; intros H; inversion H; done.
Qed.

Lemma atomic_Raise {A} (body : M A) db e db' :
  atomic body db = (Raise e, db') -> db' = db /\ exists db1, body db = (Raise e, db1).
Proof.
  unfold atomic. destruct (body db) as [[x | e1] db1]; intros H; inversion H; subst.
  eauto.
Qed.

Lemma read_only_ret {A} (a : A) : read_only (ret a).
Proof. intros db r db' H. by inversion H. Qed.

Lemma read_only_raise {A} e : read_only (@raise A e).
Proof. intros db r db' H. by inversion H. Qed.

Lemma read_only_lift {A} e (o : option A) : read_only (lift e o).
Proof. destruct o; [apply read_only_ret | apply read_only_raise]. Qed.

Lemma read_only_get_store : read_only get_store.
Proof. intros db r db' H. by inversion H. Qed.

Lemma read_only_bind {A B} (m : M A) (f : A -> M B) :
  read_only m -> (forall a, read_only (f a)) -> read_only (bind m f).
Proof.
  intros Hm Hf db r db' H.
  apply bind_inv in H as [(a & db1 & H1 & H2) | (e & H1 & _)].
  - apply Hm in H1 as ->. by apply Hf in H2.
  - by apply Hm in H1.
Qed.

Lemma read_only_try_except {A} (body : M A) handler :
  read_only body -> (forall e, read_only (handler e)) -> read_only (try_except body handler).
Proof.
  intros Hb Hh db r db'. unfold try_except.
  destruct (body db) as [[a | e] db1] eqn:E; intros H.
  - inversion H; subst. by apply Hb in E.
  - apply Hb in E as ->. by apply Hh in H.
Qed.

Lemma read_only_get_row {A} e (rows : list A) : read_only (get_row e rows).
Proof.
  destruct rows as [|? [|? ?]]; [apply read_only_raise | apply read_only_ret | apply read_only_raise].
Qed.

Create HintDb ro.
#[local] Hint Resolve read_only_ret read_only_raise read_only_lift read_only_get_store
  read_only_get_row : ro.

Ltac read_only_tac :=
  repeat first
    [ apply read_only_bind; [| intros ?]
    | apply read_only_try_except; [| intros ?]
    | solve [eauto with ro]
    | match goal with
      | |- read_only (match ?x with _ => _ end) => destruct x
      | |- read_only (if ?b then _ else _) => destruct b
      end ].

Lemma read_only_Merchant_get_by_store_url value :
  read_only (Merchant_get_by_store_url value).
Proof. unfold Merchant_get_by_store_url. read_only_tac. Qed.

Lemma read_only_Merchant_get_by_id value : read_only (Merchant_get_by_id value).
Proof. unfold Merchant_get_by_id, get_prep_value. read_only_tac. Qed.

Lemma read_only_validate_store_url value : read_only (validate_store_url value).
Proof.
  unfold validate_store_url. apply read_only_try_except.
  - apply read_only_bind; [apply read_only_Merchant_get_by_store_url | intros; apply read_only_ret].
  - intros []; eauto with ro.
Qed.

Lemma read_only_ImportProductSerializer_is_valid data :
  read_only (ImportProductSerializer_is_valid data).
Proof.
  unfold ImportProductSerializer_is_valid. apply read_only_bind.
  - destruct (required _ _); [apply read_only_validate_store_url | apply read_only_ret].
  - intros a. read_only_tac.
Qed.

(** ** What the ORM calls do to the store *)

Lemma Product_save_run p db :
  Product_save p db =
  (Ok tt, mkStore (merchants db)
            ((fun row => if decide (Product.id row = Product.id p) then p else row)
               <$> products db)
            (variants db) (product_seq db) (variant_seq db)).
Proof. reflexivity. Qed.

Lemma Product_variants_run p db :
  Product_variants p db =
  (Ok (filter (fun v => Variant.product_id v = Product.id p) (variants db)), db).
Proof. reflexivity. Qed.

Lemma saved_rows (p : Product.t) (rows : list Product.t) :
  let rows' := (fun row => if decide (Product.id row = Product.id p) then p else row) <$> rows in
  (Product.id p ∈ Product.id <$> rows -> p ∈ rows')
  /\ (forall r, r ∈ rows' -> Product.id r = Product.id p -> r = p)
  /\ Product.id <$> rows' = Product.id <$> rows.
Proof.
  simpl. split; [| split].
  - intros (r & Hid & Hr)%list_elem_of_fmap.
    apply list_elem_of_fmap. exists r. split; [| done].
    by rewrite decide_True.
  - intros r (r0 & -> & Hr0)%list_elem_of_fmap. case_decide; [done |].
    intros; congruence.
  - rewrite <- list_fmap_compose. apply list_fmap_ext.
    intros _ r _. simpl. case_decide; congruence.
Qed.

Lemma Product_get_or_create_Ok merchant external_id title description product_type
    active db p created db' :
  Product_get_or_create merchant external_id title description product_type active db
  = (Ok (p, created), db') ->
  Product.key p = (Merchant.id merchant, external_id)
  /\ p ∈ products db'
  /\ merchants db' = merchants db
  /\ variants db' = variants db
  /\ variant_seq db' = variant_seq db.
Proof.
  unfold Product_get_or_create, bind at 1, get_store.
  destruct (filter _ (products db)) as [|p0 [|p1 rows]] eqn:E.
  - unfold Product_create, atomic, bind, get_store, put_store, ret, raise.
    case_decide as Hk; intros Hrun; inversion Hrun; subst; clear Hrun. simpl.
    repeat split; try done. apply elem_of_app. right. by left.
  - unfold ret. intros Hrun; inversion Hrun; subst; clear Hrun.
    assert (Hp : p ∈ filter (fun p => Product.key p = (Merchant.id merchant, external_id))
                   (products db')) by (rewrite E; left).
    apply list_elem_of_filter in Hp as [Hk Hp]. done.
  - unfold raise. discriminate.
Qed.

Lemma Product_get_or_create_frame merchant external_id title description product_type
    active db r db' :
  Product_get_or_create merchant external_id title description product_type active db
  = (r, db') ->
  merchants db' = merchants db /\ variants db' = variants db.
Proof.
  unfold Product_get_or_create, bind at 1, get_store.
  destruct (filter _ (products db)) as [|p0 [|p1 rows]] eqn:E.
  - unfold Product_create, atomic, bind, get_store, put_store, ret, raise.
    case_decide as Hk; intros Hrun; inversion Hrun; subst; done.
  - unfold ret. intros Hrun; inversion Hrun; subst; done.
  - unfold raise. intros Hrun; inversion Hrun; subst; done.
Qed.

Lemma Variant_key_with_id i v : Variant.key (Variant.with_id i v) = Variant.key v.
Proof. reflexivity. Qed.

(** The batch insert only appends rows, each under a (product,
    external_id) pair that no stored row has; it raises nothing but
    [IntegrityError], and goes through only when the batch repeats no pair. *)
Lemma Variant_insert_all_inv objs : forall db r db',
  Variant_insert_all objs db = (r, db') ->
  merchants db' = merchants db /\ products db' = products db
  /\ product_seq db' = product_seq db
  /\ (exists new, variants db' = variants db ++ new
        /\ (forall n, n ∈ new -> Variant.key n ∉ Variant.key <$> variants db)
        /\ (forall n, n ∈ new -> exists v i, v ∈ objs /\ n = Variant.with_id i v))
  /\ (r = Ok tt \/ r = Raise IntegrityError)
  /\ (r = Ok tt ->
      NoDup (Variant.key <$> objs)
      /\ forall v, v ∈ objs -> Variant.key v ∉ Variant.key <$> variants db).
Proof.
  induction objs as [|v objs IH]; intros db r db' Hrun; simpl in Hrun.
  - inversion Hrun; subst. split_and!; try done.
    + exists []. rewrite app_nil_r. split_and!; try done; intros n Hn; inversion Hn.
    + by left.
    + intros _. split; [constructor | intros v Hv; inversion Hv].
  - unfold bind at 1, Variant_insert, bind at 1, get_store in Hrun.
    case_decide as Hk.
    + inversion Hrun; subst. split_and!; try done.
      * exists []. rewrite app_nil_r. split_and!; try done; intros n Hn; inversion Hn.
      * by right.
    + unfold put_store in Hrun. apply IH in Hrun. simpl in Hrun.
      destruct Hrun as (Hm & Hp & Hs & (new & Hv & Hfresh & Hfrom) & Hr & Hnd).
      split_and!; try done.
      * exists (Variant.with_id (variant_seq db + 1) v :: new). split_and!.
        -- rewrite Hv, <- app_assoc. done.
        -- intros n [-> | Hn]%elem_of_cons; [done |].
           intros Hin. apply (Hfresh n Hn). rewrite fmap_app. apply elem_of_app. by left.
        -- intros n [-> | Hn]%elem_of_cons.
           ++ exists v, (variant_seq db + 1). split; [left | done].
           ++ destruct (Hfrom n Hn) as (v0 & i & Hv0 & ->). exists v0, i. split; [by right | done].
      * intros Hok. destruct (Hnd Hok) as [Hnd1 Hnd2]. split.
        -- simpl. constructor; [| done].
           intros (v0 & Hkey & Hv0)%list_elem_of_fmap.
           apply (Hnd2 v0 Hv0). rewrite fmap_app. apply elem_of_app. right.
           rewrite <- Hkey. simpl. left.
        -- intros v0 [-> | Hv0]%elem_of_cons; [done |].
           intros Hin. apply (Hnd2 v0 Hv0). rewrite fmap_app. apply elem_of_app. by left.
Qed.

(** ** The loops of the import *)

Lemma new_variant_Ok product pv db v db' :
  new_variant product pv db = (Ok v, db') ->
  db' = db
  /\ exists raw_price,
       VariantPayload.id pv = Some (Variant.external_id v)
       /\ VariantPayload.price pv = Some raw_price
       /\ Variant.product_id v = Product.id product
       /\ Variant.price v = Decimal_of_str raw_price
       /\ Variant.retail_price v =
          retail_price_of (VariantPayload.compare_at_price pv) (Decimal_of_str raw_price).
Proof.
  unfold new_variant. intros Hrun.
  apply bind_Ok in Hrun as (id & db1 & [Hid ->]%lift_Ok & Hrun).
  apply bind_Ok in Hrun as (raw & db1 & [Hraw ->]%lift_Ok & Hrun).
  apply bind_Ok in Hrun as (title & db1 & [Htitle ->]%lift_Ok & Hrun).
  apply bind_Ok in Hrun as (quantity & db1 & [Hq ->]%lift_Ok & Hrun).
  inversion Hrun; subst; clear Hrun. split; [done |].
  exists raw. simpl. split_and!; try done.
  destruct (VariantPayload.compare_at_price pv) as [| |[d|d]]; simpl; try done.
  by destruct (d =? 0).
Qed.

Lemma read_only_new_variant product pv : read_only (new_variant product pv).
Proof. unfold new_variant. read_only_tac. Qed.

Lemma read_only_variants_to_create product existing payload :
  read_only (variants_to_create product existing payload).
Proof.
  induction payload as [|pv payload IH]; simpl; [apply read_only_ret |].
  apply read_only_bind; [apply read_only_lift | intros id].
  case_decide; [done |].
  apply read_only_bind; [apply read_only_new_variant | intros v].
  apply read_only_bind; [done | intros vs; apply read_only_ret].
Qed.

(** Every instance the loop builds comes from a payload variant whose id
    is not among the stored ones. *)
Lemma variants_to_create_Ok product existing payload : forall db vs db',
  variants_to_create product existing payload db = (Ok vs, db') ->
  forall v, v ∈ vs ->
    exists pv, pv ∈ payload
      /\ (Variant.external_id v ∉ existing)
      /\ new_variant product pv db = (Ok v, db).
Proof.
  induction payload as [|pv payload IH]; intros db vs db' Hrun; simpl in Hrun.
  - inversion Hrun; subst. intros v Hv. inversion Hv.
  - apply bind_Ok in Hrun as (id & db1 & [Hid ->]%lift_Ok & Hrun).
    case_decide as Hin.
    + intros v Hv. destruct (IH _ _ _ Hrun v Hv) as (pv0 & Hpv0 & Hrest).
      exists pv0. split; [by right | done].
    + apply bind_Ok in Hrun as (v0 & db1 & Hnew & Hrun).
      pose proof (read_only_new_variant _ _ _ _ _ Hnew) as ->.
      apply bind_Ok in Hrun as (vs0 & db1 & Hrest & Hrun).
      inversion Hrun; subst; clear Hrun.
      intros v [-> | Hv]%elem_of_cons.
      * exists pv. split; [left |]. split; [| done].
        apply new_variant_Ok in Hnew as (_ & raw & Hid' & _). congruence.
      * destruct (IH _ _ _ Hrest v Hv) as (pv0 & Hpv0 & Hrest').
        exists pv0. split; [by right | done].
Qed.

Lemma read_only_payload_prices payload : read_only (payload_prices payload).
Proof.
  induction payload as [|pv payload IH]; simpl; [apply read_only_ret |].
  apply read_only_bind; [apply read_only_lift | intros raw].
  apply read_only_bind; [done | intros prices; apply read_only_ret].
Qed.

Lemma payload_prices_Ok payload : forall db prices db',
  payload_prices payload db = (Ok prices, db') ->
  payload_price <$> payload = Some <$> prices.
Proof.
  induction payload as [|pv payload IH]; intros db prices db' Hrun; simpl in Hrun.
  - by inversion Hrun.
  - apply bind_Ok in Hrun as (raw & db1 & [Hraw ->]%lift_Ok & Hrun).
    apply bind_Ok in Hrun as (prices0 & db1 & Hrest & Hrun).
    inversion Hrun; subst; clear Hrun. rewrite !fmap_cons. f_equal.
    + unfold payload_price. by rewrite Hraw.
    + by apply (IH _ _ _ Hrest).
Qed.

(** ** One import, step by step *)

(** What a transaction that returns has done. *)
Lemma import_transaction_Ok merchant product_data db response db' :
  import_transaction merchant product_data db = (Ok response, db') ->
  exists external_id payload prices min_price product d new,
    ProductPayload.id product_data = Some external_id
    /\ ProductPayload.variants product_data = Some payload
    /\ payload_price <$> payload = Some <$> prices
    /\ Py.min prices = Some min_price
    /\ Product.key product = (Merchant.id merchant, external_id)
    /\ Product.base_price product = min_price
    /\ product ∈ products db'
    /\ (forall p, p ∈ products db' -> Product.id p = Product.id product -> p = product)
    /\ data response = detail d
    /\ (status_code response = HTTP_200_OK \/ status_code response = HTTP_201_CREATED)
    /\ ProductDetail.id d = Product.id product
    /\ ProductDetail.external_id d = external_id
    /\ ProductDetail.base_price d = min_price
    /\ ProductDetail.merchant_name d = Merchant.name merchant
    /\ ProductDetail.variants d =
       VariantSerializer <$> filter (fun v => Variant.product_id v = Product.id product)
                               (variants db')
    /\ merchants db' = merchants db
    /\ variants db' = variants db ++ new
    /\ (forall n, n ∈ new -> Variant.key n ∉ Variant.key <$> variants db)
    /\ (forall n, n ∈ new ->
          exists pv raw_price,
            pv ∈ payload
            /\ VariantPayload.id pv = Some (Variant.external_id n)
            /\ VariantPayload.price pv = Some raw_price
            /\ Variant.product_id n = Product.id product
            /\ Variant.price n = Decimal_of_str raw_price
            /\ Variant.retail_price n =
               retail_price_of (VariantPayload.compare_at_price pv)
                 (Decimal_of_str raw_price)).
Proof.
  unfold import_transaction. intros Hrun.
  apply bind_Ok in Hrun as (external_id & db1 & [Hid ->]%lift_Ok & Hrun).
  apply bind_Ok in Hrun as (title & db1 & [Htitle ->]%lift_Ok & Hrun).
  apply bind_Ok in Hrun as ([p0 created] & db1 & Hgot & Hrun).
  apply Product_get_or_create_Ok in Hgot as (Hkey0 & Hp0 & Hm1 & Hv1 & _).
  apply bind_Ok in Hrun as (product & db2 & Hupd & Hrun).
  assert (Hprod : Product.key product = (Merchant.id merchant, external_id)
                  /\ Product.id product ∈ Product.id <$> products db2
                  /\ merchants db2 = merchants db /\ variants db2 = variants db).
  { simpl in Hupd. destruct created.
    - inversion Hupd; subst. split_and!; try done. by apply list_elem_of_fmap_2.
    - apply bind_Ok in Hupd as ([] & db3 & Hsave & Hupd).
      inversion Hupd; subst; clear Hupd.
      rewrite Product_save_run in Hsave. inversion Hsave; subst; clear Hsave. simpl.
      split_and!; try done.
      destruct (saved_rows (with_metadata p0 title
                  (default EmptyString (ProductPayload.description product_data))
                  (default EmptyString (ProductPayload.product_type product_data)))
                  (products db1)) as (_ & _ & Hids).
      simpl in Hids. rewrite Hids.
      by apply (list_elem_of_fmap_2 Product.id). }
  destruct Hprod as (Hkey & Hin2 & Hm2 & Hv2).
  apply bind_Ok in Hrun as (stored & db3 & Hstored & Hrun).
  rewrite Product_variants_run in Hstored. inversion Hstored; subst db3 stored; clear Hstored.
  apply bind_Ok in Hrun as (payload & db3 & [Hpayload ->]%lift_Ok & Hrun).
  apply bind_Ok in Hrun as (to_create & db3 & Hloop & Hrun).
  pose proof (read_only_variants_to_create _ _ _ _ _ _ Hloop) as ->.
  apply bind_Ok in Hrun as ([] & db3 & Hbulk & Hrun).
  assert (Hnew : merchants db3 = merchants db2 /\ products db3 = products db2
                 /\ exists new, variants db3 = variants db2 ++ new
                      /\ (forall n, n ∈ new -> Variant.key n ∉ Variant.key <$> variants db2)
                      /\ (forall n, n ∈ new -> exists v i, v ∈ to_create /\ n = Variant.with_id i v)).
  { destruct to_create as [|v0 to_create0].
    - inversion Hbulk; subst. split_and!; try done. exists [].
      rewrite app_nil_r. split_and!; try done; intros n Hn; inversion Hn.
    - apply atomic_Ok, Variant_insert_all_inv in Hbulk
        as (Hm3 & Hp3 & _ & Hnew & _). done. }
  destruct Hnew as (Hm3 & Hp3 & new & Hv3 & Hfresh & Hfrom).
  apply bind_Ok in Hrun as (prices & db4 & Hprices & Hrun).
  pose proof (read_only_payload_prices _ _ _ _ Hprices) as ->.
  apply payload_prices_Ok in Hprices.
  apply bind_Ok in Hrun as (min_price & db4 & [Hmin ->]%lift_Ok & Hrun).
  apply bind_Ok in Hrun as ([] & db4 & Hsave & Hrun).
  rewrite Product_save_run in Hsave. inversion Hsave; subst db4; clear Hsave.
  apply bind_Ok in Hrun as (d & db5 & Hd & Hrun).
  unfold ProductDetailSerializer in Hd. rewrite (bind_run _ _ _ _ _ (Product_variants_run _ _)) in Hd.
  inversion Hd; subst db5 d; clear Hd.
  inversion Hrun; subst db' response; clear Hrun. simpl.
  destruct (saved_rows (with_base_price product min_price) (products db3)) as (Hs1 & Hs2 & _).
  exists external_id, payload, prices, min_price, (with_base_price product min_price).
  eexists. exists new. split_and!; try done.
  - apply Hs1. simpl. by rewrite Hp3.
  - destruct created; [by right | by left].
  - simpl. unfold Product.key in Hkey. congruence.
  - congruence.
  - rewrite Hv3. congruence.
  - intros n Hn. rewrite <- Hv2. auto.
  - intros n Hn. destruct (Hfrom n Hn) as (v & i & Hv & ->).
    destruct (variants_to_create_Ok _ _ _ _ _ _ Hloop v Hv) as (pv & Hpv & _ & Hnv).
    apply new_variant_Ok in Hnv as (_ & raw & H1 & H2 & H3 & H4 & H5).
    exists pv, raw. simpl. split_and!; done.
Qed.

Lemma Merchant_get_by_store_url_Ok value db m db' :
  Merchant_get_by_store_url value db = (Ok m, db') ->
  db' = db /\ m ∈ merchants db /\ Merchant.store_url m = value
  /\ filter (fun m => Merchant.store_url m = value) (merchants db) = [m].
Proof.
  unfold Merchant_get_by_store_url, bind, get_store.
  destruct (filter _ (merchants db)) as [|m0 [|m1 rows]] eqn:E; simpl; intros H;
    inversion H; subst; clear H.
  assert (Hm : m ∈ filter (fun m0 => Merchant.store_url m0 = value) (merchants db'))
    by (rewrite E; left).
  apply list_elem_of_filter in Hm as [? ?]. done.
Qed.

(** What validation has checked when it passes. *)
Lemma ImportProductSerializer_is_valid_inr data db store_url product_data db' :
  ImportProductSerializer_is_valid data db = (Ok (inr (store_url, product_data)), db') ->
  db' = db
  /\ ImportData.product data = Some product_data
  /\ (exists raw, ImportData.store_url data = Some raw /\ store_url = Py.strip raw)
  /\ (exists m, Merchant_get_by_store_url store_url db = (Ok m, db))
  /\ validate_product product_data = Valid product_data.
Proof.
  intros Hrun. pose proof (read_only_ImportProductSerializer_is_valid _ _ _ _ Hrun) as ->.
  split; [done |].
  unfold ImportProductSerializer_is_valid in Hrun.
  apply bind_Ok in Hrun as (vs & db1 & Hurl & Hrun).
  destruct vs as [s | ?]; [| by destruct (match ImportData.product data with _ => _ end)].
  destruct (ImportData.product data) as [value |] eqn:Hprod; [| done].
  destruct (validate_product value) as [p |] eqn:Hvalid; [| done].
  inversion Hrun; subst; clear Hrun.
  assert (product_data = value) as ->.
  { unfold validate_product in Hvalid.
    repeat match type of Hvalid with
           | context [match ?x with _ => _ end] => destruct x; try discriminate
           end.
    by inversion Hvalid. }
  destruct (ImportData.store_url data) as [raw |] eqn:Hraw; simpl in Hurl;
    [| by inversion Hurl].
  unfold CharField in Hurl.
  destruct (negb false && _); [by inversion Hurl |].
  destruct (has_null_char raw); [by inversion Hurl |].
  unfold validate_store_url, try_except in Hurl.
  destruct (bind (Merchant_get_by_store_url (Py.strip raw)) _ db) as [[v | e] db2] eqn:Hget.
  - inversion Hurl; subst; clear Hurl.
    apply bind_Ok in Hget as (m & db3 & Hm & Hret).
    inversion Hret; subst; clear Hret.
    split_and!; eauto.
  - destruct e; inversion Hurl.
Qed.

(** Every way [import_product] can end: either nothing was written and the
    response is an error, or the transaction returned the response. *)
Lemma import_product_inv data db response db' :
  dispatch (import_product data) db = (response, db') ->
  (db' = db
   /\ status_code response <> HTTP_200_OK /\ status_code response <> HTTP_201_CREATED)
  \/ (exists raw product_data merchant,
        ImportData.store_url data = Some raw
        /\ ImportData.product data = Some product_data
        /\ merchant ∈ merchants db
        /\ Merchant.store_url merchant = Py.strip raw
        /\ import_transaction merchant product_data db = (Ok response, db')).
Proof.
  unfold dispatch, import_product. intros Hrun.
  destruct (bind (ImportProductSerializer_is_valid data) _ db) as [r db1] eqn:Hview.
  apply bind_inv in Hview as [(checked & db2 & Hvalid & Hview) | (e & Hvalid & ->)].
  - destruct checked as [errs | [store_url product_data]].
    + pose proof (read_only_ImportProductSerializer_is_valid _ _ _ _ Hvalid) as ->.
      inversion Hview; subst; clear Hview. inversion Hrun; subst; clear Hrun.
      left. by split_and!.
    + apply ImportProductSerializer_is_valid_inr in Hvalid
        as (-> & Hprod & (raw & Hraw & ->) & _ & _).
      unfold try_except in Hview.
      destruct (bind (Merchant_get_by_store_url (Py.strip raw)) _ db)
        as [[resp | e] db3] eqn:Hbody.
      * inversion Hview; subst; clear Hview. inversion Hrun; subst; clear Hrun.
        apply bind_Ok in Hbody as (m & db4 & Hm & Hbody).
        apply Merchant_get_by_store_url_Ok in Hm as (-> & Hin & Hurl & _).
        apply atomic_Ok in Hbody.
        right. exists raw, product_data, m. by split_and!.
      * assert (db3 = db) as ->.
        { apply bind_inv in Hbody as [(m & db4 & Hm & Hbody) | (e0 & Hm & _)].
          - pose proof (read_only_Merchant_get_by_store_url _ _ _ _ Hm) as ->.
            by apply atomic_Raise in Hbody as [-> _].
          - by pose proof (read_only_Merchant_get_by_store_url _ _ _ _ Hm) as ->. }
        left. destruct e; inversion Hview; subst; clear Hview;
          inversion Hrun; subst; clear Hrun; by split_and!.
  - pose proof (read_only_ImportProductSerializer_is_valid _ _ _ _ Hvalid) as ->.
    left. destruct e; inversion Hrun; subst; by split_and!.
Qed.

(** ** Import: derived price, insert-only variants, retail price *)

Example widget_import_created :
  status_code (fst (dispatch (import_product widget_import) shop)) = HTTP_201_CREATED
  /\ products shop_with_widget = [Product.mk 1 1 "P1" "Widget" "" "" true 800]
  /\ variants shop_with_widget =
     [Variant.mk 1 1 "V1" "Small" "" 1000 1000 5 true;
      Variant.mk 2 1 "V2" "Large" "" 800 1200 3 true].
Proof. vm_compute. done. Qed.

Example widget_again_updated :
  status_code (fst (dispatch (import_product widget_again) shop_with_widget)) = HTTP_200_OK
  /\ products (snd (dispatch (import_product widget_again) shop_with_widget))
     = [Product.mk 1 1 "P1" "Widget II" "" "" true 5000]
  /\ variants (snd (dispatch (import_product widget_again) shop_with_widget))
     = variants shop_with_widget.
Proof. vm_compute. done. Qed.

(** C1. After a successful import (200 or 201) the product's row carries
    as [base_price] the least price among the variants of the payload of
    this call: the prices are read from the payload alone, so variants
    stored by earlier calls, and variants skipped as already stored, play
    no part.  The response reports the same value. *)
Theorem import_product_base_price db request response db' :
  dispatch (import_product request) db = (response, db') ->
  status_code response = HTTP_200_OK \/ status_code response = HTTP_201_CREATED ->
  exists product_data external_id payload prices min_price d,
    ImportData.product request = Some product_data
    /\ ProductPayload.id product_data = Some external_id
    /\ ProductPayload.variants product_data = Some payload
    /\ payload_price <$> payload = Some <$> prices
    /\ min_price ∈ prices
    /\ (forall x, x ∈ prices -> min_price <= x)
    /\ data response = detail d
    /\ ProductDetail.base_price d = min_price
    /\ (exists p, p ∈ products db'
          /\ Product.id p = ProductDetail.id d
          /\ Product.external_id p = external_id)
    /\ (forall p, p ∈ products db' -> Product.id p = ProductDetail.id d ->
          Product.base_price p = min_price).
Proof.
  intros Hrun Hstatus.
  apply import_product_inv in Hrun as [(_ & H200 & H201) | Hrun];
    [destruct Hstatus; congruence |].
  destruct Hrun as (raw & product_data & merchant & _ & Hprod & _ & _ & Hrun).
  apply import_transaction_Ok in Hrun
    as (external_id & payload & prices & min_price & product & d & new & Hid & Hpayload
        & Hprices & Hmin & Hkey & Hbase & Hin & Hrows & Hdata & _ & Hdid & _ & Hdbase & _).
  apply Py_min_spec in Hmin as [Hmin1 Hmin2].
  exists product_data, external_id, payload, prices, min_price, d.
  split_and!; try done.
  - exists product. split_and!; try done. unfold Product.key in Hkey. congruence.
  - intros p Hp Hpid. rewrite (Hrows p Hp); congruence.
Qed.

(** The second import of the widget: the payload holds one variant, priced
    50.00 and skipped as already stored; the stored variants cost 10.00 and
    8.00; the product's [base_price] is 50.00. *)
Lemma import_product_base_price_witness :
  exists product_data external_id payload prices min_price d,
    ImportData.product widget_again = Some product_data
    /\ ProductPayload.id product_data = Some external_id
    /\ ProductPayload.variants product_data = Some payload
    /\ payload_price <$> payload = Some <$> prices
    /\ min_price ∈ prices
    /\ (forall x, x ∈ prices -> min_price <= x)
    /\ data (fst (dispatch (import_product widget_again) shop_with_widget)) = detail d
    /\ ProductDetail.base_price d = min_price
    /\ (exists p, p ∈ products (snd (dispatch (import_product widget_again) shop_with_widget))
          /\ Product.id p = ProductDetail.id d
          /\ Product.external_id p = external_id)
    /\ (forall p, p ∈ products (snd (dispatch (import_product widget_again) shop_with_widget)) ->
          Product.id p = ProductDetail.id d -> Product.base_price p = min_price).
Proof.
  apply (import_product_base_price shop_with_widget widget_again).
  - vm_compute. reflexivity.
  - left. vm_compute. reflexivity.
Defined.

(** C2. Variant import only inserts.  Whatever the call returns, a stored
    variant whose external id a payload variant carries is still stored
    afterwards with every field as it was (price, retail_price, quantity,
    name, sku), the rows under its (product, external_id) pair are the same
    rows, and the variant table has only grown at its end. *)
Theorem import_product_keeps_stored_variants db request response db'
    product_data payload pv v :
  dispatch (import_product request) db = (response, db') ->
  ImportData.product request = Some product_data ->
  ProductPayload.variants product_data = Some payload ->
  pv ∈ payload ->
  VariantPayload.id pv = Some (Variant.external_id v) ->
  v ∈ variants db ->
  v ∈ variants db'
  /\ filter (fun row => Variant.key row = Variant.key v) (variants db')
     = filter (fun row => Variant.key row = Variant.key v) (variants db)
  /\ exists new, variants db' = variants db ++ new.
Proof.
  intros Hrun _ _ _ _ Hv.
  apply import_product_inv in Hrun as [(-> & _) | Hrun].
  { split_and!; try done. exists []. by rewrite app_nil_r. }
  destruct Hrun as (raw & product_data' & merchant & _ & _ & _ & _ & Hrun).
  apply import_transaction_Ok in Hrun
    as (external_id & payload' & prices & min_price & product & d & new & Hrest).
  destruct Hrest as (_ & _ & _ & _ & _ & _ & _ & _ & _ & _ & _ & _ & _ & _ & _ & _
                     & Hvariants & Hfresh & _).
  rewrite Hvariants. split_and!.
  - apply elem_of_app. by left.
  - rewrite filter_app.
    assert (Hnone : filter (fun row => Variant.key row = Variant.key v) new = []).
    { destruct (filter _ new) as [|n rest] eqn:E; [done |].
      assert (Hn : n ∈ filter (fun row => Variant.key row = Variant.key v) new)
        by (rewrite E; left).
      apply list_elem_of_filter in Hn as [Hkey Hn].
      exfalso. apply (Hfresh n Hn). rewrite Hkey. by apply list_elem_of_fmap_2. }
    by rewrite Hnone, app_nil_r.
  - by exists new.
Qed.

(** The widget sent again with another name, sku, price, compare-at price
    and quantity for V1: the stored V1 keeps 10.00, 10.00 and 5. *)
Lemma import_product_keeps_stored_variants_witness :
  stored_v1 ∈ variants shop_after_again
  /\ filter (fun row => Variant.key row = Variant.key stored_v1) (variants shop_after_again)
     = filter (fun row => Variant.key row = Variant.key stored_v1) (variants shop_with_widget)
  /\ exists new, variants shop_after_again = variants shop_with_widget ++ new.
Proof.
  apply (import_product_keeps_stored_variants shop_with_widget widget_again
           (fst (dispatch (import_product widget_again) shop_with_widget))
           shop_after_again
           (ProductPayload.mk (Some "P1"%string) (Some "Widget II"%string) None None
              (Some [widget_v1_again]))
           [widget_v1_again] widget_v1_again stored_v1).
  - vm_compute. reflexivity.
  - reflexivity.
  - reflexivity.
  - left.
  - reflexivity.
  - vm_compute. left.
Defined.

(** C8, as the code has it. A variant the import has just inserted carries
    the price of the payload variant it was built from, and as retail price:
    the decimal of [compare_at_price] when that key holds a string (also
    one that spells zero) or a number other than zero; the price when the
    key is missing, [null] or the number zero. *)
Theorem import_product_retail_price db request response db' v :
  dispatch (import_product request) db = (response, db') ->
  v ∈ variants db' ->
  v ∉ variants db ->
  exists product_data payload pv raw_price,
    ImportData.product request = Some product_data
    /\ ProductPayload.variants product_data = Some payload
    /\ pv ∈ payload
    /\ VariantPayload.id pv = Some (Variant.external_id v)
    /\ VariantPayload.price pv = Some raw_price
    /\ Variant.price v = Decimal_of_str raw_price
    /\ Variant.retail_price v =
       retail_price_of (VariantPayload.compare_at_price pv) (Decimal_of_str raw_price).
Proof.
  intros Hrun Hv' Hv.
  apply import_product_inv in Hrun as [(-> & _) | Hrun]; [done |].
  destruct Hrun as (raw & product_data & merchant & _ & Hprod & _ & _ & Hrun).
  apply import_transaction_Ok in Hrun
    as (external_id & payload & prices & min_price & product & d & new & Hrest).
  destruct Hrest as (_ & Hpayload & _ & _ & _ & _ & _ & _ & _ & _ & _ & _ & _ & _ & _ & _
                     & Hvariants & _ & Hfrom).
  rewrite Hvariants in Hv'. apply elem_of_app in Hv' as [Hv' | Hv']; [done |].
  destruct (Hfrom v Hv') as (pv & raw_price & Hpv & Hid & Hprice & _ & Hp & Hr).
  exists product_data, payload, pv, raw_price. by split_and!.
Qed.

(** The first import of the widget: V2, sent with price 8.00 and
    compare-at price 12.00, is stored with retail price 12.00. *)
Lemma import_product_retail_price_witness :
  exists product_data payload pv raw_price,
    ImportData.product widget_import = Some product_data
    /\ ProductPayload.variants product_data = Some payload
    /\ pv ∈ payload
    /\ VariantPayload.id pv = Some (Variant.external_id stored_v2)
    /\ VariantPayload.price pv = Some raw_price
    /\ Variant.price stored_v2 = Decimal_of_str raw_price
    /\ Variant.retail_price stored_v2 =
       retail_price_of (VariantPayload.compare_at_price pv) (Decimal_of_str raw_price).
Proof.
  apply (import_product_retail_price shop widget_import
           (fst (dispatch (import_product widget_import) shop)) shop_with_widget stored_v2).
  - vm_compute. reflexivity.
  - vm_compute. right. left.
  - vm_compute. inversion 1.
Defined.

(** C8 as claimed fails on a zero sent as a string: the payload variant V3
    has price 10.00 and [compare_at_price] ["0.00"]; the view finds the
    string truthy and stores retail price 0.00, where the claim has the
    price, 10.00. *)
Lemma import_product_retail_price_zero_string :
  exists v pv,
    v ∈ variants (snd (dispatch (import_product sample_import) shop))
    /\ (v ∉ variants shop)
    /\ ImportData.product sample_import
       = Some (ProductPayload.mk (Some "P1"%string) (Some "Widget"%string) None None (Some [pv]))
    /\ VariantPayload.id pv = Some (Variant.external_id v)
    /\ VariantPayload.compare_at_price pv = Value (JString 0)
    /\ Variant.price v = 1000
    /\ Variant.retail_price v = 0
    /\ Variant.retail_price v
       <> retail_price_nonzero (VariantPayload.compare_at_price pv) (Variant.price v).
Proof.
  exists (Variant.mk 1 1 "V3" "Sample" "" 1000 0 1 true), sample_v3.
  split_and!; try reflexivity.
  - vm_compute. left.
  - vm_compute. inversion 1.
  - vm_compute. discriminate.
Qed.

(** ** Import: the error paths *)

Lemma filter_none {A} (P : A -> Prop) `{!forall x, Decision (P x)} (l : list A) :
  (forall x, x ∈ l -> ~ P x) -> filter P l = [].
Proof.
  induction l as [|a l IH]; intros Hl; [done |].
  rewrite filter_cons_False; [| apply Hl; left].
  apply IH. intros x Hx. apply Hl. by right.
Qed.

(** C3 as claimed fails: the store url of no merchant is refused by the
    serializer, and the response is 400 with the field's error, not 404. *)
Lemma import_product_unknown_store_url_not_404 :
  filter (fun m => Merchant.store_url m = "nonexistent-store.myshopify.com"%string)
    (merchants shop) = []
  /\ dispatch (import_product unknown_store_import) shop
     = (mkResponse HTTP_400_BAD_REQUEST
          (errors [("store_url"%string,
                    "No merchant found with store_url: nonexistent-store.myshopify.com"%string)]),
        shop)
  /\ status_code (fst (dispatch (import_product unknown_store_import) shop))
     <> HTTP_404_NOT_FOUND.
Proof. vm_compute. split_and!; [reflexivity | reflexivity | discriminate]. Qed.

(** C3, as the code has it. An import whose [store_url], once its
    surrounding whitespace is dropped, is the store url of no merchant is
    answered 400 with the serializer's errors, [store_url] among them, and
    the store is left as it was. *)
Theorem import_product_unknown_store_url db request raw :
  ImportData.store_url request = Some raw ->
  (forall m, m ∈ merchants db -> Merchant.store_url m <> Py.strip raw) ->
  exists errs,
    dispatch (import_product request) db
    = (mkResponse HTTP_400_BAD_REQUEST (errors errs), db)
    /\ exists message, ("store_url"%string, message) ∈ errs.
Proof.
  intros Hraw Hnone.
  assert (Hurl : exists message,
             (match required (CharField false) (ImportData.store_url request) with
              | Valid value => validate_store_url value
              | Invalid msg => ret (Invalid msg)
              end) db = (Ok (Invalid message), db)).
  { rewrite Hraw. simpl. unfold CharField.
    destruct (negb false && _); [by eexists |].
    destruct (has_null_char raw); [by eexists |].
    unfold validate_store_url, try_except, Merchant_get_by_store_url, bind, get_store.
    rewrite (filter_none _ _ Hnone). simpl. by eexists. }
  destruct Hurl as (message & Hurl).
  unfold dispatch, import_product, ImportProductSerializer_is_valid.
  rewrite (bind_run _ _ _ _ _ (bind_run _ _ _ _ _ Hurl)).
  eexists. split; [reflexivity |].
  exists message. simpl. left.
Qed.

Lemma import_product_unknown_store_url_witness :
  exists errs,
    dispatch (import_product unknown_store_import) shop
    = (mkResponse HTTP_400_BAD_REQUEST (errors errs), shop)
    /\ exists message, ("store_url"%string, message) ∈ errs.
Proof.
  apply (import_product_unknown_store_url shop unknown_store_import
           "nonexistent-store.myshopify.com").
  - reflexivity.
  - vm_compute. intros m Hm Heq.
    repeat (apply elem_of_cons in Hm as [-> | Hm]; [discriminate Heq |]).
    inversion Hm.
Defined.

(** C4, on the code. An import with an empty list of variants passes the
    serializers; the transaction creates the product, then [min()] raises
    on the empty sequence; the writes are undone and the response is 500,
    not 400. *)
Theorem import_product_empty_variants :
  ImportProductSerializer_is_valid empty_variants_import shop
  = (Ok (inr ("s1"%string,
              ProductPayload.mk (Some "P1"%string) (Some "Widget"%string) None None (Some []))),
     shop)
  /\ dispatch (import_product empty_variants_import) shop
     = (mkResponse HTTP_500_INTERNAL_SERVER_ERROR
          (error_of "An error occurred: " ValueError), shop).
Proof. vm_compute. split; reflexivity. Qed.

(** ** Bulk activation *)


Example bulk_activate_count_skips_missing_id :
  fst (dispatch (bulk_activate (BulkData.mk (Some [1; 2; 999]) (Some false))) shop_with_two)
  = mkResponse HTTP_200_OK (bulk_result 2 false).
Proof. vm_compute. reflexivity. Qed.

Example bulk_activate_repeated_id_counts_once :
  fst (dispatch (bulk_activate (BulkData.mk (Some [1; 1; 1]) (Some false))) shop_with_two)
  = mkResponse HTTP_200_OK (bulk_result 1 false).
Proof. vm_compute. reflexivity. Qed.


(** An empty list of ids is refused by the serializer. *)
Example bulk_activate_empty_ids db active :
  dispatch (bulk_activate (BulkData.mk (Some []) (Some active))) db
  = (mkResponse HTTP_400_BAD_REQUEST
       (errors [("product_ids"%string, "This list may not be empty."%string)]), db).
Proof. reflexivity. Qed.

(** ** Import: a payload that repeats a variant id *)

Lemma filter_unique_key {A K} `{EqDecision K} (f : A -> K) (k : K) (l : list A) :
  NoDup (f <$> l) ->
  filter (fun x => f x = k) l = [] \/ exists x, filter (fun x => f x = k) l = [x].
Proof.
  induction l as [|a l IH]; [by left |].
  rewrite fmap_cons. intros [Ha Hl]%NoDup_cons.
  destruct (decide (f a = k)) as [Hk | Hk].
  - right. exists a. rewrite filter_cons_True by done. f_equal.
    apply filter_none. intros x Hx Hfx. apply Ha.
    rewrite Hk, <- Hfx. by apply list_elem_of_fmap_2.
  - rewrite filter_cons_False by done. by apply IH.
Qed.


Lemma lift_run {A} e (o : option A) a db : o = Some a -> lift e o db = (Ok a, db).
Proof. by intros ->. Qed.










(** The constraints on a store that is written out. *)
Ltac decide_by_computation :=
  match goal with
  | |- ?P => apply (@bool_decide_unpack P _); vm_compute; exact I
  end.

Ltac store_ok_by_computation :=
  constructor;
  first
    [ decide_by_computation
    | apply Forall_forall; decide_by_computation ].

Lemma store_ok_shop : store_ok shop.
Proof. store_ok_by_computation. Qed.

Lemma store_ok_shop_with_widget : store_ok shop_with_widget.
Proof. store_ok_by_computation. Qed.

Lemma store_ok_shop_with_two : store_ok shop_with_two.
Proof. store_ok_by_computation. Qed.


(** ** Listing *)

Lemma int_truthy s n : Py.int s = Some n -> Py.truthy_str s = true.
Proof. destruct s; [discriminate | done]. Qed.

Lemma Merchant_get_by_id_found s i m db :
  Py.int s = Some i ->
  filter (fun m => Merchant.id m = i) (merchants db) = [m] ->
  Merchant_get_by_id s db = (Ok m, db).
Proof.
  intros Hs Hm. unfold Merchant_get_by_id, get_prep_value.
  rewrite (bind_run _ _ _ _ _ (lift_run _ _ _ _ Hs)).
  unfold bind, get_store. by rewrite Hm.
Qed.

Lemma Merchant_get_by_id_missing s i db :
  Py.int s = Some i ->
  (forall m, m ∈ merchants db -> Merchant.id m <> i) ->
  Merchant_get_by_id s db = (Raise Merchant_DoesNotExist, db).
Proof.
  intros Hs Hm. unfold Merchant_get_by_id, get_prep_value.
  rewrite (bind_run _ _ _ _ _ (lift_run _ _ _ _ Hs)).
  unfold bind, get_store. by rewrite (filter_none _ _ Hm).
Qed.

Lemma unique_row {A K} `{EqDecision K} (f : A -> K) (l : list A) (a : A) :
  NoDup (f <$> l) -> a ∈ l -> filter (fun x => f x = f a) l = [a].
Proof.
  intros Hnodup Ha.
  destruct (filter_unique_key f (f a) l Hnodup) as [E | (x & E)].
  - assert (Hin : a ∈ filter (fun x => f x = f a) l) by (by apply list_elem_of_filter).
    rewrite E in Hin. inversion Hin.
  - assert (Hin : a ∈ filter (fun x => f x = f a) l) by (by apply list_elem_of_filter).
    rewrite E in Hin. apply list_elem_of_singleton in Hin as ->. done.
Qed.

(** For a numeric [merchant_id] the list queryset is computed without an
    exception, and holds only that merchant's products. *)
Lemma get_queryset_list_run q s i db :
  QueryParams.merchant_id q = Some s ->
  Py.int s = Some i ->
  get_queryset action_list q db = (Ok (listed q db), db)
  /\ forall r, r ∈ listed q db ->
       fst r ∈ products db /\ Product.merchant_id (fst r) = i.
Proof.
  intros Hq Hs.
  assert (Hrun : exists queryset,
             get_queryset action_list q db = (Ok queryset, db)
             /\ forall r, r ∈ queryset ->
                  fst r ∈ products db /\ Product.merchant_id (fst r) = i).
  { unfold get_queryset, bind at 1, get_store. rewrite Hq. cbn [Py.truthy_param].
    rewrite (int_truthy _ _ Hs). cbn [negb andb].
    unfold get_prep_value. rewrite Hs. cbn [lift bind ret].
    eexists. split; [reflexivity |].
    intros r Hr.
    assert (Hbase : r ∈ filter (fun r => Product.merchant_id (fst r) = i)
                      (Product_select_related db)).
    { repeat match type of Hr with
             | context [match ?x with _ => _ end] => destruct x
             end;
      repeat match type of Hr with
             | _ ∈ filter _ (filter _ _) => apply list_elem_of_filter in Hr as [_ Hr]
             end;
      exact Hr. }
    apply list_elem_of_filter in Hbase as [Hmid Hbase]. split; [| done].
    unfold Product_select_related in Hbase.
    apply list_elem_of_In, in_flat_map in Hbase as (p & Hp & Hr').
    apply list_elem_of_In in Hp, Hr'.
    apply list_elem_of_fmap in Hr' as (m & -> & _). done. }
  destruct Hrun as (queryset & Hrun & Hrows).
  unfold listed. by rewrite Hrun.
Qed.

Lemma get_page_size_bounds q :
  1 <= ProductPagination.get_page_size q <= ProductPagination.max_page_size.
Proof.
  unfold ProductPagination.get_page_size, ProductPagination._positive_int,
    ProductPagination.max_page_size, ProductPagination.page_size.
  destruct (QueryParams.page_size q) as [s |]; [| lia].
  destruct (Py.int s) as [n |]; [| lia].
  destruct (n <? 0) eqn:E1; simpl; [lia |].
  destruct (n =? 0) eqn:E2; simpl; lia.
Qed.

Lemma get_page_size_override q s n :
  QueryParams.page_size q = Some s -> Py.int s = Some n -> 1 <= n ->
  ProductPagination.get_page_size q = Z.min n ProductPagination.max_page_size.
Proof.
  intros Hq Hs Hn.
  unfold ProductPagination.get_page_size, ProductPagination._positive_int. rewrite Hq, Hs.
  destruct (n <? 0) eqn:E1; [lia |]. destruct (n =? 0) eqn:E2; [lia |]. done.
Qed.

Lemma num_pages_positive count size : 1 <= size -> 1 <= ProductPagination.num_pages count size.
Proof.
  intros Hsize. unfold ProductPagination.num_pages.
  apply Z.div_le_lower_bound; lia.
Qed.

(** Page [number] of a list is its slice from [(number - 1) * size], of
    length at most [size]: pages are counted from 1. *)
Lemma page_items_slice {A} (l : list A) number size :
  1 <= number -> 1 <= size ->
  ProductPagination.page_items l number size
  = take (Z.to_nat size) (drop (Z.to_nat ((number - 1) * size)) l).
Proof.
  intros Hn Hs. unfold ProductPagination.page_items.
  destruct (Z.of_nat (length l) <=? (number - 1) * size + size) eqn:E.
  - rewrite !take_ge; [done | |]; rewrite length_drop; lia.
  - f_equal. lia.
Qed.

Lemma paginate_run {A} (rows : list A) q number :
  ProductPagination.validate_number
    (ProductPagination.get_page_number q (Z.of_nat (length rows))
       (ProductPagination.get_page_size q))
    (Z.of_nat (length rows)) (ProductPagination.get_page_size q) = Some number ->
  forall db,
    ProductPagination.paginate rows q db
    = (Ok (Z.of_nat (length rows),
           (if number <? ProductPagination.num_pages (Z.of_nat (length rows))
                           (ProductPagination.get_page_size q)
            then Some (number + 1) else None),
           (if 1 <? number then Some (number - 1) else None),
           ProductPagination.page_items rows number (ProductPagination.get_page_size q)), db).
Proof. intros Hn db. unfold ProductPagination.paginate. by rewrite Hn. Qed.

Lemma paginate_invalid {A} (rows : list A) q :
  ProductPagination.validate_number
    (ProductPagination.get_page_number q (Z.of_nat (length rows))
       (ProductPagination.get_page_size q))
    (Z.of_nat (length rows)) (ProductPagination.get_page_size q) = None ->
  forall db, ProductPagination.paginate rows q db = (Raise NotFound, db).
Proof. intros Hn db. unfold ProductPagination.paginate. by rewrite Hn. Qed.

Lemma int_not_last t n : Py.int t = Some n -> String.eqb t "last" = false.
Proof.
  intros Ht. destruct (String.eqb t "last") eqn:E; [| done].
  apply String.eqb_eq in E. subst. discriminate.
Qed.

(** The page a request names: none stands for page 1, a number for itself. *)
Lemma validate_number_named q count size t n :
  QueryParams.page q = Some t -> Py.int t = Some n ->
  ProductPagination.validate_number (ProductPagination.get_page_number q count size)
    count size
  = if n <? 1 then None
    else if ProductPagination.num_pages count size <? n then None else Some n.
Proof.
  intros Hq Ht. unfold ProductPagination.get_page_number, ProductPagination.validate_number.
  by rewrite Hq, (int_truthy _ _ Ht), (int_not_last _ _ Ht), Ht.
Qed.

Lemma validate_number_default q count size :
  QueryParams.page q = None -> 1 <= size ->
  ProductPagination.validate_number (ProductPagination.get_page_number q count size)
    count size = Some 1.
Proof.
  intros Hq Hs. unfold ProductPagination.get_page_number, ProductPagination.validate_number.
  rewrite Hq. simpl.
  pose proof (num_pages_positive count size Hs).
  destruct (ProductPagination.num_pages count size <? 1) eqn:E; [lia | done].
Qed.

(** A list request for a merchant that exists: the merchant check passes
    and the answer is the page of the queryset, or 404 for a page number
    that is not valid. *)
Lemma list_run db q s i m :
  QueryParams.merchant_id q = Some s ->
  Py.int s = Some i ->
  filter (fun m => Merchant.id m = i) (merchants db) = [m] ->
  (forall number,
     ProductPagination.validate_number
       (ProductPagination.get_page_number q (Z.of_nat (length (listed q db)))
          (ProductPagination.get_page_size q))
       (Z.of_nat (length (listed q db))) (ProductPagination.get_page_size q) = Some number ->
     1 <= number ->
     dispatch (list_ q) db
     = (mkResponse HTTP_200_OK
          (page_body (listed q db) number (ProductPagination.get_page_size q)), db))
  /\ (ProductPagination.validate_number
        (ProductPagination.get_page_number q (Z.of_nat (length (listed q db)))
           (ProductPagination.get_page_size q))
        (Z.of_nat (length (listed q db))) (ProductPagination.get_page_size q) = None ->
      dispatch (list_ q) db
      = (mkResponse HTTP_404_NOT_FOUND (exception_detail NotFound), db)).
Proof.
  intros Hq Hs Hm.
  destruct (get_queryset_list_run q s i db Hq Hs) as [Hqs _].
  assert (Hlist : list_ q db = ListModelMixin_list q db).
  { unfold list_. rewrite Hq. cbn [Py.truthy_param]. rewrite (int_truthy _ _ Hs).
    cbn [negb default]. unfold try_except at 1.
    unfold bind at 1.
    rewrite (bind_run _ _ _ _ _ (Merchant_get_by_id_found _ _ _ _ Hs Hm)). done. }
  unfold dispatch. rewrite Hlist. unfold ListModelMixin_list.
  rewrite (bind_run _ _ _ _ _ Hqs). split.
  - intros number Hnumber Hpos.
    rewrite (bind_run _ _ _ _ _ (paginate_run _ _ _ Hnumber _)).
    unfold ret, page_body.
    rewrite page_items_slice; [done | done |]. apply get_page_size_bounds.
  - intros Hnone. by rewrite (bind_run_raise _ _ _ _ _ (paginate_invalid _ _ Hnone _)).
Qed.

(** C5 as claimed fails: merchant 1 has one product, hence one page; the
    request for page 2 is answered 404, not 200 with an empty page. *)
Lemma list_page_beyond_last_not_empty_page :
  length (listed second_page_query shop_with_widget) = 1%nat
  /\ ProductPagination.num_pages 1 (ProductPagination.get_page_size second_page_query) = 1
  /\ dispatch (list_ second_page_query) shop_with_widget
     = (mkResponse HTTP_404_NOT_FOUND (exception_detail NotFound), shop_with_widget)
  /\ status_code (fst (dispatch (list_ second_page_query) shop_with_widget)) <> HTTP_200_OK.
Proof. vm_compute. split_and!; try reflexivity. discriminate. Qed.

(** C5, as the code has it. For a list request whose [merchant_id] names a
    merchant: the page size is 20 when the request gives none, the given
    number cut at 100 when it gives a positive one, and always between 1
    and 100; without a [page] parameter the answer is 200 with page 1; with
    a numeric one, 200 with that page when it lies between 1 and the number
    of pages (pages are counted from 1), and 404 when it lies beyond the
    last page or below 1. *)
Theorem list_pagination db q s i m :
  store_ok db ->
  QueryParams.merchant_id q = Some s ->
  Py.int s = Some i ->
  m ∈ merchants db ->
  Merchant.id m = i ->
  let rows := listed q db in
  let size := ProductPagination.get_page_size q in
  let pages := ProductPagination.num_pages (Z.of_nat (length rows)) size in
  1 <= size <= 100
  /\ (QueryParams.page_size q = None -> size = 20)
  /\ (forall t n, QueryParams.page_size q = Some t -> Py.int t = Some n -> 1 <= n ->
        size = Z.min n 100)
  /\ 1 <= pages
  /\ (QueryParams.page q = None ->
        dispatch (list_ q) db = (mkResponse HTTP_200_OK (page_body rows 1 size), db))
  /\ (forall t n, QueryParams.page q = Some t -> Py.int t = Some n ->
        (1 <= n <= pages ->
           dispatch (list_ q) db = (mkResponse HTTP_200_OK (page_body rows n size), db))
        /\ (n < 1 \/ pages < n ->
              dispatch (list_ q) db
              = (mkResponse HTTP_404_NOT_FOUND (exception_detail NotFound), db))).
Proof.
  intros Hok Hq Hs Hm Hid rows size pages.
  assert (Hrow : filter (fun m => Merchant.id m = i) (merchants db) = [m]).
  { rewrite <- Hid. apply unique_row; [apply (merchant_pk _ Hok) | done]. }
  destruct (list_run db q s i m Hq Hs Hrow) as [Hpage Hinvalid].
  pose proof (get_page_size_bounds q) as Hsize.
  split_and!.
  - apply Hsize.
  - apply Hsize.
  - intros Hnone. subst size. unfold ProductPagination.get_page_size. by rewrite Hnone.
  - intros t n Ht Hn Hpos. by apply get_page_size_override with t.
  - apply num_pages_positive, Hsize.
  - intros Hnone. apply Hpage; [| done].
    apply validate_number_default; [done | apply Hsize].
  - intros t n Ht Hn. split.
    + intros [Hlo Hhi]. apply Hpage; [| done].
      rewrite (validate_number_named _ _ _ _ _ Ht Hn).
      destruct (n <? 1) eqn:E1; [lia |].
      fold rows size pages. destruct (pages <? n) eqn:E2; [lia | done].
    + intros Hout. apply Hinvalid.
      rewrite (validate_number_named _ _ _ _ _ Ht Hn).
      destruct (n <? 1) eqn:E1; [done |].
      fold rows size pages. destruct (pages <? n) eqn:E2; [done | lia].
Qed.

Example list_page_size_is_cut :
  ProductPagination.get_page_size large_page_query = 100.
Proof. reflexivity. Qed.

(** Merchant 1 and the request for page 2: the one page the merchant's
    product fills is page 1. *)
Lemma list_pagination_witness :
  1 <= ProductPagination.get_page_size second_page_query <= 100
  /\ dispatch (list_ second_page_query) shop_with_widget
     = (mkResponse HTTP_404_NOT_FOUND (exception_detail NotFound), shop_with_widget).
Proof.
  pose proof (list_pagination shop_with_widget second_page_query "1" 1
                (Merchant.mk 1 "Tech Store" "tech@example.com" "s1" "ACTIVE")
                store_ok_shop_with_widget eq_refl eq_refl) as H.
  destruct H as (Hsize & _ & _ & _ & _ & Hpage).
  - vm_compute. left.
  - reflexivity.
  - split; [exact Hsize |].
    apply (Hpage "2"%string 2 eq_refl eq_refl). right. vm_compute. reflexivity.
Defined.

(** C6 as claimed fails on two list requests.  Merchant 2 exists and has
    no products, yet the request for its page 2 is answered 404, not 200
    with count 0; and a [merchant_id] that is no number makes the merchant
    lookup raise [ValueError], which no handler takes: 500, not 404. *)
Lemma list_requires_merchant_counterexample :
  (Merchant.mk 2 "Fashion Boutique" "fashion@example.com" "s2" "ACTIVE" ∈ merchants shop_with_widget
   /\ (forall p, p ∈ products shop_with_widget -> Product.merchant_id p <> 2)
   /\ dispatch (list_ idle_merchant_second_page_query) shop_with_widget
      = (mkResponse HTTP_404_NOT_FOUND (exception_detail NotFound), shop_with_widget))
  /\ ((forall m, m ∈ merchants shop -> Some (Merchant.id m) <> Py.int "abc")
      /\ dispatch (list_ letters_merchant_query) shop
         = (mkResponse HTTP_500_INTERNAL_SERVER_ERROR server_error, shop)).
Proof.
  split_and!.
  - vm_compute. right. left.
  - apply Forall_forall. decide_by_computation.
  - vm_compute. reflexivity.
  - intros m _. vm_compute. discriminate.
  - vm_compute. reflexivity.
Qed.

(** C6, as the code has it. A list request without [merchant_id] (or with
    an empty one) is answered 400 whatever the store holds; with a numeric
    [merchant_id] that is the id of no merchant, 404; with the id of a
    merchant who has no products, and no [page] parameter or page 1, 200
    with count 0 and no results. *)
Theorem list_requires_merchant db q :
  (Py.truthy_param (QueryParams.merchant_id q) = false ->
     dispatch (list_ q) db
     = (mkResponse HTTP_400_BAD_REQUEST (error "merchant_id query parameter is required"), db))
  /\ (forall s i,
        QueryParams.merchant_id q = Some s -> Py.int s = Some i ->
        (forall m, m ∈ merchants db -> Merchant.id m <> i) ->
        dispatch (list_ q) db
        = (mkResponse HTTP_404_NOT_FOUND
             (error ("Merchant with id " +:+ s +:+ " does not exist")), db))
  /\ (forall s i m,
        store_ok db ->
        QueryParams.merchant_id q = Some s -> Py.int s = Some i ->
        m ∈ merchants db -> Merchant.id m = i ->
        (forall p, p ∈ products db -> Product.merchant_id p <> i) ->
        (QueryParams.page q = None
         \/ exists t, QueryParams.page q = Some t /\ Py.int t = Some 1) ->
        dispatch (list_ q) db = (mkResponse HTTP_200_OK (page_of 0 None None []), db)).
Proof.
  split_and!.
  - intros Hq. unfold dispatch, list_. by rewrite Hq.
  - intros s i Hq Hs Hnone. unfold dispatch, list_. rewrite Hq.
    cbn [Py.truthy_param]. rewrite (int_truthy _ _ Hs). cbn [negb default].
    unfold try_except at 1, bind at 1.
    by rewrite (bind_run_raise _ _ _ _ _ (Merchant_get_by_id_missing _ _ _ Hs Hnone)).
  - intros s i m Hok Hq Hs Hm Hid Hnone Hpage.
    assert (Hrows : listed q db = []).
    { destruct (get_queryset_list_run q s i db Hq Hs) as [_ Hrows].
      destruct (listed q db) as [|r rows]; [done |].
      destruct (Hrows r) as [Hp Hmid]; [left |]. by destruct (Hnone _ Hp). }
    assert (Hrow : filter (fun m => Merchant.id m = i) (merchants db) = [m]).
    { rewrite <- Hid. apply unique_row; [apply (merchant_pk _ Hok) | done]. }
    destruct (list_run db q s i m Hq Hs Hrow) as [Hrun _].
    pose proof (get_page_size_bounds q) as Hsize.
    rewrite Hrows in Hrun. change (Z.of_nat (length [])) with 0 in Hrun.
    assert (Hpages : ProductPagination.num_pages 0 (ProductPagination.get_page_size q) = 1).
    { unfold ProductPagination.num_pages. replace (Z.max 1 0) with 1 by lia.
      replace (1 + ProductPagination.get_page_size q - 1)
        with (ProductPagination.get_page_size q) by lia.
      apply Z.div_same. lia. }
    assert (Hbody : page_body [] 1 (ProductPagination.get_page_size q)
                    = page_of 0 None None []).
    { unfold page_body. change (Z.of_nat (length [])) with 0.
      rewrite Hpages. cbn [Z.ltb Z.compare]. by rewrite drop_nil, take_nil. }
    rewrite <- Hbody. apply Hrun; [| lia].
    destruct Hpage as [Hpage | (t & Ht & Hint)].
    + apply validate_number_default; [done | lia].
    + rewrite (validate_number_named _ _ _ _ _ Ht Hint), Hpages. done.
Qed.

(** No merchant id on any shop; merchant 7 on the shop, which has merchants
    1 and 2; merchant 2, who has no products, after the widget's import. *)
Lemma list_requires_merchant_witness :
  dispatch (list_ no_merchant_query) shop
  = (mkResponse HTTP_400_BAD_REQUEST (error "merchant_id query parameter is required"), shop)
  /\ dispatch (list_ missing_merchant_query) shop
     = (mkResponse HTTP_404_NOT_FOUND (error "Merchant with id 7 does not exist"), shop)
  /\ dispatch (list_ idle_merchant_query) shop_with_widget
     = (mkResponse HTTP_200_OK (page_of 0 None None []), shop_with_widget).
Proof.
  split_and!.
  - apply (proj1 (list_requires_merchant shop no_merchant_query)). reflexivity.
  - apply (proj1 (proj2 (list_requires_merchant shop missing_merchant_query)) "7"%string 7).
    + reflexivity.
    + reflexivity.
    + apply Forall_forall. decide_by_computation.
  - apply (proj2 (proj2 (list_requires_merchant shop_with_widget idle_merchant_query))
             "2"%string 2
             (Merchant.mk 2 "Fashion Boutique" "fashion@example.com" "s2" "ACTIVE")).
    + store_ok_by_computation.
    + reflexivity.
    + reflexivity.
    + vm_compute. right. left.
    + reflexivity.
    + apply Forall_forall. decide_by_computation.
    + by left.
Defined.

(** ** Detail *)

Lemma select_related_rows ms ps (r : Product.t * Merchant.t) :
  r ∈ flat_map (fun p => pair p <$> filter (fun m => Merchant.id m = Product.merchant_id p) ms)
        ps ->
  fst r ∈ ps.
Proof.
  intros Hr. apply list_elem_of_In, in_flat_map in Hr as (p & Hp & Hr).
  apply list_elem_of_In in Hp, Hr. apply list_elem_of_fmap in Hr as (m & -> & _). done.
Qed.

(** Under the primary keys, the joined rows of one product id are the one
    pair of the product and its merchant. *)
Lemma select_related_by_id ms ps p m :
  NoDup (Product.id <$> ps) ->
  p ∈ ps ->
  filter (fun m => Merchant.id m = Product.merchant_id p) ms = [m] ->
  filter (fun r => Product.id (fst r) = Product.id p)
    (flat_map (fun p => pair p <$> filter (fun m => Merchant.id m = Product.merchant_id p) ms)
       ps)
  = [(p, m)].
Proof.
  induction ps as [|a ps IH]; intros Hnodup Hp Hm; [inversion Hp |].
  rewrite fmap_cons in Hnodup. apply NoDup_cons in Hnodup as [Ha Hnodup].
  cbn [flat_map]. rewrite filter_app.
  apply elem_of_cons in Hp as [<- | Hp].
  - rewrite Hm. cbn [fmap list_fmap]. rewrite filter_cons_True by done. rewrite filter_nil.
    rewrite (filter_none (fun r => Product.id (fst r) = Product.id p)); [done |].
    intros r Hr%select_related_rows Hid. apply Ha. rewrite <- Hid.
    by apply list_elem_of_fmap_2.
  - rewrite (filter_none (fun r => Product.id (fst r) = Product.id p)).
    + by apply IH.
    + intros r (m0 & -> & _)%list_elem_of_fmap Hid. simpl in Hid.
      apply Ha. rewrite Hid. by apply list_elem_of_fmap_2.
Qed.

(** The detail queryset, when its computation raises nothing: joined rows,
    of the merchant the request names when it names one. *)
Lemma get_queryset_retrieve_run q db :
  (Py.truthy_param (QueryParams.merchant_id q) = false
   \/ exists s j, QueryParams.merchant_id q = Some s /\ Py.int s = Some j) ->
  exists queryset,
    get_queryset action_retrieve q db = (Ok queryset, db)
    /\ (forall r, r ∈ queryset -> r ∈ Product_select_related db)
    /\ (forall s j r, QueryParams.merchant_id q = Some s -> Py.int s = Some j ->
          r ∈ queryset -> Product.merchant_id (fst r) = j)
    /\ (QueryParams.merchant_id q = None -> QueryParams.active q = None ->
        QueryParams.search q = None -> queryset = Product_select_related db).
Proof.
  intros Hq. unfold get_queryset, bind at 1, get_store. cbn [andb].
  assert (Hstep : exists base,
             (match QueryParams.merchant_id q with
              | Some s =>
                  if Py.truthy_str s
                  then bind (get_prep_value s)
                         (fun i => ret (filter (fun r => Product.merchant_id (fst r) = i)
                                          (Product_select_related db)))
                  else ret (Product_select_related db)
              | None => ret (Product_select_related db)
              end) db = (Ok base, db)
             /\ (forall r, r ∈ base -> r ∈ Product_select_related db)
             /\ (forall s j r, QueryParams.merchant_id q = Some s -> Py.int s = Some j ->
                   r ∈ base -> Product.merchant_id (fst r) = j)
             /\ (QueryParams.merchant_id q = None -> base = Product_select_related db)).
  { destruct Hq as [Hq | (s & j & Hq & Hs)].
    - exists (Product_select_related db). split_and!; try done.
      + destruct (QueryParams.merchant_id q) as [s |]; [| done].
        simpl in Hq. by rewrite Hq.
      + intros s j r Hs Hj. rewrite Hs in Hq. simpl in Hq.
        rewrite (int_truthy _ _ Hj) in Hq. done.
    - exists (filter (fun r => Product.merchant_id (fst r) = j) (Product_select_related db)).
      rewrite Hq, (int_truthy _ _ Hs). unfold get_prep_value. rewrite Hs.
      split_and!; try done.
      + by intros r [_ Hr]%list_elem_of_filter.
      + intros s0 j0 r [= <-] Hj0 [Hr _]%list_elem_of_filter. congruence. }
  destruct Hstep as (base & Hbase & Hsub & Hmid & Hplain).
  rewrite (bind_run _ _ _ _ _ Hbase).
  eexists. split; [reflexivity |]. split_and!.
  - intros r Hr. apply Hsub.
    repeat match type of Hr with
           | context [match ?x with _ => _ end] => destruct x
           end;
    repeat match type of Hr with
           | _ ∈ filter _ _ => apply list_elem_of_filter in Hr as [_ Hr]
           end;
    exact Hr.
  - intros s j r Hs Hj Hr. apply (Hmid s j r Hs Hj).
    repeat match type of Hr with
           | context [match ?x with _ => _ end] => destruct x
           end;
    repeat match type of Hr with
           | _ ∈ filter _ _ => apply list_elem_of_filter in Hr as [_ Hr]
           end;
    exact Hr.
  - intros Hm Ha Hs. rewrite Ha, Hs. by apply Hplain.
Qed.

Lemma retrieve_missing db pk q queryset :
  get_queryset action_retrieve q db = (Ok queryset, db) ->
  (forall i, Py.int pk = Some i ->
     filter (fun r => Product.id (fst r) = i) queryset = []) ->
  dispatch (retrieve pk q) db
  = (mkResponse HTTP_404_NOT_FOUND (exception_detail Http404), db).
Proof.
  intros Hqs Hnone. unfold dispatch, retrieve, get_object.
  assert (Hget : get_object_or_404 queryset pk db = (Raise Http404, db)).
  { unfold get_object_or_404. destruct (Py.int pk) as [i |]; [| done].
    by rewrite (Hnone i eq_refl). }
  by rewrite (bind_run_raise _ _ _ _ _
                (eq_trans (bind_run _ _ _ _ _ Hqs) Hget)).
Qed.




Example retrieve_detail_variants_complete :
  fst (dispatch (retrieve "1" plain_query) shop_with_widget)
  = mkResponse HTTP_200_OK
      (detail (ProductDetail.mk 1 "P1" "Widget" "" "" true 800 "Tech Store" None
                 [VariantFull.mk 1 "V1" "Small" "" 1000 1000 5 true;
                  VariantFull.mk 2 "V2" "Large" "" 800 1200 3 true])).
Proof. vm_compute. reflexivity. Qed.

(** ** The constraints are kept *)

Lemma Product_get_or_create_store_ok merchant external_id title description product_type
    active db p created db' :
  store_ok db ->
  merchant ∈ merchants db ->
  Product_get_or_create merchant external_id title description product_type active db
  = (Ok (p, created), db') ->
  store_ok db'.
Proof.
  intros Hok Hm. unfold Product_get_or_create, bind at 1, get_store.
  destruct (filter _ (products db)) as [|p0 [|p1 rows]] eqn:E.
  - unfold Product_create, atomic, bind, get_store, put_store, ret, raise.
    case_decide as Hk; intros Hrun; inversion Hrun; subst; clear Hrun.
    destruct Hok. constructor; simpl; try done.
    + rewrite fmap_app. apply NoDup_app. split_and!; [done | | apply NoDup_singleton].
      intros i (p & -> & Hp%product_seq_bound0)%list_elem_of_fmap
               Hi%list_elem_of_singleton.
      simpl in Hi. lia.
    + rewrite fmap_app. apply NoDup_app. split_and!; [done | | apply NoDup_singleton].
      intros k Hk' ->%list_elem_of_singleton. done.
    + intros p [Hp | ->%list_elem_of_singleton]%elem_of_app; [auto |].
      simpl. by apply list_elem_of_fmap_2.
    + intros p [Hp%product_seq_bound0 | ->%list_elem_of_singleton]%elem_of_app;
        simpl; lia.
    + intros v Hv%variant_product_fk0. rewrite fmap_app. apply elem_of_app. by left.
  - unfold ret. by intros [= _ _ <-].
  - unfold raise. discriminate.
Qed.

Lemma Product_save_store_ok p p0 db :
  store_ok db ->
  p0 ∈ products db ->
  Product.id p = Product.id p0 ->
  Product.key p = Product.key p0 ->
  store_ok (snd (Product_save p db)).
Proof.
  intros Hok Hp0 Hid Hkey. rewrite Product_save_run. cbn [snd].
  assert (Hsame : forall row, row ∈ products db -> Product.id row = Product.id p ->
                    row = p0).
  { intros row Hrow Hrid.
    assert (Hin : row ∈ filter (fun x => Product.id x = Product.id p0) (products db))
      by (apply list_elem_of_filter; split; [congruence | done]).
    rewrite (unique_row Product.id _ _ (product_pk _ Hok) Hp0) in Hin.
    by apply list_elem_of_singleton in Hin. }
  assert (Hkeys : Product.key <$> ((fun row => if decide (Product.id row = Product.id p)
                                               then p else row) <$> products db)
                  = Product.key <$> products db).
  { rewrite <- list_fmap_compose. apply list_fmap_ext. intros _ row Hrow%list_elem_of_lookup_2.
    simpl. case_decide as Hd; [| done]. rewrite (Hsame row Hrow Hd). done. }
  destruct (saved_rows p (products db)) as (_ & _ & Hids). simpl in Hids.
  destruct Hok. constructor; simpl; try done.
  - by rewrite Hids.
  - by rewrite Hkeys.
  - intros row (row0 & -> & Hrow0)%list_elem_of_fmap. case_decide as Hd.
    + rewrite (Hsame row0 Hrow0 Hd) in Hrow0.
      unfold Product.key in Hkey. injection Hkey as -> _. auto.
    + auto.
  - intros row (row0 & -> & Hrow0)%list_elem_of_fmap. case_decide as Hd.
    + rewrite Hid. auto.
    + auto.
  - intros v Hv. rewrite Hids. auto.
Qed.

Lemma Variant_insert_all_store_ok objs : forall db db',
  store_ok db ->
  (forall v, v ∈ objs -> Variant.product_id v ∈ Product.id <$> products db) ->
  Variant_insert_all objs db = (Ok tt, db') ->
  store_ok db'.
Proof.
  induction objs as [|v objs IH]; intros db db' Hok Hfk Hrun; simpl in Hrun.
  - by inversion Hrun; subst.
  - unfold bind at 1, Variant_insert, bind at 1, get_store in Hrun.
    case_decide as Hk; [discriminate |]. unfold put_store in Hrun.
    apply IH in Hrun; [done | | intros v0 Hv0; apply Hfk; by right].
    destruct Hok. constructor; simpl; try done.
    + rewrite fmap_app. apply NoDup_app. split_and!; [done | | apply NoDup_singleton].
      intros i (v0 & -> & Hv0%variant_seq_bound0)%list_elem_of_fmap
               Hi%list_elem_of_singleton.
      simpl in Hi. lia.
    + rewrite fmap_app. apply NoDup_app. split_and!; [done | | apply NoDup_singleton].
      intros k Hk' ->%list_elem_of_singleton. done.
    + intros v0 [Hv0 | ->%list_elem_of_singleton]%elem_of_app; [auto |].
      simpl. apply Hfk. left.
    + intros v0 [Hv0%variant_seq_bound0 | ->%list_elem_of_singleton]%elem_of_app;
        simpl; lia.
Qed.

Lemma import_transaction_store_ok merchant product_data db response db' :
  store_ok db ->
  merchant ∈ merchants db ->
  import_transaction merchant product_data db = (Ok response, db') ->
  store_ok db'.
Proof.
  intros Hok Hm. unfold import_transaction. intros Hrun.
  apply bind_Ok in Hrun as (external_id & db1 & [Hid ->]%lift_Ok & Hrun).
  apply bind_Ok in Hrun as (title & db1 & [Htitle ->]%lift_Ok & Hrun).
  apply bind_Ok in Hrun as ([p0 created] & db1 & Hgot & Hrun).
  pose proof (Product_get_or_create_store_ok _ _ _ _ _ _ _ _ _ _ Hok Hm Hgot) as Hok1.
  apply Product_get_or_create_Ok in Hgot as (_ & Hp0 & _).
  apply bind_Ok in Hrun as (product & db2 & Hupd & Hrun).
  assert (Hprod : store_ok db2 /\ exists p1, p1 ∈ products db2
                    /\ Product.id product = Product.id p1
                    /\ Product.key product = Product.key p1).
  { simpl in Hupd. destruct created.
    - inversion Hupd; subst. split; [done |]. by exists product.
    - apply bind_Ok in Hupd as ([] & db3 & Hsave & Hupd).
      inversion Hupd; subst; clear Hupd.
      match type of Hsave with
      | Product_save ?p _ = _ =>
          set (p' := p) in *;
          pose proof (Product_save_store_ok p' p0 db1 Hok1 Hp0 eq_refl eq_refl) as Hok2
      end.
      rewrite Hsave in Hok2. split; [done |].
      rewrite Product_save_run in Hsave. inversion Hsave; subst; clear Hsave.
      exists p'. split_and!; [| done | done].
      apply (proj1 (saved_rows p' (products db1))).
      by apply (list_elem_of_fmap_2 Product.id _ p0). }
  destruct Hprod as (Hok2 & p1 & Hp1 & Hid1 & Hkey1).
  apply bind_Ok in Hrun as (stored & db3 & Hstored & Hrun).
  rewrite Product_variants_run in Hstored. inversion Hstored; subst db3 stored; clear Hstored.
  apply bind_Ok in Hrun as (payload & db3 & [Hpayload ->]%lift_Ok & Hrun).
  apply bind_Ok in Hrun as (to_create & db3 & Hloop & Hrun).
  pose proof (read_only_variants_to_create _ _ _ _ _ _ Hloop) as ->.
  apply bind_Ok in Hrun as ([] & db3 & Hbulk & Hrun).
  assert (Hok3 : store_ok db3 /\ products db3 = products db2).
  { destruct to_create as [|v0 to_create0]; [by inversion Hbulk; subst |].
    apply atomic_Ok in Hbulk. split.
    - eapply Variant_insert_all_store_ok; [exact Hok2 | | exact Hbulk].
      intros v Hv.
      destruct (variants_to_create_Ok _ _ _ _ _ _ Hloop v Hv) as (pv & _ & _ & Hnv).
      apply new_variant_Ok in Hnv as (_ & raw & _ & _ & -> & _).
      rewrite Hid1. by apply list_elem_of_fmap_2.
    - by apply Variant_insert_all_inv in Hbulk as (_ & -> & _). }
  destruct Hok3 as [Hok3 Hp3].
  apply bind_Ok in Hrun as (prices & db4 & Hprices & Hrun).
  pose proof (read_only_payload_prices _ _ _ _ Hprices) as ->.
  apply bind_Ok in Hrun as (min_price & db4 & [Hmin ->]%lift_Ok & Hrun).
  apply bind_Ok in Hrun as ([] & db4 & Hsave & Hrun).
  rewrite <- Hp3 in Hp1.
  pose proof (Product_save_store_ok (with_base_price product min_price) p1 db3 Hok3 Hp1
                Hid1 Hkey1) as Hok4.
  rewrite Hsave in Hok4. cbn [snd] in Hok4.
  apply bind_Ok in Hrun as (d & db5 & Hd & Hrun).
  unfold ProductDetailSerializer in Hd.
  rewrite (bind_run _ _ _ _ _ (Product_variants_run _ _)) in Hd.
  inversion Hd; subst db5 d; clear Hd.
  by inversion Hrun; subst.
Qed.

(** An import leaves a store that meets its constraints in that state,
    whatever it answers. *)
Lemma import_product_store_ok db request response db' :
  store_ok db ->
  dispatch (import_product request) db = (response, db') ->
  store_ok db'.
Proof.
  intros Hok Hrun.
  apply import_product_inv in Hrun as [(-> & _) | Hrun]; [done |].
  destruct Hrun as (raw & product_data & merchant & _ & _ & Hm & _ & Hrun).
  by apply (import_transaction_store_ok _ _ _ _ _ Hok Hm Hrun).
Qed.

(** So does a bulk activation. *)
Lemma bulk_activate_store_ok db request response db' :
  store_ok db ->
  dispatch (bulk_activate request) db = (response, db') ->
  store_ok db'.
Proof.
  intros Hok. unfold dispatch, bulk_activate.
  destruct (BulkActivateSerializer_is_valid request) as [errs | [ids active]].
  - by intros [= _ <-].
  - intros [= _ <-]. simpl.
    assert (Hids : Product.id <$> ((fun p => if decide (Product.id p ∈ ids)
                                             then Product.mk (Product.id p) (Product.merchant_id p)
                                                    (Product.external_id p) (Product.title p)
                                                    (Product.description p)
                                                    (Product.product_type p) active
                                                    (Product.base_price p)
                                             else p) <$> products db)
                   = Product.id <$> products db).
    { rewrite <- list_fmap_compose. apply list_fmap_ext. intros _ p _. simpl.
      by case_decide. }
    assert (Hkeys : Product.key <$> ((fun p => if decide (Product.id p ∈ ids)
                                             then Product.mk (Product.id p) (Product.merchant_id p)
                                                    (Product.external_id p) (Product.title p)
                                                    (Product.description p)
                                                    (Product.product_type p) active
                                                    (Product.base_price p)
                                             else p) <$> products db)
                   = Product.key <$> products db).
    { rewrite <- list_fmap_compose. apply list_fmap_ext. intros _ p _. simpl.
      by case_decide. }
    destruct Hok. constructor; simpl; try done.
    + by rewrite Hids.
    + by rewrite Hkeys.
    + intros p (p0 & -> & Hp0)%list_elem_of_fmap. case_decide; simpl; auto.
    + intros p (p0 & -> & Hp0)%list_elem_of_fmap. case_decide; simpl; auto.
    + intros v Hv. rewrite Hids. auto.
Qed.

(** * Further properties of the views *)

(** ** The soft delete *)

(** The queryset of an action other than [list], when its computation
    raises nothing. *)
Lemma get_queryset_other_run action q db :
  action <> action_list ->
  (Py.truthy_param (QueryParams.merchant_id q) = false
   \/ exists s j, QueryParams.merchant_id q = Some s /\ Py.int s = Some j) ->
  exists queryset,
    get_queryset action q db = (Ok queryset, db)
    /\ (forall r, r ∈ queryset -> r ∈ Product_select_related db)
    /\ (QueryParams.merchant_id q = None -> QueryParams.active q = None ->
        QueryParams.search q = None -> queryset = Product_select_related db).
Proof.
  intros Haction Hq.
  assert (Hsame : get_queryset action q db = get_queryset action_retrieve q db)
    by (by destruct action).
  rewrite Hsame.
  destruct (get_queryset_retrieve_run q db Hq) as (queryset & Hqs & Hsub & _ & Hplain).
  by exists queryset.
Qed.

Example remove_product_then_again :
  fst (dispatch_remove (remove_product "1" plain_query) shop_with_two)
  = mkRemoveResponse HTTP_200_OK (deactivated "Widget" 1)
  /\ fst (dispatch_remove (remove_product "1" plain_query) shop_removed)
     = mkRemoveResponse HTTP_200_OK (deactivated "Widget" 1)
  /\ snd (dispatch_remove (remove_product "1" plain_query) shop_removed) = shop_removed.
Proof. vm_compute. done. Qed.

Lemma get_object_or_404_inv queryset pk db r db' :
  get_object_or_404 queryset pk db = (r, db') ->
  db' = db
  /\ ((exists row i, r = Ok row /\ Py.int pk = Some i
         /\ filter (fun x => Product.id (fst x) = i) queryset = [row])
      \/ r = Raise Http404 \/ r = Raise MultipleObjectsReturned).
Proof.
  unfold get_object_or_404. destruct (Py.int pk) as [i |].
  - unfold try_except.
    destruct (filter _ queryset) as [|row [|row' rows]] eqn:E; simpl;
      intros [= <- <-]; split; try done.
    + right. by left.
    + left. by exists row, i.
    + right. by right.
  - intros [= <- <-]. split; [done |]. right. by left.
Qed.

Lemma read_only_get_queryset action q : read_only (get_queryset action q).
Proof.
  unfold get_queryset. apply read_only_bind; [apply read_only_get_store | intros db0].
  destruct (_ && _); [apply read_only_ret |].
  apply read_only_bind; [| intros; apply read_only_ret].
  destruct (QueryParams.merchant_id q) as [s |]; [| apply read_only_ret].
  destruct (Py.truthy_str s); [| apply read_only_ret].
  unfold get_prep_value. read_only_tac.
Qed.

Lemma read_only_get_object action pk q : read_only (get_object action pk q).
Proof.
  unfold get_object. apply read_only_bind; [apply read_only_get_queryset | intros qs].
  intros db r db' H. by apply get_object_or_404_inv in H as [-> _].
Qed.

(** Every way [remove_product] can end. *)
Lemma remove_product_inv pk q db response db' :
  dispatch_remove (remove_product pk q) db = (response, db') ->
  (exists p m i,
     Py.int pk = Some i /\ Product.id p = i
     /\ (p, m) ∈ Product_select_related db
     /\ response = mkRemoveResponse HTTP_200_OK (deactivated (Product.title p) i)
     /\ db' = snd (Product_save (with_active p false) db))
  \/ (db' = db
      /\ exists e, response = mkRemoveResponse HTTP_500_INTERNAL_SERVER_ERROR
                                (remove_failed (error_of "An error occurred: " e))
                   /\ e <> Product_DoesNotExist).
Proof.
  unfold dispatch_remove, remove_product, try_except.
  destruct (bind (get_object action_other pk q) _ db) as [[resp | e] db1] eqn:Hbody.
  - intros [= <- <-].
    apply bind_Ok in Hbody as ([p m] & db2 & Hget & Hbody).
    pose proof (read_only_get_object _ _ _ _ _ _ Hget) as ->.
    unfold get_object in Hget.
    apply bind_Ok in Hget as (qs & db2 & Hqs & Hget).
    pose proof (read_only_get_queryset _ _ _ _ _ Hqs) as ->.
    apply get_object_or_404_inv in Hget as (_ & [(row & i & [= <-] & Hi & Hrow) | [? | ?]]);
      try discriminate.
    assert (Hin : (p, m) ∈ filter (fun x => Product.id (fst x) = i) qs)
      by (rewrite Hrow; left).
    apply list_elem_of_filter in Hin as [Hid Hin]. simpl in Hid.
    assert (Hsel : (p, m) ∈ Product_select_related db).
    { assert (Hcases : action_other <> action_list) by done.
      clear Hbody Hrow. unfold get_queryset, bind at 1, get_store in Hqs. cbn [andb] in Hqs.
      apply bind_Ok in Hqs as (base & db3 & Hbase & Hqs).
      assert (Hsub : forall r, r ∈ base -> r ∈ Product_select_related db).
      { destruct (QueryParams.merchant_id q) as [s |]; [| by inversion Hbase; subst].
        destruct (Py.truthy_str s); [| by inversion Hbase; subst].
        apply bind_Ok in Hbase as (j & db4 & _ & Hbase). inversion Hbase; subst.
        by intros r [_ Hr]%list_elem_of_filter. }
      inversion Hqs; subst; clear Hqs. apply Hsub.
      repeat match type of Hin with
             | context [match ?x with _ => _ end] => destruct x
             end;
      repeat match type of Hin with
             | _ ∈ filter _ _ => apply list_elem_of_filter in Hin as [_ Hin]
             end;
      exact Hin. }
    left. exists p, m, i. cbn [fst] in Hbody.
    rewrite (bind_run _ _ _ _ _ (Product_save_run _ _)) in Hbody.
    inversion Hbody; subst; clear Hbody. simpl. by split_and!.
  - intros Hrun. right.
    assert (db1 = db) as ->.
    { apply bind_inv in Hbody as [(a & db2 & Hget & Hbody) | (e0 & Hget & _)].
      - rewrite (bind_run _ _ _ _ _ (Product_save_run _ _)) in Hbody. inversion Hbody.
      - by apply read_only_get_object in Hget. }
    assert (He : e <> Product_DoesNotExist).
    { intros ->.
      apply bind_inv in Hbody as [(a & db2 & Hget & Hbody) | (e0 & Hget & [= <-])].
      - rewrite (bind_run _ _ _ _ _ (Product_save_run _ _)) in Hbody. inversion Hbody.
      - unfold get_object in Hget.
        apply bind_inv in Hget as [(qs & db2 & Hqs & Hget) | (e1 & Hqs & [= <-])].
        + apply get_object_or_404_inv in Hget as (_ & [(row & i & ? & _) | [? | ?]]);
            discriminate.
        + unfold get_queryset, bind at 1, get_store in Hqs.
          destruct (_ && _); [inversion Hqs |].
          apply bind_inv in Hqs as [(base & db3 & _ & Hqs) | (e2 & Hbase & [= <-])];
            [inversion Hqs |].
          destruct (QueryParams.merchant_id q) as [s |]; [| inversion Hbase].
          destruct (Py.truthy_str s); [| inversion Hbase].
          unfold get_prep_value in Hbase.
          destruct (Py.int s); inversion Hbase. }
    destruct e; try congruence; inversion Hrun; subst;
      (split; [done |]); eexists; (split; [reflexivity | discriminate]).
Qed.

Lemma merchant_of_product db p :
  store_ok db -> p ∈ products db ->
  exists m, m ∈ merchants db /\ Merchant.id m = Product.merchant_id p
    /\ filter (fun r => Product.id (fst r) = Product.id p) (Product_select_related db)
       = [(p, m)].
Proof.
  intros Hok Hp.
  destruct (proj1 (list_elem_of_fmap _ _ _) (product_merchant_fk _ Hok p Hp))
    as (m & Hmid & Hm).
  exists m. split_and!; [done | done |].
  apply select_related_by_id; [apply (product_pk _ Hok) | done |].
  rewrite Hmid. apply unique_row; [apply (merchant_pk _ Hok) | done].
Qed.

Lemma deactivated_store_save db p :
  store_ok db -> p ∈ products db ->
  snd (Product_save (with_active p false) db) = deactivated_store (Product.id p) db.
Proof.
  intros Hok Hp. rewrite Product_save_run. unfold deactivated_store. cbn [snd]. f_equal.
  apply list_fmap_ext. intros _ row Hrow%list_elem_of_lookup_2. simpl.
  case_decide as Hd; [| done].
  assert (Hin : row ∈ filter (fun x => Product.id x = Product.id p) (products db))
    by (by apply list_elem_of_filter).
  rewrite (unique_row Product.id _ _ (product_pk _ Hok) Hp) in Hin.
  by apply list_elem_of_singleton in Hin as ->.
Qed.

Lemma deactivated_store_twice i db :
  deactivated_store i (deactivated_store i db) = deactivated_store i db.
Proof.
  unfold deactivated_store. simpl. f_equal.
  rewrite <- list_fmap_compose. apply list_fmap_ext. intros _ row _. simpl.
  destruct (decide (Product.id row = i)) as [Hd | Hd]; simpl;
    [rewrite decide_True by done | rewrite decide_False by done]; reflexivity.
Qed.

(** The soft delete of a stored product, on a request without filter
    parameters. *)
Lemma remove_product_run db pk i p q :
  store_ok db ->
  Py.int pk = Some i ->
  p ∈ products db -> Product.id p = i ->
  QueryParams.merchant_id q = None -> QueryParams.active q = None ->
  QueryParams.search q = None ->
  dispatch_remove (remove_product pk q) db
  = (mkRemoveResponse HTTP_200_OK (deactivated (Product.title p) i), deactivated_store i db).
Proof.
  intros Hok Hpk Hp Hid Hq Ha Hs.
  destruct (get_queryset_other_run action_other q db) as (qs & Hqs & _ & Hplain);
    [done | left; by rewrite Hq |].
  rewrite (Hplain Hq Ha Hs) in Hqs.
  destruct (merchant_of_product db p Hok Hp) as (m & _ & _ & Hrow). rewrite Hid in Hrow.
  assert (Hget : get_object action_other pk q db = (Ok (p, m), db)).
  { unfold get_object. rewrite (bind_run _ _ _ _ _ Hqs).
    unfold get_object_or_404, try_except. by rewrite Hpk, Hrow. }
  unfold dispatch_remove, remove_product, try_except.
  rewrite (bind_run _ _ _ _ _ Hget). cbn [fst].
  rewrite (bind_run _ _ _ _ _ (Product_save_run _ _)).
  unfold ret. f_equal; [by rewrite <- Hid |].
  rewrite <- Hid, <- (deactivated_store_save db p Hok Hp). by rewrite Product_save_run.
Qed.

Lemma remove_product_store_ok_step db p :
  store_ok db -> p ∈ products db -> store_ok (deactivated_store (Product.id p) db).
Proof.
  intros Hok Hp. rewrite <- (deactivated_store_save db p Hok Hp).
  by apply (Product_save_store_ok _ p).
Qed.

(** X1. On a store that meets its constraints, removing a stored product
    by its id (no filter parameters) is answered 200 with the product's
    title and id; the product's row has [active] false and keeps its other
    columns; no row of any table is deleted or otherwise changed. *)
Theorem remove_product_deactivates db pk i p q :
  store_ok db ->
  Py.int pk = Some i ->
  p ∈ products db -> Product.id p = i ->
  QueryParams.merchant_id q = None -> QueryParams.active q = None ->
  QueryParams.search q = None ->
  exists db',
    dispatch_remove (remove_product pk q) db
    = (mkRemoveResponse HTTP_200_OK (deactivated (Product.title p) i), db')
    /\ merchants db' = merchants db
    /\ variants db' = variants db
    /\ length (products db') = length (products db)
    /\ with_active p false ∈ products db'
    /\ forall k row, products db !! k = Some row ->
         products db' !! k = Some (if decide (Product.id row = i)
                                   then with_active row false else row).
Proof.
  intros Hok Hpk Hp Hid Hq Ha Hs. exists (deactivated_store i db).
  split; [by apply remove_product_run |]. unfold deactivated_store. simpl.
  split_and!; try done.
  - by rewrite length_fmap.
  - apply list_elem_of_fmap. exists p. split; [by rewrite decide_True | done].
  - intros k row Hk. by rewrite list_lookup_fmap, Hk.
Qed.

Lemma remove_product_deactivates_witness :
  exists db',
    dispatch_remove (remove_product "1" plain_query) shop_with_two
    = (mkRemoveResponse HTTP_200_OK
         (deactivated (Product.title (Product.mk 1 1 "P1" "Widget" "" "" true 800)) 1), db')
    /\ merchants db' = merchants shop_with_two
    /\ variants db' = variants shop_with_two
    /\ length (products db') = length (products shop_with_two)
    /\ with_active (Product.mk 1 1 "P1" "Widget" "" "" true 800) false ∈ products db'
    /\ forall k row, products shop_with_two !! k = Some row ->
         products db' !! k = Some (if decide (Product.id row = 1)
                                   then with_active row false else row).
Proof.
  apply (remove_product_deactivates shop_with_two "1" 1
           (Product.mk 1 1 "P1" "Widget" "" "" true 800) plain_query).
  - store_ok_by_computation.
  - reflexivity.
  - vm_compute. left.
  - reflexivity.
  - reflexivity.
  - reflexivity.
  - reflexivity.
Defined.

(** X2. The soft delete is idempotent: removing the same product again is
    answered 200 with the same body and leaves the store exactly as the
    first removal left it. *)
Theorem remove_product_idempotent db pk i p q :
  store_ok db ->
  Py.int pk = Some i ->
  p ∈ products db -> Product.id p = i ->
  QueryParams.merchant_id q = None -> QueryParams.active q = None ->
  QueryParams.search q = None ->
  dispatch_remove (remove_product pk q) (snd (dispatch_remove (remove_product pk q) db))
  = (fst (dispatch_remove (remove_product pk q) db),
     snd (dispatch_remove (remove_product pk q) db)).
Proof.
  intros Hok Hpk Hp Hid Hq Ha Hs.
  rewrite (remove_product_run db pk i p q Hok Hpk Hp Hid Hq Ha Hs). cbn [fst snd].
  assert (Hp' : with_active p false ∈ products (deactivated_store i db)).
  { unfold deactivated_store. simpl. apply list_elem_of_fmap. exists p.
    split; [by rewrite decide_True | done]. }
  assert (Hok' : store_ok (deactivated_store i db))
    by (rewrite <- Hid; by apply remove_product_store_ok_step).
  rewrite (remove_product_run _ pk i (with_active p false) q Hok' Hpk Hp' Hid Hq Ha Hs).
  by rewrite deactivated_store_twice.
Qed.

Lemma remove_product_idempotent_witness :
  dispatch_remove (remove_product "1" plain_query)
    (snd (dispatch_remove (remove_product "1" plain_query) shop_with_two))
  = (fst (dispatch_remove (remove_product "1" plain_query) shop_with_two),
     snd (dispatch_remove (remove_product "1" plain_query) shop_with_two)).
Proof.
  apply (remove_product_idempotent shop_with_two "1" 1
           (Product.mk 1 1 "P1" "Widget" "" "" true 800) plain_query).
  - store_ok_by_computation.
  - reflexivity.
  - vm_compute. left.
  - reflexivity.
  - reflexivity.
  - reflexivity.
  - reflexivity.
Defined.

(** X3. Removing a product that is not there is answered 500, not 404:
    what [get_object] raises is [Http404], which the view's
    [except Product.DoesNotExist] does not take and its [except Exception]
    does.  The same holds for an id that is no number.  The store is left
    as it was. *)
Theorem remove_product_unknown_id db pk q :
  (Py.truthy_param (QueryParams.merchant_id q) = false
   \/ exists s j, QueryParams.merchant_id q = Some s /\ Py.int s = Some j) ->
  (forall i p, Py.int pk = Some i -> p ∈ products db -> Product.id p <> i) ->
  dispatch_remove (remove_product pk q) db
  = (mkRemoveResponse HTTP_500_INTERNAL_SERVER_ERROR
       (remove_failed (error_of "An error occurred: " Http404)), db).
Proof.
  intros Hq Hnone.
  destruct (get_queryset_other_run action_other q db) as (qs & Hqs & Hsub & _);
    [done | done |].
  assert (Hget : get_object action_other pk q db = (Raise Http404, db)).
  { unfold get_object. rewrite (bind_run _ _ _ _ _ Hqs).
    unfold get_object_or_404. destruct (Py.int pk) as [i |] eqn:Hpk; [| done].
    unfold try_except. rewrite filter_none; [done |].
    intros r Hr Hrid. apply (Hnone i (fst r) eq_refl); [| done].
    apply (select_related_rows _ _ _ (Hsub r Hr)). }
  unfold dispatch_remove, remove_product, try_except.
  by rewrite (bind_run_raise _ _ _ _ _ Hget).
Qed.

Lemma remove_product_unknown_id_witness :
  dispatch_remove (remove_product "5" plain_query) shop_with_two
  = (mkRemoveResponse HTTP_500_INTERNAL_SERVER_ERROR
       (remove_failed (error_of "An error occurred: " Http404)), shop_with_two).
Proof.
  apply (remove_product_unknown_id shop_with_two "5" plain_query).
  - by left.
  - intros i p [= <-]. revert p. apply Forall_forall. decide_by_computation.
Defined.

(** X4. Whatever the request, [remove_product] answers 200 or 500, never
    404; it deletes no row: the merchant and variant tables are unchanged
    and the product table keeps its primary keys in their order; and when
    the answer is not 200 the store is unchanged. *)
Theorem remove_product_never_deletes pk q db response db' :
  dispatch_remove (remove_product pk q) db = (response, db') ->
  (remove_status_code response = HTTP_200_OK
   \/ remove_status_code response = HTTP_500_INTERNAL_SERVER_ERROR)
  /\ merchants db' = merchants db
  /\ variants db' = variants db
  /\ Product.id <$> products db' = Product.id <$> products db
  /\ (remove_status_code response <> HTTP_200_OK -> db' = db).
Proof.
  intros Hrun.
  apply remove_product_inv in Hrun
    as [(p & m & i & _ & _ & _ & -> & ->) | (-> & e & -> & _)].
  - rewrite Product_save_run. simpl. split_and!; try done; [by left | ].
    apply (proj2 (proj2 (saved_rows (with_active p false) (products db)))).
  - split_and!; try done. by right.
Qed.

Lemma remove_product_never_deletes_witness :
  (remove_status_code (fst (dispatch_remove (remove_product "1" other_merchant_query)
                              shop_with_two)) = HTTP_200_OK
   \/ remove_status_code (fst (dispatch_remove (remove_product "1" other_merchant_query)
                                 shop_with_two)) = HTTP_500_INTERNAL_SERVER_ERROR)
  /\ merchants (snd (dispatch_remove (remove_product "1" other_merchant_query) shop_with_two))
     = merchants shop_with_two
  /\ variants (snd (dispatch_remove (remove_product "1" other_merchant_query) shop_with_two))
     = variants shop_with_two
  /\ Product.id <$> products (snd (dispatch_remove (remove_product "1" other_merchant_query)
                                     shop_with_two))
     = Product.id <$> products shop_with_two
  /\ (remove_status_code (fst (dispatch_remove (remove_product "1" other_merchant_query)
                                 shop_with_two)) <> HTTP_200_OK ->
      snd (dispatch_remove (remove_product "1" other_merchant_query) shop_with_two)
      = shop_with_two).
Proof.
  apply (remove_product_never_deletes "1" other_merchant_query shop_with_two).
  vm_compute. reflexivity.
Defined.

(** ** The views that only read *)

Lemma read_only_paginate {A} (rows : list A) q : read_only (ProductPagination.paginate rows q).
Proof.
  unfold ProductPagination.paginate.
  destruct (ProductPagination.validate_number _ _ _);
    [apply read_only_ret | apply read_only_raise].
Qed.

Lemma read_only_list q : read_only (list_ q).
Proof.
  unfold list_. destruct (negb _); [apply read_only_ret |].
  apply read_only_bind.
  - apply read_only_try_except.
    + apply read_only_bind; [apply read_only_Merchant_get_by_id | intros; apply read_only_ret].
    + intros []; eauto with ro.
  - intros [response |]; [apply read_only_ret |].
    unfold ListModelMixin_list.
    apply read_only_bind; [apply read_only_get_queryset | intros qs].
    apply read_only_bind; [apply read_only_paginate | intros [[[c n] p] rows]].
    apply read_only_ret.
Qed.

Lemma read_only_retrieve pk q : read_only (retrieve pk q).
Proof.
  unfold retrieve. apply read_only_bind; [apply read_only_get_object | intros instance].
  apply read_only_bind; [| intros; apply read_only_ret].
  unfold ProductDetailSerializer, Product_variants. read_only_tac.
Qed.

Lemma dispatch_read_only view db : read_only view -> snd (dispatch view db) = db.
Proof.
  intros Hview. unfold dispatch.
  destruct (view db) as [[response | e] db1] eqn:E; apply Hview in E as ->;
    [done | by destruct e].
Qed.

(** X5. The list and the detail view write nothing: whatever the request
    and whatever they answer, the store is as it was. *)
Theorem list_and_retrieve_write_nothing q pk db :
  snd (dispatch (list_ q) db) = db /\ snd (dispatch (retrieve pk q) db) = db.
Proof.
  split; apply dispatch_read_only; [apply read_only_list | apply read_only_retrieve].
Qed.

(** ** Import: what every call does and never does *)

(** X6. An import is all or nothing: when the answer is neither 200 nor
    201 the store is exactly as it was (a product row created or refreshed
    before the failure is rolled back with the rest), and in every case the
    merchant table is untouched. *)
Theorem import_product_all_or_nothing db request response db' :
  dispatch (import_product request) db = (response, db') ->
  merchants db' = merchants db
  /\ (status_code response <> HTTP_200_OK -> status_code response <> HTTP_201_CREATED ->
      db' = db).
Proof.
  intros Hrun.
  apply import_product_inv in Hrun as [(-> & _) | Hrun]; [done |].
  destruct Hrun as (raw & product_data & merchant & _ & _ & _ & _ & Hrun).
  apply import_transaction_Ok in Hrun
    as (external_id & payload & prices & min_price & product & d & new & Hrest).
  destruct Hrest as (_ & _ & _ & _ & _ & _ & _ & _ & _ & Hstatus & _ & _ & _ & _ & _
                     & Hm & _).
  split; [done |]. intros H200 H201. by destruct Hstatus.
Qed.

Lemma import_product_all_or_nothing_witness :
  merchants (snd (dispatch (import_product repeated_import) shop_with_widget))
  = merchants shop_with_widget
  /\ (status_code (fst (dispatch (import_product repeated_import) shop_with_widget))
      <> HTTP_200_OK ->
      status_code (fst (dispatch (import_product repeated_import) shop_with_widget))
      <> HTTP_201_CREATED ->
      snd (dispatch (import_product repeated_import) shop_with_widget) = shop_with_widget).
Proof.
  apply (import_product_all_or_nothing shop_with_widget repeated_import).
  vm_compute. reflexivity.
Defined.

Lemma lift_Raise {A} e0 (o : option A) db e db' :
  lift e0 o db = (Raise e, db') -> e = e0.
Proof. destruct o; unfold lift, ret, raise; intros H; by inversion H. Qed.

Lemma new_variant_Raise product pv db e db' :
  new_variant product pv db = (Raise e, db') -> e = KeyError.
Proof.
  unfold new_variant. intros H.
  repeat (apply bind_inv in H as [(? & ? & _ & H) | (? & H%lift_Raise & [= ->])];
          [| done]).
  inversion H.
Qed.

Lemma variants_to_create_Raise product existing payload : forall db e db',
  variants_to_create product existing payload db = (Raise e, db') -> e = KeyError.
Proof.
  induction payload as [|pv payload IH]; intros db e db' H; simpl in H; [inversion H |].
  apply bind_inv in H as [(id & db1 & _ & H) | (? & H%lift_Raise & [= ->])]; [| done].
  case_decide; [by apply IH in H |].
  apply bind_inv in H as [(v & db2 & _ & H) | (? & H%new_variant_Raise & [= ->])]; [| done].
  apply bind_inv in H as [(vs & db3 & _ & H) | (? & H%IH & [= ->])]; [| done].
  inversion H.
Qed.

Lemma payload_prices_Raise payload : forall db e db',
  payload_prices payload db = (Raise e, db') -> e = KeyError.
Proof.
  induction payload as [|pv payload IH]; intros db e db' H; simpl in H; [inversion H |].
  apply bind_inv in H as [(raw & db1 & _ & H) | (? & H%lift_Raise & [= ->])]; [| done].
  apply bind_inv in H as [(ps & db2 & _ & H) | (? & H%IH & [= ->])]; [| done].
  inversion H.
Qed.

Lemma Product_get_or_create_Raise merchant external_id title description product_type
    active db e db' :
  Product_get_or_create merchant external_id title description product_type active db
  = (Raise e, db') ->
  e = MultipleObjectsReturned \/ e = IntegrityError.
Proof.
  unfold Product_get_or_create, bind at 1, get_store.
  destruct (filter _ (products db)) as [|p0 [|p1 rows]].
  - unfold Product_create, atomic, bind, get_store, put_store, ret, raise.
    case_decide; intros [= <- _]. by right.
  - unfold ret. discriminate.
  - unfold raise. intros [= <- _]. by left.
Qed.

(** The exceptions the transaction can end with. *)
Lemma import_transaction_Raise merchant product_data db e db' :
  import_transaction merchant product_data db = (Raise e, db') ->
  e = KeyError \/ e = IntegrityError \/ e = ValueError \/ e = MultipleObjectsReturned.
Proof.
  unfold import_transaction. intros H.
  apply bind_inv in H as [(ext & db1 & _ & H) | (? & H%lift_Raise & [= ->])]; [| by left].
  apply bind_inv in H as [(title & db2 & _ & H) | (? & H%lift_Raise & [= ->])]; [| by left].
  apply bind_inv in H as [(got & db3 & _ & H)
                         | (? & [-> | ->]%Product_get_or_create_Raise & [= ->])];
    [| by right; right; right | by right; left].
  apply bind_inv in H as [(product & db4 & _ & H) | (? & Hupd & [= ->])].
  2:{ destruct (snd got); [inversion Hupd |].
      rewrite (bind_run _ _ _ _ _ (Product_save_run _ _)) in Hupd. inversion Hupd. }
  rewrite (bind_run _ _ _ _ _ (Product_variants_run _ _)) in H.
  apply bind_inv in H as [(payload & db5 & _ & H) | (? & H%lift_Raise & [= ->])]; [| by left].
  apply bind_inv in H as [(to_create & db6 & _ & H)
                         | (? & H%variants_to_create_Raise & [= ->])]; [| by left].
  apply bind_inv in H as [([] & db7 & _ & H) | (? & Hbulk & [= ->])].
  2:{ destruct to_create; [inversion Hbulk |].
      apply atomic_Raise in Hbulk as (_ & db8 & Hbulk).
      apply Variant_insert_all_inv in Hbulk as (_ & _ & _ & _ & [? | [= ->]] & _);
        [done | by right; left]. }
  apply bind_inv in H as [(prices & db8 & _ & H)
                         | (? & H%payload_prices_Raise & [= ->])]; [| by left].
  apply bind_inv in H as [(min_price & db9 & _ & H) | (? & H%lift_Raise & [= ->])];
    [| by right; right; left].
  rewrite (bind_run _ _ _ _ _ (Product_save_run _ _)) in H.
  unfold ProductDetailSerializer in H.
  rewrite (bind_run _ _ _ _ _ (bind_run _ _ _ _ _ (Product_variants_run _ _))) in H.
  inversion H.
Qed.

(** X7. No import is answered 404.  A store url without a merchant is
    refused by the serializer with 400 before the view looks the merchant
    up, and nothing inside the transaction raises [Merchant.DoesNotExist];
    the view's handler for it is never entered. *)
Theorem import_product_never_404 request db :
  status_code (fst (dispatch (import_product request) db)) <> HTTP_404_NOT_FOUND.
Proof.
  unfold dispatch, import_product.
  destruct (bind (ImportProductSerializer_is_valid request) _ db) as [r db1] eqn:Hview.
  apply bind_inv in Hview as [(checked & db2 & Hvalid & Hview) | (e & Hvalid & ->)].
  - destruct checked as [errs | [store_url product_data]].
    + inversion Hview; subst. discriminate.
    + apply ImportProductSerializer_is_valid_inr in Hvalid
        as (-> & _ & _ & (m & Hm) & _).
      unfold try_except in Hview. rewrite (bind_run _ _ _ _ _ Hm) in Hview.
      destruct (atomic (import_transaction m product_data) db) as [[resp | e] db3] eqn:Htx.
      * inversion Hview; subst; clear Hview. apply atomic_Ok in Htx.
        apply import_transaction_Ok in Htx
          as (? & ? & ? & ? & ? & ? & ? & _ & _ & _ & _ & _ & _ & _ & _ & _ & Hstatus & _).
        simpl. destruct Hstatus as [-> | ->]; discriminate.
      * apply atomic_Raise in Htx as (-> & db4 & Htx).
        apply import_transaction_Raise in Htx as [-> | [-> | [-> | ->]]];
          inversion Hview; subst; discriminate.
  - assert (He : e <> Http404 /\ e <> NotFound).
    { unfold ImportProductSerializer_is_valid in Hvalid.
      apply bind_inv in Hvalid as [(v & db2 & _ & Hvalid) | (e0 & Hurl & [= <-])].
      - repeat match type of Hvalid with
               | context [match ?x with _ => _ end] => destruct x
               end; inversion Hvalid.
      - destruct (required _ _); [| inversion Hurl].
        unfold validate_store_url, try_except, Merchant_get_by_store_url, bind, get_store
          in Hurl.
        destruct (filter _ (merchants db)) as [|m0 [|m1 rows]]; simpl in Hurl;
          inversion Hurl; subst; done. }
    destruct e; simpl; try discriminate; by destruct He.
Qed.

(** ** Import: the product row *)

Lemma Product_get_or_create_cases merchant external_id title description product_type
    active db p created db1 :
  Product_get_or_create merchant external_id title description product_type active db
  = (Ok (p, created), db1) ->
  (created = false /\ db1 = db /\ p ∈ products db
   /\ Product.key p = (Merchant.id merchant, external_id))
  \/ (created = true
      /\ p = Product.mk (product_seq db + 1) (Merchant.id merchant) external_id title
               description product_type active 0
      /\ (forall r, r ∈ products db -> Product.key r <> (Merchant.id merchant, external_id))
      /\ db1 = mkStore (merchants db) (products db ++ [p]) (variants db)
                 (product_seq db + 1) (variant_seq db)).
Proof.
  unfold Product_get_or_create, bind at 1, get_store.
  destruct (filter _ (products db)) as [|p0 [|p1 rows]] eqn:E.
  - unfold Product_create, atomic, bind, get_store, put_store, ret, raise.
    case_decide as Hk; intros Hrun; inversion Hrun; subst; clear Hrun.
    right. split_and!; try done.
    intros r Hr Hkey.
    assert (Hin : r ∈ filter (fun p => Product.key p = (Merchant.id merchant, external_id))
                    (products db)) by (by apply list_elem_of_filter).
    rewrite E in Hin. inversion Hin.
  - unfold ret. intros Hrun; inversion Hrun; subst; clear Hrun. left.
    assert (Hp : p ∈ filter (fun p => Product.key p = (Merchant.id merchant, external_id))
                   (products db1)) by (rewrite E; left).
    apply list_elem_of_filter in Hp as [Hk Hp]. done.
  - unfold raise. discriminate.
Qed.

(** What a transaction that returns has done to the product table. *)
Lemma import_transaction_products merchant product_data db response db' :
  store_ok db ->
  import_transaction merchant product_data db = (Ok response, db') ->
  exists external_id title product,
    ProductPayload.id product_data = Some external_id
    /\ ProductPayload.title product_data = Some title
    /\ Product.key product = (Merchant.id merchant, external_id)
    /\ Product.title product = title
    /\ Product.description product
       = default EmptyString (ProductPayload.description product_data)
    /\ Product.product_type product
       = default EmptyString (ProductPayload.product_type product_data)
    /\ data response = detail (detail_of product merchant db')
    /\ ((status_code response = HTTP_201_CREATED
         /\ (forall r, r ∈ products db ->
               Product.key r <> (Merchant.id merchant, external_id))
         /\ Product.active product = true
         /\ products db' = products db ++ [product])
        \/ (status_code response = HTTP_200_OK
            /\ exists p0, p0 ∈ products db
                 /\ Product.key p0 = (Merchant.id merchant, external_id)
                 /\ Product.id p0 = Product.id product
                 /\ Product.active product = Product.active p0
                 /\ products db'
                    = (fun row => if decide (Product.id row = Product.id p0)
                                  then product else row) <$> products db)).
Proof.
  intros Hok. unfold import_transaction. intros Hrun.
  apply bind_Ok in Hrun as (external_id & db1 & [Hid ->]%lift_Ok & Hrun).
  apply bind_Ok in Hrun as (title & db1 & [Htitle ->]%lift_Ok & Hrun).
  apply bind_Ok in Hrun as ([p0 created] & db1 & Hgot & Hrun).
  apply Product_get_or_create_cases in Hgot.
  apply bind_Ok in Hrun as (product & db2 & Hupd & Hrun).
  apply bind_Ok in Hrun as (stored & db3 & Hstored & Hrun).
  rewrite Product_variants_run in Hstored. inversion Hstored; subst db3 stored; clear Hstored.
  apply bind_Ok in Hrun as (payload & db3 & [Hpayload ->]%lift_Ok & Hrun).
  apply bind_Ok in Hrun as (to_create & db3 & Hloop & Hrun).
  pose proof (read_only_variants_to_create _ _ _ _ _ _ Hloop) as ->.
  apply bind_Ok in Hrun as ([] & db3 & Hbulk & Hrun).
  assert (Hp3 : products db3 = products db2).
  { destruct to_create as [|v0 to_create0]; [by inversion Hbulk; subst |].
    by apply atomic_Ok, Variant_insert_all_inv in Hbulk as (_ & -> & _). }
  apply bind_Ok in Hrun as (prices & db4 & Hprices & Hrun).
  pose proof (read_only_payload_prices _ _ _ _ Hprices) as ->.
  apply bind_Ok in Hrun as (min_price & db4 & [Hmin ->]%lift_Ok & Hrun).
  apply bind_Ok in Hrun as ([] & db4 & Hsave & Hrun).
  rewrite Product_save_run in Hsave. inversion Hsave; subst db4; clear Hsave.
  apply bind_Ok in Hrun as (d & db5 & Hd & Hrun).
  unfold ProductDetailSerializer in Hd.
  rewrite (bind_run _ _ _ _ _ (Product_variants_run _ _)) in Hd.
  inversion Hd; subst db5 d; clear Hd.
  inversion Hrun; subst db' response; clear Hrun.
  exists external_id, title, (with_base_price product min_price).
  cbn [fst snd] in Hupd.
  destruct Hgot as [(-> & -> & Hp0 & Hkey0) | (-> & -> & Hnew & ->)].
  - apply bind_Ok in Hupd as ([] & db6 & Hsave & Hupd).
    rewrite Product_save_run in Hsave. inversion Hsave; subst db6; clear Hsave.
    inversion Hupd; subst product db2; clear Hupd.
    split_and!; try done. right. split; [done |].
    exists p0. split_and!; try done.
    cbn [products]. rewrite Hp3. cbn [products]. rewrite <- list_fmap_compose.
    apply list_fmap_ext. intros _ row _. simpl.
    destruct (decide (Product.id row = Product.id p0)) as [Hd | Hd]; simpl.
    + by rewrite decide_True.
    + by rewrite decide_False.
  - inversion Hupd; subst product db2; clear Hupd.
    split_and!; try done. left. split_and!; try done.
    cbn [products]. rewrite Hp3. cbn [products]. rewrite fmap_app. f_equal.
    + rewrite <- (list_fmap_id (products db)) at 2.
      apply list_fmap_ext. intros _ row Hrow%list_elem_of_lookup_2. simpl.
      rewrite decide_False; [done |].
      apply (product_seq_bound _ Hok) in Hrow. lia.
    + simpl. by rewrite decide_True.
Qed.

Lemma import_product_success db request response db' :
  dispatch (import_product request) db = (response, db') ->
  status_code response = HTTP_200_OK \/ status_code response = HTTP_201_CREATED ->
  exists raw product_data merchant,
    ImportData.store_url request = Some raw
    /\ ImportData.product request = Some product_data
    /\ merchant ∈ merchants db
    /\ Merchant.store_url merchant = Py.strip raw
    /\ import_transaction merchant product_data db = (Ok response, db').
Proof.
  intros Hrun Hstatus.
  apply import_product_inv in Hrun as [(_ & H200 & H201) | Hrun]; [| done].
  destruct Hstatus; congruence.
Qed.




(** Product 1, removed and then imported again: its title is refreshed,
    and it stays inactive. *)
Example import_product_keeps_inactive :
  products (snd (dispatch (import_product widget_again) shop_removed))
  = [Product.mk 1 1 "P1" "Widget II" "" "" false 5000;
     Product.mk 2 1 "P2" "Gadget" "A gadget" "Electronics" true 29999].
Proof. vm_compute. reflexivity. Qed.




(** ** Import: the variant rows *)

Lemma new_variant_fields product pv db v db' :
  new_variant product pv db = (Ok v, db') ->
  VariantPayload.id pv = Some (Variant.external_id v)
  /\ VariantPayload.title pv = Some (Variant.name v)
  /\ Variant.sku v = default EmptyString (VariantPayload.sku pv)
  /\ VariantPayload.inventory_quantity pv = Some (Variant.quantity v)
  /\ Variant.active v = true
  /\ Variant.product_id v = Product.id product.
Proof.
  unfold new_variant. intros Hrun.
  apply bind_Ok in Hrun as (id & db1 & [Hid ->]%lift_Ok & Hrun).
  apply bind_Ok in Hrun as (raw & db1 & [Hraw ->]%lift_Ok & Hrun).
  apply bind_Ok in Hrun as (title & db1 & [Htitle ->]%lift_Ok & Hrun).
  apply bind_Ok in Hrun as (quantity & db1 & [Hq ->]%lift_Ok & Hrun).
  inversion Hrun; subst; clear Hrun. simpl. by split_and!.
Qed.

(** The loop leaves no payload variant out: its id is stored already, or
    an instance is built for it. *)
Lemma variants_to_create_covers product existing payload : forall db vs db',
  variants_to_create product existing payload db = (Ok vs, db') ->
  forall pv, pv ∈ payload ->
    exists e, VariantPayload.id pv = Some e
      /\ (e ∈ existing
          \/ exists v, v ∈ vs /\ Variant.external_id v = e
               /\ Variant.product_id v = Product.id product).
Proof.
  induction payload as [|pv0 payload IH]; intros db vs db' Hrun pv Hpv; [inversion Hpv |].
  simpl in Hrun.
  apply bind_Ok in Hrun as (id & db1 & [Hid ->]%lift_Ok & Hrun).
  case_decide as Hin.
  - apply elem_of_cons in Hpv as [-> | Hpv]; [exists id; by split; [| left] |].
    by apply (IH _ _ _ Hrun).
  - apply bind_Ok in Hrun as (v0 & db1 & Hnew & Hrun).
    pose proof (read_only_new_variant _ _ _ _ _ Hnew) as ->.
    apply bind_Ok in Hrun as (vs0 & db1 & Hrest & Hrun).
    inversion Hrun; subst; clear Hrun.
    apply elem_of_cons in Hpv as [-> | Hpv].
    + exists id. split; [done |]. right. exists v0.
      apply new_variant_fields in Hnew as (Hid' & _ & _ & _ & _ & Hpid).
      split_and!; [left | congruence | done].
    + destruct (IH _ _ _ Hrest pv Hpv) as (e & He & [Hex | (v & Hv & Hve & Hvp)]).
      * exists e. split; [done | by left].
      * exists e. split; [done |]. right. exists v. split_and!; [by right | done | done].
Qed.

(** A batch that goes through has stored every instance, under some
    primary key, behind the rows that were there. *)
Lemma Variant_insert_all_stored objs : forall db db',
  Variant_insert_all objs db = (Ok tt, db') ->
  (forall v, v ∈ variants db -> v ∈ variants db')
  /\ forall v, v ∈ objs -> exists i, Variant.with_id i v ∈ variants db'.
Proof.
  induction objs as [|v0 objs IH]; intros db db' Hrun; simpl in Hrun.
  - inversion Hrun; subst. split; [done | intros v Hv; inversion Hv].
  - unfold bind at 1, Variant_insert, bind at 1, get_store in Hrun.
    case_decide as Hk; [discriminate |]. unfold put_store in Hrun.
    apply IH in Hrun as [Hkeep Hnew]. simpl in Hkeep. split.
    + intros v Hv. apply Hkeep, elem_of_app. by left.
    + intros v [-> | Hv]%elem_of_cons; [| by apply Hnew].
      exists (variant_seq db + 1). apply Hkeep, elem_of_app. right. left.
Qed.

(** What a transaction that returns has done to the variant table. *)
Lemma import_transaction_variants merchant product_data db response db' :
  import_transaction merchant product_data db = (Ok response, db') ->
  exists product payload to_create dbv db3 d,
    ProductPayload.variants product_data = Some payload
    /\ data response = detail d
    /\ ProductDetail.id d = Product.id product
    /\ variants dbv = variants db
    /\ variants_to_create product
         (list_to_set (Variant.external_id
                         <$> filter (fun v => Variant.product_id v = Product.id product)
                               (variants db)))
         payload dbv = (Ok to_create, dbv)
    /\ Variant_insert_all to_create dbv = (Ok tt, db3)
    /\ variants db' = variants db3.
Proof.
  unfold import_transaction. intros Hrun.
  apply bind_Ok in Hrun as (external_id & db1 & [Hid ->]%lift_Ok & Hrun).
  apply bind_Ok in Hrun as (title & db1 & [Htitle ->]%lift_Ok & Hrun).
  apply bind_Ok in Hrun as ([p0 created] & db1 & Hgot & Hrun).
  apply Product_get_or_create_Ok in Hgot as (_ & _ & _ & Hv1 & _).
  apply bind_Ok in Hrun as (product & db2 & Hupd & Hrun).
  assert (Hv2 : variants db2 = variants db).
  { simpl in Hupd. destruct created; [by inversion Hupd; subst |].
    apply bind_Ok in Hupd as ([] & db3 & Hsave & Hupd). inversion Hupd; subst.
    rewrite Product_save_run in Hsave. by inversion Hsave; subst. }
  apply bind_Ok in Hrun as (stored & db3 & Hstored & Hrun).
  rewrite Product_variants_run in Hstored. inversion Hstored; subst db3 stored; clear Hstored.
  apply bind_Ok in Hrun as (payload & db3 & [Hpayload ->]%lift_Ok & Hrun).
  apply bind_Ok in Hrun as (to_create & db3 & Hloop & Hrun).
  pose proof (read_only_variants_to_create _ _ _ _ _ _ Hloop) as ->.
  apply bind_Ok in Hrun as ([] & db3 & Hbulk & Hrun).
  assert (Hins : Variant_insert_all to_create db2 = (Ok tt, db3)).
  { destruct to_create as [|v0 to_create0]; [by inversion Hbulk; subst |].
    by apply atomic_Ok in Hbulk. }
  apply bind_Ok in Hrun as (prices & db4 & Hprices & Hrun).
  pose proof (read_only_payload_prices _ _ _ _ Hprices) as ->.
  apply bind_Ok in Hrun as (min_price & db4 & [Hmin ->]%lift_Ok & Hrun).
  apply bind_Ok in Hrun as ([] & db4 & Hsave & Hrun).
  rewrite Product_save_run in Hsave. inversion Hsave; subst db4; clear Hsave.
  apply bind_Ok in Hrun as (d & db5 & Hd & Hrun).
  unfold ProductDetailSerializer in Hd.
  rewrite (bind_run _ _ _ _ _ (Product_variants_run _ _)) in Hd.
  inversion Hd; subst db5 d; clear Hd.
  inversion Hrun; subst db' response; clear Hrun.
  exists product, payload, to_create, db2, db3. eexists.
  split_and!; try done. by rewrite <- Hv2.
Qed.

(** X11. After a successful import every variant of the payload is stored
    for the product, whether this call inserted it or an earlier one had:
    for each payload variant there is a variant row of the product with its
    external id. *)
Theorem import_product_stores_every_payload_variant db request response db' :
  dispatch (import_product request) db = (response, db') ->
  status_code response = HTTP_200_OK \/ status_code response = HTTP_201_CREATED ->
  exists product_data payload d,
    ImportData.product request = Some product_data
    /\ ProductPayload.variants product_data = Some payload
    /\ data response = detail d
    /\ forall pv, pv ∈ payload ->
         exists v, v ∈ variants db'
           /\ Variant.product_id v = ProductDetail.id d
           /\ VariantPayload.id pv = Some (Variant.external_id v).
Proof.
  intros Hrun Hstatus.
  destruct (import_product_success _ _ _ _ Hrun Hstatus)
    as (raw & product_data & merchant & _ & Hprod & _ & _ & Htx).
  apply import_transaction_variants in Htx
    as (product & payload & to_create & dbv & db3 & d & Hpayload & Hdata & Hdid & Hv
        & Hloop & Hins & Hv').
  exists product_data, payload, d. split_and!; try done.
  intros pv Hpv. rewrite Hv', Hdid.
  apply Variant_insert_all_stored in Hins as [Hkeep Hnew].
  destruct (variants_to_create_covers _ _ _ _ _ _ Hloop pv Hpv)
    as (e & He & [Hex | (v & Hvin & Hve & Hvp)]).
  - apply elem_of_list_to_set, list_elem_of_fmap in Hex as (v & -> & [Hpid Hvin]%list_elem_of_filter).
    exists v. split_and!; try done. apply Hkeep. by rewrite Hv.
  - destruct (Hnew v Hvin) as (i & Hi).
    exists (Variant.with_id i v). split_and!; try done. simpl. by rewrite Hve.
Qed.

Lemma import_product_stores_every_payload_variant_witness :
  exists product_data payload d,
    ImportData.product widget_import = Some product_data
    /\ ProductPayload.variants product_data = Some payload
    /\ data (fst (dispatch (import_product widget_import) shop)) = detail d
    /\ forall pv, pv ∈ payload ->
         exists v, v ∈ variants shop_with_widget
           /\ Variant.product_id v = ProductDetail.id d
           /\ VariantPayload.id pv = Some (Variant.external_id v).
Proof.
  apply (import_product_stores_every_payload_variant shop widget_import
           (fst (dispatch (import_product widget_import) shop)) shop_with_widget).
  - vm_compute. reflexivity.
  - right. vm_compute. reflexivity.
Defined.

(** X12. A variant the import has just inserted belongs to the product of
    the response and is active; its name, sku (the empty string when the
    payload has none) and quantity are the title, sku and
    inventory_quantity of the payload variant with its external id. *)
Theorem import_product_new_variant_fields db request response db' v :
  dispatch (import_product request) db = (response, db') ->
  v ∈ variants db' ->
  v ∉ variants db ->
  exists product_data payload pv d,
    ImportData.product request = Some product_data
    /\ ProductPayload.variants product_data = Some payload
    /\ pv ∈ payload
    /\ data response = detail d
    /\ Variant.product_id v = ProductDetail.id d
    /\ VariantPayload.id pv = Some (Variant.external_id v)
    /\ VariantPayload.title pv = Some (Variant.name v)
    /\ Variant.sku v = default EmptyString (VariantPayload.sku pv)
    /\ VariantPayload.inventory_quantity pv = Some (Variant.quantity v)
    /\ Variant.active v = true.
Proof.
  intros Hrun Hv' Hv.
  apply import_product_inv in Hrun as [(-> & _) | Hrun]; [done |].
  destruct Hrun as (raw & product_data & merchant & _ & Hprod & _ & _ & Htx).
  apply import_transaction_variants in Htx
    as (product & payload & to_create & dbv & db3 & d & Hpayload & Hdata & Hdid & Hvv
        & Hloop & Hins & Hv3).
  apply Variant_insert_all_inv in Hins as (_ & _ & _ & (new & Hnew & _ & Hfrom) & _).
  rewrite Hv3, Hnew, Hvv in Hv'. apply elem_of_app in Hv' as [Hv' | Hv']; [done |].
  destruct (Hfrom v Hv') as (v0 & i & Hv0 & ->).
  destruct (variants_to_create_Ok _ _ _ _ _ _ Hloop v0 Hv0) as (pv & Hpv & _ & Hnv).
  apply new_variant_fields in Hnv as (H1 & H2 & H3 & H4 & H5 & H6).
  exists product_data, payload, pv, d. simpl. split_and!; try done. congruence.
Qed.

Lemma import_product_new_variant_fields_witness :
  exists product_data payload pv d,
    ImportData.product widget_import = Some product_data
    /\ ProductPayload.variants product_data = Some payload
    /\ pv ∈ payload
    /\ data (fst (dispatch (import_product widget_import) shop)) = detail d
    /\ Variant.product_id stored_v2 = ProductDetail.id d
    /\ VariantPayload.id pv = Some (Variant.external_id stored_v2)
    /\ VariantPayload.title pv = Some (Variant.name stored_v2)
    /\ Variant.sku stored_v2 = default EmptyString (VariantPayload.sku pv)
    /\ VariantPayload.inventory_quantity pv = Some (Variant.quantity stored_v2)
    /\ Variant.active stored_v2 = true.
Proof.
  apply (import_product_new_variant_fields shop widget_import
           (fst (dispatch (import_product widget_import) shop)) shop_with_widget stored_v2).
  - vm_compute. reflexivity.
  - vm_compute. right. left.
  - vm_compute. inversion 1.
Defined.

(** ** Import and detail *)

Lemma retrieve_run db pk p m q :
  store_ok db ->
  Py.int pk = Some (Product.id p) ->
  p ∈ products db ->
  m ∈ merchants db -> Merchant.id m = Product.merchant_id p ->
  QueryParams.merchant_id q = None -> QueryParams.active q = None ->
  QueryParams.search q = None ->
  dispatch (retrieve pk q) db = (mkResponse HTTP_200_OK (detail (detail_of p m db)), db).
Proof.
  intros Hok Hpk Hp Hm Hmid Hq Ha Hs.
  destruct (get_queryset_retrieve_run q db) as (queryset & Hqs & _ & _ & Hplain);
    [left; by rewrite Hq |].
  rewrite (Hplain Hq Ha Hs) in Hqs.
  assert (Hrow : filter (fun r => Product.id (fst r) = Product.id p)
                   (Product_select_related db) = [(p, m)]).
  { apply select_related_by_id; [apply (product_pk _ Hok) | done |].
    rewrite <- Hmid. apply unique_row; [apply (merchant_pk _ Hok) | done]. }
  assert (Hget : get_object_or_404 (Product_select_related db) pk db = (Ok (p, m), db)).
  { unfold get_object_or_404. rewrite Hpk. unfold try_except. by rewrite Hrow. }
  unfold dispatch, retrieve, get_object.
  rewrite (bind_run _ _ _ _ _ (eq_trans (bind_run _ _ _ _ _ Hqs) Hget)).
  reflexivity.
Qed.

Lemma import_transaction_product_row merchant product_data db response db' :
  store_ok db ->
  merchant ∈ merchants db ->
  import_transaction merchant product_data db = (Ok response, db') ->
  exists product,
    product ∈ products db'
    /\ Product.merchant_id product = Merchant.id merchant
    /\ data response = detail (detail_of product merchant db')
    /\ store_ok db'
    /\ merchants db' = merchants db.
Proof.
  intros Hok Hm Htx.
  pose proof (import_transaction_store_ok _ _ _ _ _ Hok Hm Htx) as Hok'.
  pose proof (import_transaction_Ok _ _ _ _ _ Htx)
    as (? & ? & ? & ? & ? & ? & ? & _ & _ & _ & _ & _ & _ & _ & _ & _ & _ & _ & _ & _ & _
        & _ & Hmerchants & _).
  apply (import_transaction_products _ _ _ _ _ Hok) in Htx
    as (external_id & title & product & _ & _ & Hkey & _ & _ & _ & Hdata & Hcases).
  exists product. split_and!; try done.
  - destruct Hcases as [(_ & _ & _ & ->) | (_ & p0 & Hp0 & _ & Hid0 & _ & ->)].
    + apply elem_of_app. right. left.
    + apply list_elem_of_fmap. exists p0. split; [by rewrite decide_True | done].
  - unfold Product.key in Hkey. congruence.
Qed.

(** X13. What a successful import answers is what the detail view then
    shows: on the store the import leaves, a detail fetch of the product's
    id (no filter parameters) is answered 200 with the very body of the
    import's response, every stored variant of the product included. *)
Theorem import_product_response_is_detail db request response db' :
  store_ok db ->
  dispatch (import_product request) db = (response, db') ->
  status_code response = HTTP_200_OK \/ status_code response = HTTP_201_CREATED ->
  exists d,
    data response = detail d
    /\ ProductDetail.variants d
       = VariantSerializer
           <$> filter (fun v => Variant.product_id v = ProductDetail.id d) (variants db')
    /\ forall pk q,
         Py.int pk = Some (ProductDetail.id d) ->
         QueryParams.merchant_id q = None -> QueryParams.active q = None ->
         QueryParams.search q = None ->
         dispatch (retrieve pk q) db' = (mkResponse HTTP_200_OK (detail d), db').
Proof.
  intros Hok Hrun Hstatus.
  destruct (import_product_success _ _ _ _ Hrun Hstatus)
    as (raw & product_data & merchant & _ & _ & Hm & _ & Htx).
  destruct (import_transaction_product_row _ _ _ _ _ Hok Hm Htx)
    as (product & Hp & Hmid & Hdata & Hok' & Hmerchants).
  exists (detail_of product merchant db'). split_and!; try done.
  intros pk q Hpk Hq Ha Hs.
  apply retrieve_run; try done. by rewrite Hmerchants.
Qed.

Lemma import_product_response_is_detail_witness :
  exists d,
    data (fst (dispatch (import_product widget_again) shop_with_widget)) = detail d
    /\ ProductDetail.variants d
       = VariantSerializer
           <$> filter (fun v => Variant.product_id v = ProductDetail.id d)
                 (variants shop_after_again)
    /\ forall pk q,
         Py.int pk = Some (ProductDetail.id d) ->
         QueryParams.merchant_id q = None -> QueryParams.active q = None ->
         QueryParams.search q = None ->
         dispatch (retrieve pk q) shop_after_again
         = (mkResponse HTTP_200_OK (detail d), shop_after_again).
Proof.
  apply (import_product_response_is_detail shop_with_widget widget_again
           (fst (dispatch (import_product widget_again) shop_with_widget))
           shop_after_again).
  - store_ok_by_computation.
  - vm_compute. reflexivity.
  - left. vm_compute. reflexivity.
Defined.

(** ** Import: sending the same payload again *)











(** ** Import: what validation refuses *)

Lemma validate_store_url_returns db value :
  NoDup (Merchant.store_url <$> merchants db) ->
  exists v, validate_store_url value db = (Ok v, db).
Proof.
  intros Hnodup.
  unfold validate_store_url, try_except, Merchant_get_by_store_url, bind, get_store.
  destruct (filter_unique_key Merchant.store_url value _ Hnodup) as [-> | (m & ->)];
    simpl; by eexists.
Qed.

Lemma import_product_invalid_product db request :
  NoDup (Merchant.store_url <$> merchants db) ->
  (forall value, ImportData.product request = Some value ->
     exists msg, validate_product value = Invalid msg) ->
  exists errs,
    dispatch (import_product request) db
    = (mkResponse HTTP_400_BAD_REQUEST (errors errs), db)
    /\ exists msg, ("product"%string, msg) ∈ errs.
Proof.
  intros Hnodup Hbad.
  assert (Hurl : exists v,
             (match required (CharField false) (ImportData.store_url request) with
              | Valid value => validate_store_url value
              | Invalid msg => ret (Invalid msg)
              end) db = (Ok v, db)).
  { destruct (required _ _) as [value | msg]; [by apply validate_store_url_returns |].
    by eexists. }
  destruct Hurl as (v & Hurl).
  assert (Hprod : exists msg,
             match ImportData.product request with
             | Some value => validate_product value
             | None => Invalid "This field is required."
             end = Invalid msg).
  { destruct (ImportData.product request) as [value |]; [by apply Hbad | by eexists]. }
  destruct Hprod as (msg & Hprod).
  assert (Hvalid : exists errs,
             ImportProductSerializer_is_valid request db = (Ok (inl errs), db)
             /\ exists msg, ("product"%string, msg) ∈ errs).
  { unfold ImportProductSerializer_is_valid.
    rewrite (bind_run _ _ _ _ _ Hurl), Hprod.
    destruct v as [s | msg0]; (eexists; split; [reflexivity |]); exists msg; simpl.
    - left.
    - right. left. }
  destruct Hvalid as (errs & Hvalid & Hmsg). exists errs. split; [| done].
  unfold dispatch, import_product. by rewrite (bind_run _ _ _ _ _ Hvalid).
Qed.

(** X15. On a store that meets its constraints, an import whose payload
    holds a variant without id, title, price or inventory_quantity, or
    with a negative inventory_quantity, is answered 400 with an error on
    [product], and nothing is written. *)
Theorem import_product_rejects_bad_variant db request product_data payload pv :
  store_ok db ->
  ImportData.product request = Some product_data ->
  ProductPayload.variants product_data = Some payload ->
  pv ∈ payload ->
  (VariantPayload.id pv = None \/ VariantPayload.title pv = None
   \/ VariantPayload.price pv = None \/ VariantPayload.inventory_quantity pv = None
   \/ exists n, VariantPayload.inventory_quantity pv = Some n /\ n < 0) ->
  exists errs,
    dispatch (import_product request) db
    = (mkResponse HTTP_400_BAD_REQUEST (errors errs), db)
    /\ exists msg, ("product"%string, msg) ∈ errs.
Proof.
  intros Hok Hprod Hpayload Hpv Hbad.
  apply import_product_invalid_product; [apply (merchant_store_url_unique _ Hok) |].
  intros value Hvalue. assert (value = product_data) as -> by congruence.
  assert (Hpvbad : ImportVariantSerializer_is_valid pv = false).
  { unfold ImportVariantSerializer_is_valid.
    destruct Hbad as [H | [H | [H | [H | (n & H & Hn)]]]]; rewrite H; simpl;
      rewrite ?andb_false_r; try done.
    unfold IntegerField_min0. destruct (n <? 0) eqn:E; [| lia].
    simpl. by rewrite ?andb_false_r. }
  assert (Hmany : ImportVariantSerializer_many_is_valid payload = false).
  { unfold ImportVariantSerializer_many_is_valid. apply not_true_is_false.
    intros Hall. rewrite forallb_forall in Hall.
    apply list_elem_of_In in Hpv. rewrite (Hall pv Hpv) in Hpvbad. discriminate. }
  unfold validate_product. rewrite Hpayload, Hmany.
  destruct (ProductPayload.id product_data); [| by eexists].
  destruct (ProductPayload.title product_data); by eexists.
Qed.

Lemma import_product_rejects_bad_variant_witness :
  exists errs,
    dispatch (import_product negative_stock_import) shop
    = (mkResponse HTTP_400_BAD_REQUEST (errors errs), shop)
    /\ exists msg, ("product"%string, msg) ∈ errs.
Proof.
  apply (import_product_rejects_bad_variant shop negative_stock_import
           (ProductPayload.mk (Some "P1"%string) (Some "Widget"%string) None None
              (Some [widget_v1;
                     VariantPayload.mk (Some "V2"%string) (Some "Large"%string) None
                       (Some (JString 800)) Absent (Some (-3))]))
           [widget_v1;
            VariantPayload.mk (Some "V2"%string) (Some "Large"%string) None
              (Some (JString 800)) Absent (Some (-3))]
           (VariantPayload.mk (Some "V2"%string) (Some "Large"%string) None
              (Some (JString 800)) Absent (Some (-3)))).
  - store_ok_by_computation.
  - reflexivity.
  - reflexivity.
  - right. left.
  - right. right. right. right. exists (-3). split; [reflexivity | lia].
Defined.

(** X16. The errors of an import name each field that failed: when the
    store url is that of no merchant and the product lacks its id, its
    title or its list of variants, the answer is 400 with one error on
    [store_url] followed by one on [product], and nothing is written. *)
Theorem import_product_reports_each_field db request raw product_data :
  ImportData.store_url request = Some raw ->
  (forall m, m ∈ merchants db -> Merchant.store_url m <> Py.strip raw) ->
  ImportData.product request = Some product_data ->
  (ProductPayload.id product_data = None \/ ProductPayload.title product_data = None
   \/ ProductPayload.variants product_data = None) ->
  exists msg1 msg2,
    dispatch (import_product request) db
    = (mkResponse HTTP_400_BAD_REQUEST
         (errors [("store_url"%string, msg1); ("product"%string, msg2)]), db).
Proof.
  intros Hraw Hnone Hprod Hbad.
  assert (Hurl : exists message,
             (match required (CharField false) (ImportData.store_url request) with
              | Valid value => validate_store_url value
              | Invalid msg => ret (Invalid msg)
              end) db = (Ok (Invalid message), db)).
  { rewrite Hraw. simpl. unfold CharField.
    destruct (negb false && _); [by eexists |].
    destruct (has_null_char raw); [by eexists |].
    unfold validate_store_url, try_except, Merchant_get_by_store_url, bind, get_store.
    rewrite (filter_none _ _ Hnone). simpl. by eexists. }
  destruct Hurl as (msg1 & Hurl).
  assert (Hinvalid : exists msg2, validate_product product_data = Invalid msg2).
  { unfold validate_product.
    destruct Hbad as [H | [H | H]]; rewrite H;
      repeat match goal with
             | |- context [match ?x with _ => _ end] => destruct x
             end; by eexists. }
  destruct Hinvalid as (msg2 & Hinvalid).
  exists msg1, msg2.
  assert (Hvalid : ImportProductSerializer_is_valid request db
                   = (Ok (inl [("store_url"%string, msg1); ("product"%string, msg2)]), db)).
  { unfold ImportProductSerializer_is_valid.
    by rewrite (bind_run _ _ _ _ _ Hurl), Hprod, Hinvalid. }
  unfold dispatch, import_product. by rewrite (bind_run _ _ _ _ _ Hvalid).
Qed.

Lemma import_product_reports_each_field_witness :
  exists msg1 msg2,
    dispatch (import_product unknown_store_no_id_import) shop
    = (mkResponse HTTP_400_BAD_REQUEST
         (errors [("store_url"%string, msg1); ("product"%string, msg2)]), shop).
Proof.
  apply (import_product_reports_each_field shop unknown_store_no_id_import
           "nonexistent-store.myshopify.com"
           (ProductPayload.mk None (Some "Test Product"%string) None None (Some []))).
  - reflexivity.
  - apply Forall_forall. decide_by_computation.
  - reflexivity.
  - by left.
Defined.

(** ** Listing: what a page holds *)

Lemma filter_all {A} (P : A -> Prop) `{!forall x, Decision (P x)} (l : list A) :
  (forall x, P x) -> filter P l = l.
Proof.
  intros HP. induction l as [|a l IH]; [done |].
  rewrite filter_cons_True by done. by rewrite IH.
Qed.

Lemma fmap_fst_filter {A B} (P : A * B -> Prop) (Q : A -> Prop)
    `{!forall r, Decision (P r)} `{!forall x, Decision (Q x)} (l : list (A * B)) l' :
  fst <$> l = l' ->
  (forall r, P r <-> Q (fst r)) ->
  fst <$> filter P l = filter Q l'.
Proof.
  intros <- HPQ. induction l as [|r l IH]; [done |].
  rewrite fmap_cons. destruct (decide (P r)) as [Hr | Hr].
  - rewrite !filter_cons_True; [| by apply HPQ | done]. rewrite fmap_cons. by rewrite IH.
  - rewrite !filter_cons_False; [done | | done]. intros HQ. by apply Hr, HPQ.
Qed.

(** Under the primary key of the merchants and the foreign key of the
    products, the join has one row per product. *)
Lemma select_related_products db :
  store_ok db -> fst <$> Product_select_related db = products db.
Proof.
  intros Hok. unfold Product_select_related.
  assert (Hfk : forall p, p ∈ products db ->
                  exists m, filter (fun m => Merchant.id m = Product.merchant_id p)
                              (merchants db) = [m]).
  { intros p Hp.
    destruct (proj1 (list_elem_of_fmap _ _ _) (product_merchant_fk _ Hok p Hp))
      as (m & Hmid & Hm).
    exists m. rewrite Hmid. apply unique_row; [apply (merchant_pk _ Hok) | done]. }
  induction (products db) as [|p ps IH]; [done |].
  cbn [flat_map]. rewrite fmap_app.
  destruct (Hfk p) as (m & ->); [left |].
  rewrite IH; [done |]. intros p' Hp'. apply Hfk. by right.
Qed.

(** The rows of a list request for merchant [i] are, product for product,
    the merchant's products that pass the request's filters. *)
Lemma listed_products db q s i :
  store_ok db ->
  QueryParams.merchant_id q = Some s ->
  Py.int s = Some i ->
  fst <$> listed q db = selected q i db.
Proof.
  intros Hok Hq Hs.
  unfold listed, get_queryset, bind at 1, get_store. rewrite Hq. cbn [Py.truthy_param].
  rewrite (int_truthy _ _ Hs). cbn [negb andb].
  unfold get_prep_value. rewrite Hs. cbn [lift bind ret].
  unfold selected, active_filter, search_filter.
  destruct (QueryParams.search q) as [t |]; [destruct (Py.truthy_str t) |];
    (destruct (QueryParams.active q) as [a |];
     [destruct (String.eqb (Py.lower a) "true");
      [| destruct (String.eqb (Py.lower a) "false")] |]);
    repeat first
      [ rewrite (filter_all (fun _ : Product.t => true = true)) by done
      | apply fmap_fst_filter;
        [| intros r; simpl; try done; destruct (Product.active (fst r)); by split ] ];
    by apply select_related_products.
Qed.

Lemma validate_number_bounds number count size n :
  ProductPagination.validate_number number count size = Some n ->
  1 <= n <= ProductPagination.num_pages count size.
Proof.
  unfold ProductPagination.validate_number.
  destruct (match number with
            | ProductPagination.PageInt n0 => Some n0
            | ProductPagination.PageStr s => Py.int s
            end) as [k |]; [| done].
  destruct (k <? 1) eqn:E1; [done |].
  destruct (ProductPagination.num_pages count size <? k) eqn:E2; [done |].
  intros [= <-]. lia.
Qed.

(** A list request for a numeric merchant id that is answered 200: the
    answer is a page of the listing, and nothing was written. *)
Lemma list_ok_inv db q s i response db' :
  store_ok db ->
  QueryParams.merchant_id q = Some s ->
  Py.int s = Some i ->
  dispatch (list_ q) db = (response, db') ->
  status_code response = HTTP_200_OK ->
  db' = db
  /\ exists number,
       1 <= number
         <= ProductPagination.num_pages (Z.of_nat (length (listed q db)))
              (ProductPagination.get_page_size q)
       /\ response
          = mkResponse HTTP_200_OK
              (page_body (listed q db) number (ProductPagination.get_page_size q)).
Proof.
  intros Hok Hq Hs Hrun Hstatus.
  destruct (filter_unique_key Merchant.id i (merchants db) (merchant_pk _ Hok))
    as [Hnone | (m & Hm)].
  - assert (Hmissing : forall m, m ∈ merchants db -> Merchant.id m <> i).
    { intros m Hm Hid.
      assert (Hin : m ∈ filter (fun m => Merchant.id m = i) (merchants db))
        by (by apply list_elem_of_filter).
      rewrite Hnone in Hin. inversion Hin. }
    unfold dispatch, list_ in Hrun. rewrite Hq in Hrun.
    cbn [Py.truthy_param] in Hrun. rewrite (int_truthy _ _ Hs) in Hrun.
    cbn [negb default] in Hrun. unfold try_except at 1, bind at 1 in Hrun.
    rewrite (bind_run_raise _ _ _ _ _ (Merchant_get_by_id_missing _ _ _ Hs Hmissing)) in Hrun.
    inversion Hrun; subst. discriminate.
  - destruct (list_run db q s i m Hq Hs Hm) as [Hpage Hinvalid].
    destruct (ProductPagination.validate_number
                (ProductPagination.get_page_number q (Z.of_nat (length (listed q db)))
                   (ProductPagination.get_page_size q))
                (Z.of_nat (length (listed q db))) (ProductPagination.get_page_size q))
      as [number |] eqn:Hnumber.
    + pose proof (validate_number_bounds _ _ _ _ Hnumber) as Hbounds.
      rewrite (Hpage number eq_refl) in Hrun by lia.
      inversion Hrun; subst. split; [done |]. by exists number.
    + rewrite (Hinvalid eq_refl) in Hrun. inversion Hrun; subst. discriminate.
Qed.

Lemma active_filter_true q a p :
  QueryParams.active q = Some a ->
  active_filter q p = true ->
  (Py.lower a = "true"%string -> Product.active p = true)
  /\ (Py.lower a = "false"%string -> Product.active p = false).
Proof.
  intros Ha. unfold active_filter. rewrite Ha. intros Hf.
  split; intros Hl; rewrite Hl in Hf; simpl in Hf.
  - done.
  - by destruct (Product.active p).
Qed.

Lemma search_filter_true q t p :
  QueryParams.search q = Some t ->
  Py.truthy_str t = true ->
  search_filter q p = true ->
  Py.contains (Py.lower t) (Py.lower (Product.title p)) = true.
Proof. intros Ht Htruthy. unfold search_filter. by rewrite Ht, Htruthy. Qed.

Lemma selected_elem q i db p :
  p ∈ selected q i db <->
  p ∈ products db /\ Product.merchant_id p = i
  /\ active_filter q p = true /\ search_filter q p = true.
Proof.
  unfold selected. rewrite !list_elem_of_filter. tauto.
Qed.

(** The results of a page are summaries of rows of the listing. *)
Lemma page_body_results db q s i number size r :
  store_ok db ->
  QueryParams.merchant_id q = Some s ->
  Py.int s = Some i ->
  r ∈ results_of (mkResponse HTTP_200_OK (page_body (listed q db) number size)) ->
  exists p, p ∈ selected q i db /\ r = ProductListSerializer p.
Proof.
  intros Hok Hq Hs. unfold results_of, page_body. cbn [data].
  intros (row & -> & Hrow)%list_elem_of_fmap.
  exists (fst row). split; [| done].
  rewrite <- (listed_products db q s i Hok Hq Hs).
  apply list_elem_of_fmap_2.
  by apply (subseteq_drop (Z.to_nat ((number - 1) * size))), (subseteq_take (Z.to_nat size)).
Qed.

(** X17. What a list request shows belongs to the merchant it names: when
    the answer is 200, its count is the number of that merchant's products
    that pass the [active] and [search] parameters, the page holds no more
    results than the page size, and every result is the summary of a stored
    product of that merchant which has the [active] flag the request asks
    for and whose title holds the search text, letter case apart. *)
Theorem list_results_match_request db q s i response db' :
  store_ok db ->
  QueryParams.merchant_id q = Some s ->
  Py.int s = Some i ->
  dispatch (list_ q) db = (response, db') ->
  status_code response = HTTP_200_OK ->
  exists next previous results,
    data response = page_of (Z.of_nat (length (selected q i db))) next previous results
    /\ Z.of_nat (length results) <= ProductPagination.get_page_size q
    /\ forall r, r ∈ results ->
         exists p,
           p ∈ products db /\ r = ProductListSerializer p
           /\ Product.merchant_id p = i
           /\ (forall a, QueryParams.active q = Some a ->
                 (Py.lower a = "true"%string -> Product.active p = true)
                 /\ (Py.lower a = "false"%string -> Product.active p = false))
           /\ (forall t, QueryParams.search q = Some t -> Py.truthy_str t = true ->
                 Py.contains (Py.lower t) (Py.lower (Product.title p)) = true).
Proof.
  intros Hok Hq Hs Hrun Hstatus.
  destruct (list_ok_inv _ _ _ _ _ _ Hok Hq Hs Hrun Hstatus) as (-> & number & Hnumber & ->).
  pose proof (get_page_size_bounds q) as Hsize.
  eexists _, _, _. split_and!.
  - unfold page_body. cbn [data].
    by rewrite <- (listed_products db q s i Hok Hq Hs), length_fmap.
  - rewrite length_fmap, length_take. lia.
  - intros r Hr.
    destruct (page_body_results db q s i number (ProductPagination.get_page_size q) r
                Hok Hq Hs Hr) as (p & Hp & ->).
    apply selected_elem in Hp as (Hp & Hmid & Hactive & Hsearch).
    exists p. split_and!; try done.
    + intros a Ha. by apply (active_filter_true q).
    + intros t Ht Htruthy. by apply (search_filter_true q t).
Qed.

Lemma list_results_match_request_witness :
  exists next previous results,
    data (fst (dispatch (list_ active_gadgets_query) shop_with_two))
    = page_of (Z.of_nat (length (selected active_gadgets_query 1 shop_with_two)))
        next previous results
    /\ Z.of_nat (length results) <= ProductPagination.get_page_size active_gadgets_query
    /\ forall r, r ∈ results ->
         exists p,
           p ∈ products shop_with_two /\ r = ProductListSerializer p
           /\ Product.merchant_id p = 1
           /\ (forall a, QueryParams.active active_gadgets_query = Some a ->
                 (Py.lower a = "true"%string -> Product.active p = true)
                 /\ (Py.lower a = "false"%string -> Product.active p = false))
           /\ (forall t, QueryParams.search active_gadgets_query = Some t ->
                 Py.truthy_str t = true ->
                 Py.contains (Py.lower t) (Py.lower (Product.title p)) = true).
Proof.
  apply (list_results_match_request shop_with_two active_gadgets_query "1" 1
           (fst (dispatch (list_ active_gadgets_query) shop_with_two))
           (snd (dispatch (list_ active_gadgets_query) shop_with_two))).
  - store_ok_by_computation.
  - reflexivity.
  - reflexivity.
  - vm_compute. reflexivity.
  - vm_compute. reflexivity.
Defined.

Example list_active_gadgets :
  fst (dispatch (list_ active_gadgets_query) shop_with_two)
  = mkResponse HTTP_200_OK
      (page_of 1 None None [ProductSummary.mk 2 "Gadget" 29999 true None]).
Proof. vm_compute. reflexivity. Qed.

(** ** Listing: walking the pages *)

(** The pages cover the rows: the number of pages times the page size is
    no less than the number of rows, and the last page starts before the
    end of a listing that is not empty. *)
Lemma num_pages_covers count size :
  0 <= count -> 1 <= size ->
  count <= ProductPagination.num_pages count size * size
  /\ (1 <= count -> (ProductPagination.num_pages count size - 1) * size < count).
Proof.
  intros Hcount Hsize. unfold ProductPagination.num_pages.
  pose proof (Z.div_mod (Z.max 1 count + size - 1) size) as Hdiv.
  pose proof (Z.mod_pos_bound (Z.max 1 count + size - 1) size) as Hmod.
  split; [nia |]. intros Hone. replace (Z.max 1 count) with count in * by lia. nia.
Qed.

Lemma pages_concat {A} (l : list A) (size k : nat) :
  concat ((fun n => take size (drop (n * size) l)) <$> seq 0 k) = take (k * size) l.
Proof.
  induction k as [|k IH]; [done |].
  rewrite seq_S, fmap_app, concat_app, IH. cbn [fmap list_fmap concat].
  rewrite app_nil_r, take_take_drop. f_equal. lia.
Qed.

(** A numbered page of a merchant's listing. *)
Lemma list_page_run db q s i m t n :
  QueryParams.merchant_id q = Some s ->
  Py.int s = Some i ->
  filter (fun m => Merchant.id m = i) (merchants db) = [m] ->
  Py.int t = Some n ->
  1 <= n <= ProductPagination.num_pages (Z.of_nat (length (listed q db)))
              (ProductPagination.get_page_size q) ->
  dispatch (list_ (with_page q t)) db
  = (mkResponse HTTP_200_OK
       (page_body (listed q db) n (ProductPagination.get_page_size q)), db).
Proof.
  intros Hq Hs Hm Ht Hn.
  destruct (list_run db (with_page q t) s i m Hq Hs Hm) as [Hpage _].
  apply (Hpage n); [| lia].
  rewrite (validate_number_named (with_page q t) _ _ t n eq_refl Ht).
  change (listed (with_page q t) db) with (listed q db).
  change (ProductPagination.get_page_size (with_page q t))
    with (ProductPagination.get_page_size q).
  destruct (n <? 1) eqn:E1; [lia |].
  destruct (_ <? n) eqn:E2; [lia | done].
Qed.

Lemma walk_pages db q s i m :
  QueryParams.merchant_id q = Some s ->
  Py.int s = Some i ->
  filter (fun m => Merchant.id m = i) (merchants db) = [m] ->
  forall ts ns,
    Py.int <$> ts = Some <$> ns ->
    (forall n, n ∈ ns ->
       1 <= n <= ProductPagination.num_pages (Z.of_nat (length (listed q db)))
                   (ProductPagination.get_page_size q)) ->
    concat ((fun t => results_of (fst (dispatch (list_ (with_page q t)) db))) <$> ts)
    = concat ((fun n => results_of
                          (mkResponse HTTP_200_OK
                             (page_body (listed q db) n (ProductPagination.get_page_size q))))
                <$> ns).
Proof.
  intros Hq Hs Hm. induction ts as [|t ts IH]; intros [|n ns] Hts Hns; try done.
  rewrite !fmap_cons in Hts. injection Hts as Ht Hts.
  rewrite !fmap_cons. cbn [concat].
  rewrite (list_page_run db q s i m t n Hq Hs Hm Ht) by (apply Hns; left).
  cbn [fst]. f_equal. apply IH; [done |]. intros n' Hn'. apply Hns. by right.
Qed.

(** X18. Walking the pages of a listing shows every row once: for a
    merchant that exists, the results of the pages 1, 2, ... up to the
    number of pages, one after the other, are the summaries of the
    merchant's listing, none left out and none repeated. *)
Theorem list_pages_cover_listing db q s i m ts :
  store_ok db ->
  QueryParams.merchant_id q = Some s ->
  Py.int s = Some i ->
  m ∈ merchants db -> Merchant.id m = i ->
  Py.int <$> ts
  = Some <$> (Z.of_nat <$> seq 1 (Z.to_nat (ProductPagination.num_pages
                                              (Z.of_nat (length (listed q db)))
                                              (ProductPagination.get_page_size q)))) ->
  concat ((fun t => results_of (fst (dispatch (list_ (with_page q t)) db))) <$> ts)
  = (fun r => ProductListSerializer (fst r)) <$> listed q db.
Proof.
  intros Hok Hq Hs Hm Hid Hts.
  assert (Hrow : filter (fun m => Merchant.id m = i) (merchants db) = [m]).
  { rewrite <- Hid. apply unique_row; [apply (merchant_pk _ Hok) | done]. }
  pose proof (get_page_size_bounds q) as Hsize.
  set (size := ProductPagination.get_page_size q) in *.
  set (rows := listed q db) in *.
  set (pages := ProductPagination.num_pages (Z.of_nat (length rows)) size) in *.
  pose proof (num_pages_positive (Z.of_nat (length rows)) size (proj1 Hsize)) as Hpages.
  fold pages in Hpages.
  rewrite (walk_pages db q s i m Hq Hs Hrow ts _ Hts).
  - fold rows size. unfold results_of, page_body. cbn [data].
    rewrite <- list_fmap_compose, <- fmap_S_seq, <- list_fmap_compose.
    rewrite (list_fmap_ext _
               (fun k => take (Z.to_nat size)
                           (drop (k * Z.to_nat size)
                              ((fun r => ProductListSerializer (fst r)) <$> rows)))
               (seq 0 (Z.to_nat pages))).
    + rewrite pages_concat. apply take_ge. rewrite length_fmap.
      pose proof (num_pages_covers (Z.of_nat (length rows)) size) as Hcover.
      fold pages in Hcover. nia.
    + intros _ k _. simpl. rewrite fmap_take, fmap_drop. do 2 f_equal. nia.
  - intros n (k & -> & Hk)%list_elem_of_fmap. apply elem_of_seq in Hk.
    fold rows size pages. lia.
Qed.

Lemma list_pages_cover_listing_witness :
  concat ((fun t => results_of (fst (dispatch (list_ (with_page one_per_page_query t))
                                       shop_with_two)))
            <$> ["1"; "2"]%string)
  = (fun r => ProductListSerializer (fst r)) <$> listed one_per_page_query shop_with_two.
Proof.
  apply (list_pages_cover_listing shop_with_two one_per_page_query "1" 1
           (Merchant.mk 1 "Tech Store" "tech@example.com" "s1" "ACTIVE")
           ["1"; "2"]%string).
  - store_ok_by_computation.
  - reflexivity.
  - reflexivity.
  - vm_compute. left.
  - reflexivity.
  - vm_compute. reflexivity.
Defined.

Example list_one_per_page :
  results_of (fst (dispatch (list_ (with_page one_per_page_query "1")) shop_with_two))
  = [ProductSummary.mk 1 "Widget" 800 true None]
  /\ results_of (fst (dispatch (list_ (with_page one_per_page_query "2")) shop_with_two))
     = [ProductSummary.mk 2 "Gadget" 29999 true None].
Proof. vm_compute. done. Qed.

(** X19. The page [last] is the last page: for a merchant that exists, a
    request with [page=last] is answered 200 with the rows from the start
    of the last page to the end of the listing, no link to a next page, and
    a link to the page before when there is more than one page; the page
    holds at least one result unless the listing is empty. *)
Theorem list_last_page db q s i m :
  store_ok db ->
  QueryParams.merchant_id q = Some s ->
  Py.int s = Some i ->
  m ∈ merchants db -> Merchant.id m = i ->
  QueryParams.page q = Some "last"%string ->
  let rows := listed q db in
  let size := ProductPagination.get_page_size q in
  let pages := ProductPagination.num_pages (Z.of_nat (length rows)) size in
  dispatch (list_ q) db
  = (mkResponse HTTP_200_OK
       (page_of (Z.of_nat (length rows)) None
          (if 1 <? pages then Some (pages - 1) else None)
          ((fun r => ProductListSerializer (fst r))
             <$> drop (Z.to_nat ((pages - 1) * size)) rows)), db)
  /\ (rows <> [] -> drop (Z.to_nat ((pages - 1) * size)) rows <> []).
Proof.
  intros Hok Hq Hs Hm Hid Hpage rows size pages.
  assert (Hrow : filter (fun m => Merchant.id m = i) (merchants db) = [m]).
  { rewrite <- Hid. apply unique_row; [apply (merchant_pk _ Hok) | done]. }
  pose proof (get_page_size_bounds q) as Hsize. fold size in Hsize.
  pose proof (num_pages_positive (Z.of_nat (length rows)) size (proj1 Hsize)) as Hpages.
  fold pages in Hpages.
  pose proof (num_pages_covers (Z.of_nat (length rows)) size) as Hcover.
  fold pages in Hcover.
  destruct (list_run db q s i m Hq Hs Hrow) as [Hrun _]. fold rows size pages in Hrun.
  split.
  - rewrite (Hrun pages); [| | lia].
    + unfold page_body. fold rows pages. rewrite Z.ltb_irrefl.
      rewrite take_ge; [done |]. rewrite length_drop. lia.
    + unfold ProductPagination.get_page_number, ProductPagination.validate_number.
      rewrite Hpage. cbn [Py.truthy_str String.eqb Ascii.eqb Bool.eqb andb].
      fold pages. destruct (pages <? 1) eqn:E1; [lia |]. by rewrite Z.ltb_irrefl.
  - intros Hrows Hdrop. apply drop_nil_inv in Hdrop.
    destruct rows as [|r rows']; [done |]. simpl in Hdrop, Hcover. lia.
Qed.

Lemma list_last_page_witness :
  dispatch (list_ last_page_query) shop_with_two
  = (mkResponse HTTP_200_OK
       (page_of (Z.of_nat (length (listed last_page_query shop_with_two))) None
          (if 1 <? ProductPagination.num_pages
                     (Z.of_nat (length (listed last_page_query shop_with_two)))
                     (ProductPagination.get_page_size last_page_query)
           then Some (ProductPagination.num_pages
                        (Z.of_nat (length (listed last_page_query shop_with_two)))
                        (ProductPagination.get_page_size last_page_query) - 1)
           else None)
          ((fun r => ProductListSerializer (fst r))
             <$> drop (Z.to_nat ((ProductPagination.num_pages
                                    (Z.of_nat (length (listed last_page_query shop_with_two)))
                                    (ProductPagination.get_page_size last_page_query) - 1)
                                 * ProductPagination.get_page_size last_page_query))
                   (listed last_page_query shop_with_two))), shop_with_two)
  /\ (listed last_page_query shop_with_two <> [] ->
      drop (Z.to_nat ((ProductPagination.num_pages
                         (Z.of_nat (length (listed last_page_query shop_with_two)))
                         (ProductPagination.get_page_size last_page_query) - 1)
                      * ProductPagination.get_page_size last_page_query))
        (listed last_page_query shop_with_two) <> []).
Proof.
  apply (list_last_page shop_with_two last_page_query "1" 1
           (Merchant.mk 1 "Tech Store" "tech@example.com" "s1" "ACTIVE")).
  - store_ok_by_computation.
  - reflexivity.
  - reflexivity.
  - vm_compute. left.
  - reflexivity.
  - reflexivity.
Defined.

Example list_last_page_of_two :
  fst (dispatch (list_ last_page_query) shop_with_two)
  = mkResponse HTTP_200_OK
      (page_of 2 None (Some 1) [ProductSummary.mk 2 "Gadget" 29999 true None]).
Proof. vm_compute. reflexivity. Qed.

(** ** Listing: parameters that are not used *)

(** X20. Parameters the list view cannot use are ignored, not refused: a
    [page_size] that is no number, zero or negative gives the answer of the
    request without [page_size]; an [active] that is neither [true] nor
    [false] (letter case apart) the answer of the request without
    [active]; an empty [search] the answer of the request without
    [search]. *)
Theorem list_ignores_unusable_parameters db q :
  (forall t, QueryParams.page_size q = Some t ->
     (Py.int t = None \/ exists n, Py.int t = Some n /\ n <= 0) ->
     dispatch (list_ q) db
     = dispatch (list_ (QueryParams.mk (QueryParams.merchant_id q) (QueryParams.active q)
                          (QueryParams.search q) (QueryParams.page q) None)) db)
  /\ (forall a, QueryParams.active q = Some a ->
        Py.lower a <> "true"%string -> Py.lower a <> "false"%string ->
        dispatch (list_ q) db
        = dispatch (list_ (QueryParams.mk (QueryParams.merchant_id q) None
                             (QueryParams.search q) (QueryParams.page q)
                             (QueryParams.page_size q))) db)
  /\ (QueryParams.search q = Some EmptyString ->
        dispatch (list_ q) db
        = dispatch (list_ (QueryParams.mk (QueryParams.merchant_id q) (QueryParams.active q)
                             None (QueryParams.page q) (QueryParams.page_size q))) db).
Proof.
  destruct q as [mid act srch pg ps]. cbn [QueryParams.merchant_id QueryParams.active
    QueryParams.search QueryParams.page QueryParams.page_size].
  split_and!.
  - intros t -> Ht.
    assert (Hsize : forall q1 q2 : QueryParams.t,
               QueryParams.page_size q1 = Some t -> QueryParams.page_size q2 = None ->
               ProductPagination.get_page_size q1 = ProductPagination.get_page_size q2).
    { intros q1 q2 H1 H2.
      unfold ProductPagination.get_page_size, ProductPagination._positive_int.
      rewrite H1, H2. destruct Ht as [-> | (n & -> & Hn)]; [done |].
      destruct (n <? 0) eqn:E1; [done |]. destruct (n =? 0) eqn:E2; [done | lia]. }
    unfold dispatch, list_, ListModelMixin_list, ProductPagination.paginate,
      ProductPagination.get_page_number, get_queryset.
    cbn [QueryParams.merchant_id QueryParams.active QueryParams.search QueryParams.page].
    by rewrite (Hsize (QueryParams.mk mid act srch pg (Some t))
                  (QueryParams.mk mid act srch pg None) eq_refl eq_refl).
  - intros a -> Htrue Hfalse.
    apply String.eqb_neq in Htrue, Hfalse.
    unfold dispatch, list_, ListModelMixin_list, get_queryset, ProductPagination.paginate,
      ProductPagination.get_page_number, ProductPagination.get_page_size.
    cbn [QueryParams.merchant_id QueryParams.active QueryParams.search QueryParams.page
         QueryParams.page_size].
    by rewrite Htrue, Hfalse.
  - intros ->. reflexivity.
Qed.

Lemma list_ignores_unusable_parameters_witness :
  dispatch (list_ unusable_parameters_query) shop_with_two
  = dispatch (list_ (QueryParams.mk (Some "1") (Some "yes") (Some "") None None)) shop_with_two
  /\ dispatch (list_ unusable_parameters_query) shop_with_two
     = dispatch (list_ (QueryParams.mk (Some "1") None (Some "") None (Some "0")))
         shop_with_two
  /\ dispatch (list_ unusable_parameters_query) shop_with_two
     = dispatch (list_ (QueryParams.mk (Some "1") (Some "yes") None None (Some "0")))
         shop_with_two.
Proof.
  pose proof (list_ignores_unusable_parameters shop_with_two unusable_parameters_query)
    as (Hsize & Hactive & Hsearch).
  split_and!.
  - apply (Hsize "0"%string eq_refl). right. exists 0. split; [reflexivity | lia].
  - apply (Hactive "yes"%string eq_refl); discriminate.
  - apply (Hsearch eq_refl).
Defined.

Example list_unusable_parameters_as_plain :
  dispatch (list_ unusable_parameters_query) shop_with_two
  = dispatch (list_ merchant_one_query) shop_with_two.
Proof. vm_compute. reflexivity. Qed.

(** ** Bulk activation: refused requests, repeated requests *)

(** X21. A bulk request that lacks [product_ids], gives an empty list of
    ids, or lacks [active] is answered 400 and changes nothing; the errors
    name [product_ids] exactly when the ids are missing or empty, and
    [active] exactly when it is missing. *)
Theorem bulk_activate_invalid db request :
  (BulkData.product_ids request = None \/ BulkData.product_ids request = Some []
   \/ BulkData.active request = None) ->
  exists errs,
    dispatch (bulk_activate request) db
    = (mkResponse HTTP_400_BAD_REQUEST (errors errs), db)
    /\ ((exists msg, ("product_ids"%string, msg) ∈ errs)
        <-> (BulkData.product_ids request = None \/ BulkData.product_ids request = Some []))
    /\ ((exists msg, ("active"%string, msg) ∈ errs) <-> BulkData.active request = None).
Proof.
  intros Hbad. destruct request as [[[|i ids] |] [a |]]; simpl in Hbad;
    try (destruct Hbad as [? | [? | ?]]; discriminate);
    (eexists; split; [reflexivity |]); split; split;
    try (intros (msg & Hin); repeat (apply elem_of_cons in Hin as [[=] | Hin]);
         try (by inversion Hin); auto);
    try (intros [? | ?]; try discriminate);
    try (intros ?; try discriminate);
    try (eexists; simpl; by repeat first [left | right]).
Qed.

Lemma bulk_activate_invalid_witness :
  exists errs,
    dispatch (bulk_activate (BulkData.mk (Some []) None)) shop_with_two
    = (mkResponse HTTP_400_BAD_REQUEST (errors errs), shop_with_two)
    /\ ((exists msg, ("product_ids"%string, msg) ∈ errs)
        <-> (BulkData.product_ids (BulkData.mk (Some []) None) = None
             \/ BulkData.product_ids (BulkData.mk (Some []) None) = Some []))
    /\ ((exists msg, ("active"%string, msg) ∈ errs)
        <-> BulkData.active (BulkData.mk (Some []) None) = None).
Proof.
  apply (bulk_activate_invalid shop_with_two (BulkData.mk (Some []) None)).
  right. by left.
Defined.

Lemma length_filter_fmap {A} (P : A -> Prop) `{!forall x, Decision (P x)} (f : A -> A)
    (l : list A) :
  (forall x, P (f x) <-> P x) ->
  length (filter P (f <$> l)) = length (filter P l).
Proof.
  intros Hf. induction l as [|a l IH]; [done |].
  rewrite fmap_cons. destruct (decide (P a)) as [Ha | Ha].
  - rewrite !filter_cons_True; [| done | by apply Hf]. simpl. by rewrite IH.
  - rewrite !filter_cons_False; [done | done |]. intros Hfa. by apply Ha, Hf.
Qed.

(** What a valid bulk request does. *)
Lemma bulk_activate_run db ids active :
  ids <> [] ->
  dispatch (bulk_activate (BulkData.mk (Some ids) (Some active))) db
  = (mkResponse HTTP_200_OK
       (bulk_result
          (Z.of_nat (length (filter (fun p => Product.id p ∈ ids) (products db)))) active),
     mkStore (merchants db)
       ((fun p => if decide (Product.id p ∈ ids) then with_active p active else p)
          <$> products db)
       (variants db) (product_seq db) (variant_seq db)).
Proof. intros Hids. by destruct ids. Qed.

Lemma bulk_activate_cases request :
  (exists errs, forall db,
      dispatch (bulk_activate request) db
      = (mkResponse HTTP_400_BAD_REQUEST (errors errs), db))
  \/ exists ids active,
       ids <> [] /\ request = BulkData.mk (Some ids) (Some active).
Proof.
  destruct request as [[[|i ids] |] [a |]];
    try (left; eexists; intros db; reflexivity).
  right. by exists (i :: ids), a.
Qed.

(** X22. A bulk activation is idempotent: sent a second time, the same
    request gets the same answer, with the same [updated_count], and leaves
    the store as the first call left it. *)
Theorem bulk_activate_idempotent db request :
  dispatch (bulk_activate request) (snd (dispatch (bulk_activate request) db))
  = dispatch (bulk_activate request) db.
Proof.
  destruct (bulk_activate_cases request) as [(errs & Hrun) | (ids & active & Hids & ->)].
  - by rewrite !Hrun.
  - rewrite !(bulk_activate_run _ ids active Hids). cbn [snd merchants products variants
      product_seq variant_seq]. f_equal.
    + do 3 f_equal. apply length_filter_fmap. intros p. by case_decide.
    + f_equal. rewrite <- list_fmap_compose. apply list_fmap_ext. intros _ p _. simpl.
      destruct (decide (Product.id p ∈ ids)) as [Hd | Hd]; simpl;
        [rewrite decide_True by done | rewrite decide_False by done]; reflexivity.
Qed.

Example bulk_activate_twice :
  dispatch (bulk_activate (BulkData.mk (Some [1; 999]) (Some false)))
    (snd (dispatch (bulk_activate (BulkData.mk (Some [1; 999]) (Some false))) shop_with_two))
  = dispatch (bulk_activate (BulkData.mk (Some [1; 999]) (Some false))) shop_with_two.
Proof. vm_compute. reflexivity. Qed.

(** ** Bulk activation, then the list *)



Example bulk_deactivate_then_list_active :
  fst (dispatch (list_ active_query)
         (snd (dispatch (bulk_activate (BulkData.mk (Some [1; 999]) (Some false)))
                 shop_with_two)))
  = mkResponse HTTP_200_OK
      (page_of 1 None None [ProductSummary.mk 2 "Gadget" 29999 true None])
  /\ fst (dispatch (list_ inactive_merchant_one_query)
            (snd (dispatch (bulk_activate (BulkData.mk (Some [1; 999]) (Some false)))
                    shop_with_two)))
     = mkResponse HTTP_200_OK
         (page_of 1 None None [ProductSummary.mk 1 "Widget" 800 false None]).
Proof. vm_compute. done. Qed.

(** ** The views that write keep the constraints *)

Lemma remove_product_store_ok db pk q response db' :
  store_ok db ->
  dispatch_remove (remove_product pk q) db = (response, db') ->
  store_ok db'.
Proof.
  intros Hok Hrun.
  apply remove_product_inv in Hrun
    as [(p & m & i & _ & _ & Hsel & _ & ->) | (-> & _)]; [| done].
  apply (Product_save_store_ok _ p); [done | | done | done].
  apply (select_related_rows _ _ _ Hsel).
Qed.

(** X24. No view that writes breaks a constraint of the tables: on a store
    whose primary keys and unique columns hold no value twice, whose
    products have one row per merchant and external id and whose variants
    one per product and external id, and whose foreign keys point at stored
    rows, the same is true after an import, a bulk activation or a soft
    delete, whatever the request and whatever the answer. *)
Theorem writing_views_keep_constraints db :
  store_ok db ->
  (forall request, store_ok (snd (dispatch (import_product request) db)))
  /\ (forall request, store_ok (snd (dispatch (bulk_activate request) db)))
  /\ (forall pk q, store_ok (snd (dispatch_remove (remove_product pk q) db))).
Proof.
  intros Hok. split_and!.
  - intros request.
    apply (import_product_store_ok db request _ _ Hok (surjective_pairing _)).
  - intros request.
    apply (bulk_activate_store_ok db request _ _ Hok (surjective_pairing _)).
  - intros pk q.
    apply (remove_product_store_ok db pk q _ _ Hok (surjective_pairing _)).
Qed.

Lemma writing_views_keep_constraints_witness :
  (forall request, store_ok (snd (dispatch (import_product request) shop_with_two)))
  /\ (forall request, store_ok (snd (dispatch (bulk_activate request) shop_with_two)))
  /\ (forall pk q, store_ok (snd (dispatch_remove (remove_product pk q) shop_with_two))).
Proof.
  apply (writing_views_keep_constraints shop_with_two). store_ok_by_computation.
Defined.

(** ** The soft delete, then the detail *)

(** X25. A removed product can still be read: after the soft delete of a
    stored product, the detail request for its id is answered 200 with the
    product's columns as they were, but for [active], which is false, and
    with all the variants it had. *)
Theorem remove_product_then_retrieve db pk p m q :
  store_ok db ->
  Py.int pk = Some (Product.id p) ->
  p ∈ products db ->
  m ∈ merchants db -> Merchant.id m = Product.merchant_id p ->
  QueryParams.merchant_id q = None -> QueryParams.active q = None ->
  QueryParams.search q = None ->
  dispatch (retrieve pk q) (snd (dispatch_remove (remove_product pk q) db))
  = (mkResponse HTTP_200_OK (detail (detail_of (with_active p false) m db)),
     snd (dispatch_remove (remove_product pk q) db)).
Proof.
  intros Hok Hpk Hp Hm Hmid Hq Ha Hs.
  rewrite (remove_product_run db pk (Product.id p) p q Hok Hpk Hp eq_refl Hq Ha Hs).
  cbn [snd].
  assert (Hp' : with_active p false ∈ products (deactivated_store (Product.id p) db)).
  { unfold deactivated_store. simpl. apply list_elem_of_fmap. exists p.
    split; [by rewrite decide_True | done]. }
  pose proof (remove_product_store_ok_step db p Hok Hp) as Hok'.
  by rewrite (retrieve_run (deactivated_store (Product.id p) db) pk (with_active p false) m q
                Hok' Hpk Hp' Hm Hmid Hq Ha Hs).
Qed.

Lemma remove_product_then_retrieve_witness :
  dispatch (retrieve "1" plain_query)
    (snd (dispatch_remove (remove_product "1" plain_query) shop_with_two))
  = (mkResponse HTTP_200_OK
       (detail (detail_of (with_active (Product.mk 1 1 "P1" "Widget" "" "" true 800) false)
                  (Merchant.mk 1 "Tech Store" "tech@example.com" "s1" "ACTIVE")
                  shop_with_two)),
     snd (dispatch_remove (remove_product "1" plain_query) shop_with_two)).
Proof.
  apply (remove_product_then_retrieve shop_with_two "1"
           (Product.mk 1 1 "P1" "Widget" "" "" true 800)
           (Merchant.mk 1 "Tech Store" "tech@example.com" "s1" "ACTIVE") plain_query).
  - store_ok_by_computation.
  - reflexivity.
  - vm_compute. left.
  - vm_compute. left.
  - reflexivity.
  - reflexivity.
  - reflexivity.
  - reflexivity.
Defined.

(** ** Detail: ids that are no numbers *)

(** X26. A detail request for an id that is no number is answered 404,
    as for a missing product; but a [merchant_id] parameter that is no
    number makes the queryset's filter raise [ValueError], which nothing
    takes: the answer is 500, whatever the id.  Neither writes. *)
Theorem retrieve_malformed_ids db pk q :
  (Py.int pk = None ->
   (Py.truthy_param (QueryParams.merchant_id q) = false
    \/ exists s j, QueryParams.merchant_id q = Some s /\ Py.int s = Some j) ->
   dispatch (retrieve pk q) db
   = (mkResponse HTTP_404_NOT_FOUND (exception_detail Http404), db))
  /\ (forall s, QueryParams.merchant_id q = Some s ->
        Py.truthy_str s = true -> Py.int s = None ->
        dispatch (retrieve pk q) db
        = (mkResponse HTTP_500_INTERNAL_SERVER_ERROR server_error, db)).
Proof.
  split.
  - intros Hpk Hq.
    destruct (get_queryset_retrieve_run q db Hq) as (queryset & Hqs & _).
    apply (retrieve_missing _ _ _ _ Hqs). intros i Hi. congruence.
  - intros s Hq Htruthy Hs.
    assert (Hqs : get_queryset action_retrieve q db = (Raise ValueError, db)).
    { unfold get_queryset, bind at 1, get_store. cbn [andb]. rewrite Hq, Htruthy.
      unfold get_prep_value. by rewrite Hs. }
    unfold dispatch, retrieve, get_object.
    by rewrite (bind_run_raise _ _ _ _ _ (bind_run_raise _ _ _ _ _ Hqs)).
Qed.

Lemma retrieve_malformed_ids_witness :
  dispatch (retrieve "abc" plain_query) shop_with_two
  = (mkResponse HTTP_404_NOT_FOUND (exception_detail Http404), shop_with_two)
  /\ dispatch (retrieve "1" letters_merchant_detail_query) shop_with_two
     = (mkResponse HTTP_500_INTERNAL_SERVER_ERROR server_error, shop_with_two).
Proof.
  pose proof (retrieve_malformed_ids shop_with_two "abc" plain_query) as [Hpk _].
  pose proof (retrieve_malformed_ids shop_with_two "1" letters_merchant_detail_query)
    as [_ Hmid].
  split.
  - apply Hpk; [reflexivity | by left].
  - apply (Hmid "abc"%string); reflexivity.
Defined.
